(** * A personal finance tracker: records, ledger, persistence

    Shallow embedding of [Decinilla-MyPersonaFinanceTrcker8.py]: the class
    [FinancialRecord] (a dated entry with a description, an amount, an
    optional due date and a kind tag) and the class [FinanceTracker] (two
    lists of records, [plans] and [trash_bin], written to a JSON file after
    every change), followed by the properties of the two classes.

    Python is dynamically typed: the fields of a record hold whatever the
    constructor was given, and [from_dict] passes on whatever the JSON file
    held.  The embedding therefore keeps the fields as dynamic values
    ([pyval]) and lets every operation raise where Python raises. *)

From Stdlib Require Import ZArith List String Ascii Floats Sorted Permutation Lia.
From stdpp Require Import base gmap strings list.

Set Warnings "-inexact-float".
Local Open Scope string_scope.
Local Open Scope Z_scope.

(** ** Exceptions and results *)

(** The exceptions of the modelled code paths. *)
Inductive exn : Type :=
| KeyError (key : string)
| ValueError
| TypeError
| OverflowError
| IndexError
| OSError
| EOFError.

(** The outcome of an expression: a value, or a raised exception. *)
Inductive result (A : Type) : Type :=
| Ok (a : A)
| Raise (e : exn).
Arguments Ok {A} a.
Arguments Raise {A} e.

#[global] Instance result_ret : MRet result := fun A a => Ok a.
#[global] Instance result_bind : MBind result := fun A B k r =>
  match r with
  | Ok a => k a
  | Raise e => Raise e
  end.

(** ** Python values *)

(** The scalar values a JSON document holds: [null], booleans, integers of
    any size, binary64 floats and strings.  (Nested arrays and objects as
    field values are left out of the model.) *)
Inductive pyval : Type :=
| VNone
| VBool (b : bool)
| VInt (z : Z)
| VFloat (f : float)
| VStr (s : string).

(** A [dict] with string keys. *)
Abbreviation pydict := (gmap string pyval).

(** [d[k]]: raises [KeyError] when the key is absent. *)
Definition getitem (d : pydict) (k : string) : result pyval :=
  match d !! k with
  | Some v => Ok v
  | None => Raise (KeyError k)
  end.

(** [d.get(k, default)]. *)
Definition dict_get (d : pydict) (k : string) (default : pyval) : pyval :=
  match d !! k with
  | Some v => v
  | None => default
  end.

(** [v == s] for a string literal [s]: false for every value that is not
    that string. *)
Definition eq_str (v : pyval) (s : string) : bool :=
  match v with
  | VStr t => String.eqb t s
  | _ => false
  end.

(** Truth value of a value, as [if v] and [v and ...] test it. *)
Definition truthy (v : pyval) : bool :=
  match v with
  | VNone => false
  | VBool b => b
  | VInt z => negb (z =? 0)
  | VFloat f => negb (PrimFloat.eqb f 0%float)
  | VStr s => negb (String.eqb s "")
  end.

(** ** Numbers *)

(** The numeric view of a value: [bool] is a subclass of [int]. *)
Inductive num : Type :=
| NInt (z : Z)
| NFloat (f : float).

Definition as_num (v : pyval) : option num :=
  match v with
  | VBool b => Some (NInt (if b then 1 else 0))
  | VInt z => Some (NInt z)
  | VFloat f => Some (NFloat f)
  | _ => None
  end.

(** [float(z)] for an [int]: the nearest binary64 value (ties to even),
    [OverflowError] when that is out of range. *)
Definition float_of_int (z : Z) : result float :=
  match binary_normalize prec emax z 0 false with
  | S754_infinity _ => Raise OverflowError
  | sf => Ok (SF2Prim sf)
  end.

(** A binary arithmetic operator on two values: integers stay integers, a
    mixed pair is computed in binary64, anything else is a [TypeError]. *)
Definition arith (opz : Z -> Z -> Z) (opf : float -> float -> float)
  (a b : pyval) : result pyval :=
  match as_num a, as_num b with
  | Some (NInt x), Some (NInt y) => Ok (VInt (opz x y))
  | Some (NInt x), Some (NFloat g) => f ← float_of_int x; Ok (VFloat (opf f g))
  | Some (NFloat f), Some (NInt y) => g ← float_of_int y; Ok (VFloat (opf f g))
  | Some (NFloat f), Some (NFloat g) => Ok (VFloat (opf f g))
  | _, _ => Raise TypeError
  end.

(** [a + b]. *)
Definition py_add (a b : pyval) : result pyval :=
  match a, b with
  | VStr s, VStr t => Ok (VStr (s ++ t))
  | _, _ => arith Z.add PrimFloat.add a b
  end.

(** [a - b]. *)
Definition py_sub (a b : pyval) : result pyval :=
  arith Z.sub PrimFloat.sub a b.

(** The loop of the built-in [sum]: [acc = acc + item] for the items from
    left to right. *)
Fixpoint sum_from (acc : pyval) (items : list pyval) : result pyval :=
  match items with
  | [] => Ok acc
  | x :: items' => acc' ← py_add acc x; sum_from acc' items'
  end.

(** [sum(items)]: the accumulation starts from the integer [0].  (CPython
    from 3.12 on carries a compensation term while the items are floats;
    the plain accumulation of the language reference is modelled.) *)
Definition py_sum (items : list pyval) : result pyval := sum_from (VInt 0) items.

(** The signed integer [m] of a finite float [m * 2^e]. *)
Definition signed (s : bool) (m : positive) : Z :=
  if s then Z.neg m else Z.pos m.

(** [z < f] and [f < z] for an integer and a float, which Python compares
    by their exact values. *)
Definition int_lt_float (z : Z) (f : float) : bool :=
  match Prim2SF f with
  | S754_nan => false
  | S754_infinity s => negb s
  | S754_zero _ => z <? 0
  | S754_finite s m e =>
      if 0 <=? e then z <? signed s m * 2 ^ e else z * 2 ^ (- e) <? signed s m
  end.

Definition float_lt_int (f : float) (z : Z) : bool :=
  match Prim2SF f with
  | S754_nan => false
  | S754_infinity s => s
  | S754_zero _ => 0 <? z
  | S754_finite s m e =>
      if 0 <=? e then signed s m * 2 ^ e <? z else signed s m <? z * 2 ^ (- e)
  end.

(** [a < b]: strings by code point, numbers by value, [TypeError] for any
    other pair. *)
Definition py_lt (a b : pyval) : result bool :=
  match a, b with
  | VStr s, VStr t => Ok (String.ltb s t)
  | _, _ =>
      match as_num a, as_num b with
      | Some (NInt x), Some (NInt y) => Ok (x <? y)
      | Some (NInt x), Some (NFloat g) => Ok (int_lt_float x g)
      | Some (NFloat f), Some (NInt y) => Ok (float_lt_int f y)
      | Some (NFloat f), Some (NFloat g) => Ok (PrimFloat.ltb f g)
      | _, _ => Raise TypeError
      end
  end.

(** ** Sorting *)

Section Sorted.
Context {A : Type} (key : A -> pyval).

(** [x] put into a list sorted by key, before the first element whose key
    is not below its own. *)
Fixpoint insert_by_key (x : A) (l : list A) : result (list A) :=
  match l with
  | [] => Ok [x]
  | y :: l' =>
      b ← py_lt (key y) (key x);
      if b : bool then (r ← insert_by_key x l'; Ok (y :: r)) else Ok (x :: l)
  end.

(** [sorted(l, key=key)]: the stable sort under [<] on the keys, here by
    insertion from the right.  Python fixes the result of [sorted] only as
    far as [<] orders the keys (then it is this list, whatever the
    algorithm), and raises what a comparison raises. *)
Fixpoint py_sorted (l : list A) : result (list A) :=
  match l with
  | [] => Ok []
  | x :: l' => r ← py_sorted l'; insert_by_key x r
  end.

End Sorted.

(** ** Formatting *)

(** [format(v, ".2f")], as in [f"{v:.2f}"]: defined for numbers only; an
    integer is converted to a float first.  The text itself is not
    modelled. *)
Definition format_2f (v : pyval) : result unit :=
  match v with
  | VNone => Raise TypeError
  | VStr _ => Raise ValueError
  | VBool _ | VFloat _ => Ok tt
  | VInt z => _ ← float_of_int z; Ok tt
  end.

(** [format(v, "<20")], as in [f"{v:<20}"]: [None] accepts no format
    specification. *)
Definition format_pad (v : pyval) : result unit :=
  match v with
  | VNone => Raise TypeError
  | _ => Ok tt
  end.

(** ** Calendar dates ([datetime.date]) *)

Module Date.

Record t : Type := mk { year : Z; month : Z; day : Z }.

Definition is_leap (y : Z) : bool :=
  (y mod 4 =? 0) && (negb (y mod 100 =? 0) || (y mod 400 =? 0)).

Definition days_in_month (y m : Z) : Z :=
  if m =? 2 then (if is_leap y then 29 else 28)
  else if (m =? 4) || (m =? 6) || (m =? 9) || (m =? 11) then 30
  else 31.

(** The range check of the [date] constructor: every [date] object
    satisfies it. *)
Definition valid_ymd (y m d : Z) : bool :=
  (1 <=? y) && (y <=? 9999) && (1 <=? m) && (m <=? 12)
  && (1 <=? d) && (d <=? days_in_month y m).

Definition valid (x : t) : bool := valid_ymd (year x) (month x) (day x).

(** The character of the last decimal digit of [n]. *)
Definition digit (n : Z) : ascii := ascii_of_N (Z.to_N (48 + n mod 10)).

(** [isoformat()]: ["%04d-%02d-%02d"], which for a [date] object is four,
    two and two digits. *)
Definition isoformat (x : t) : string :=
  String (digit (year x / 1000)) (String (digit (year x / 100))
  (String (digit (year x / 10)) (String (digit (year x))
  (String "-" (String (digit (month x / 10)) (String (digit (month x))
  (String "-" (String (digit (day x / 10)) (String (digit (day x))
  EmptyString))))))))).

(** The value of an ASCII digit. *)
Definition digit_val (c : ascii) : option Z :=
  let n := Z.of_N (N_of_ascii c) in
  if (48 <=? n) && (n <=? 57) then Some (n - 48) else None.

(** A run of digits read as a decimal number. *)
Fixpoint parse_digits (cs : list ascii) (acc : Z) : option Z :=
  match cs with
  | [] => Some acc
  | c :: cs' =>
      match digit_val c with
      | Some v => parse_digits cs' (10 * acc + v)
      | None => None
      end
  end.

(** *** Reading a date

    [date.fromisoformat] is the reader of the [datetime] module, here as
    CPython 3.11 has it ([date_fromisoformat], [parse_isoformat_date] and
    [iso_to_ymd] of [Modules/_datetimemodule.c]): besides the format
    [YYYY-MM-DD] that [isoformat] writes it reads the same date without
    hyphens and the week dates of ISO 8601.  (Python 3.7 to 3.10 read
    [YYYY-MM-DD] only.)  A text is the sequence of the bytes of its UTF-8
    encoding, which is what the reader looks at. *)

(** The character at index [i]; at the end of the text, the [NUL] that
    ends it. *)
Definition char_at (s : string) (i : nat) : ascii :=
  match String.get i s with
  | Some c => c
  | None => Ascii.zero
  end.

(** [parse_digits(p, &var, n)]: the number written by the [n] characters
    from index [i] on, all of which must be digits. *)
Definition digits_at (s : string) (i n : nat) : option Z :=
  parse_digits (char_at s <$> seq i n) 0.

(** The days before the first of January of year [y], counted from
    0001-01-01. *)
Definition days_before_year (y : Z) : Z :=
  let y := y - 1 in
  if 0 <=? y then y * 365 + y / 4 - y / 100 + y / 400 else -366.

Definition _days_before_month : list Z :=
  [0; 0; 31; 59; 90; 120; 151; 181; 212; 243; 273; 304; 334].

Definition days_before_month (y m : Z) : Z :=
  nth (Z.to_nat m) _days_before_month 0 + (if (2 <? m) && is_leap y then 1 else 0).

(** The number of the day, 0001-01-01 being day 1. *)
Definition ymd_to_ord (y m d : Z) : Z :=
  days_before_year y + days_before_month y m + d.

(** The day of the week, 0 for Monday; [%] of C truncates. *)
Definition weekday (y m d : Z) : Z := Z.rem (ymd_to_ord y m d + 6) 7.

(** The number of the Monday that starts week 1 of the ISO year. *)
Definition iso_week1_monday (y : Z) : Z :=
  let first_day := ymd_to_ord y 1 1 in
  let first_weekday := Z.rem (first_day + 6) 7 in
  let week1_monday := first_day - first_weekday in
  if 3 <? first_weekday then week1_monday + 7 else week1_monday.

(** The date with the given number, for a number from 1 on. *)
Definition ord_to_ymd (ordinal : Z) : Z * Z * Z :=
  let ordinal := ordinal - 1 in
  let n400 := ordinal / 146097 in
  let n := ordinal mod 146097 in
  let n100 := n / 36524 in
  let n := n mod 36524 in
  let n4 := n / 1461 in
  let n := n mod 1461 in
  let n1 := n / 365 in
  let n := n mod 365 in
  let y := n400 * 400 + 1 + n100 * 100 + n4 * 4 + n1 in
  if (n1 =? 4) || (n100 =? 4) then (y - 1, 12, 31)
  else
    let leapyear := (n1 =? 3) && (negb (n4 =? 24) || (n100 =? 3)) in
    let m := Z.shiftr (n + 50) 5 in
    let preceding :=
      nth (Z.to_nat m) _days_before_month 0 + (if (2 <? m) && leapyear then 1 else 0) in
    if n <? preceding
    then (y, m - 1, n - (preceding - days_in_month y (m - 1)) + 1)
    else (y, m, n - preceding + 1).

(** [iso_to_ymd]: the date of day [iso_day] (1 for Monday) of week
    [iso_week] of the ISO year; nothing when there is no such week or day.
    Week 53 exists in the years that start on a Thursday, and in the leap
    years that start on a Wednesday.  The days of the year 0000 all lie
    before 0001-01-01, where the C code leaves the domain of [ord_to_ymd];
    the interpreter answers them with [ValueError]. *)
Definition iso_to_ymd (iso_year iso_week iso_day : Z) : option (Z * Z * Z) :=
  let first_weekday := weekday iso_year 1 1 in
  if ((iso_week <=? 0) || (53 <=? iso_week))
     && negb ((iso_week =? 53)
              && ((first_weekday =? 3) || ((first_weekday =? 2) && is_leap iso_year)))
  then None
  else if (iso_day <=? 0) || (8 <=? iso_day) then None
  else
    let day_1 := iso_week1_monday iso_year in
    let day_offset := (iso_week - 1) * 7 + iso_day - 1 in
    if day_1 + day_offset <? 1 then None
    else Some (ord_to_ymd (day_1 + day_offset)).

(** [parse_isoformat_date]: four digits for the year, a hyphen or not,
    then either [W], two digits for the week and, if the text goes on, a
    digit for the day (after a hyphen when the year was followed by one),
    or two digits for the month and two for the day (each after a hyphen
    when the year was followed by one).  What follows is not looked at. *)
Definition parse_isoformat_date (s : string) : option (Z * Z * Z) :=
  y ← digits_at s 0 4;
  let uses_separator := Ascii.eqb (char_at s 4) "-" in
  let p := if uses_separator then 5%nat else 4%nat in
  if Ascii.eqb (char_at s p) "W" then
    iso_week ← digits_at s (p + 1) 2;
    let p := (p + 3)%nat in
    if (p <? String.length s)%nat then
      if uses_separator && negb (Ascii.eqb (char_at s p) "-") then None
      else
        let p := if uses_separator then (p + 1)%nat else p in
        iso_day ← digits_at s p 1;
        iso_to_ymd y iso_week iso_day
    else iso_to_ymd y iso_week 1
  else
    m ← digits_at s p 2;
    let p := (p + 2)%nat in
    if uses_separator && negb (Ascii.eqb (char_at s p) "-") then None
    else
      let p := if uses_separator then (p + 1)%nat else p in
      d ← digits_at s p 2;
      Some (y, m, d).

(** [date.fromisoformat(s)] on a string: a text of 7, 8 or 10 bytes that
    [parse_isoformat_date] reads, then the range check of the constructor;
    [ValueError] otherwise. *)
Definition fromisoformat_str (s : string) : result t :=
  let len := String.length s in
  if (len =? 7)%nat || (len =? 8)%nat || (len =? 10)%nat then
    match parse_isoformat_date s with
    | Some (y, m, d) =>
        if valid_ymd y m d then Ok (mk y m d) else Raise ValueError
    | None => Raise ValueError
    end
  else Raise ValueError.

(** [date.fromisoformat(v)]: [TypeError] when the argument is not a
    string. *)
Definition fromisoformat (v : pyval) : result t :=
  match v with
  | VStr s => fromisoformat_str s
  | _ => Raise TypeError
  end.

(** *** The texts that are read

    The same reader, by the forms of the text: the calendar date with
    hyphens ([YYYY-MM-DD], what [isoformat] writes) or without
    ([YYYYMMDD]), and the week date with hyphens ([YYYY-Www],
    [YYYY-Www-D]) or without ([YYYYWww], [YYYYWwwD]).  After a date of
    eight characters written without hyphens there may be two more
    bytes, which are not looked at. *)

Definition text1 (n : Z) : string := String (digit n) EmptyString.

Definition text2 (n : Z) : string := String (digit (n / 10)) (text1 n).

Definition text4 (n : Z) : string :=
  String (digit (n / 1000)) (String (digit (n / 100)) (text2 n)).

(** Nothing, or two bytes. *)
Definition ignored (rest : string) : Prop :=
  String.length rest = 0%nat \/ String.length rest = 2%nat.

Inductive iso_text : string -> Z * Z * Z -> Prop :=
| iso_extended (y m d : Z) :
    0 <= y <= 9999 -> 0 <= m <= 99 -> 0 <= d <= 99 ->
    iso_text (text4 y ++ "-" ++ text2 m ++ "-" ++ text2 d) (y, m, d)
| iso_basic (y m d : Z) (rest : string) :
    0 <= y <= 9999 -> 0 <= m <= 99 -> 0 <= d <= 99 -> ignored rest ->
    iso_text (text4 y ++ text2 m ++ text2 d ++ rest) (y, m, d)
| iso_week_extended (y w : Z) (ymd : Z * Z * Z) :
    0 <= y <= 9999 -> 0 <= w <= 99 ->
    iso_to_ymd y w 1 = Some ymd ->
    iso_text (text4 y ++ "-W" ++ text2 w) ymd
| iso_week_day_extended (y w k : Z) (ymd : Z * Z * Z) :
    0 <= y <= 9999 -> 0 <= w <= 99 -> 0 <= k <= 9 ->
    iso_to_ymd y w k = Some ymd ->
    iso_text (text4 y ++ "-W" ++ text2 w ++ "-" ++ text1 k) ymd
| iso_week_basic (y w : Z) (ymd : Z * Z * Z) :
    0 <= y <= 9999 -> 0 <= w <= 99 ->
    iso_to_ymd y w 1 = Some ymd ->
    iso_text (text4 y ++ "W" ++ text2 w) ymd
| iso_week_day_basic (y w k : Z) (rest : string) (ymd : Z * Z * Z) :
    0 <= y <= 9999 -> 0 <= w <= 99 -> 0 <= k <= 9 -> ignored rest ->
    iso_to_ymd y w k = Some ymd ->
    iso_text (text4 y ++ "W" ++ text2 w ++ text1 k ++ rest) ymd.

(** The text [s] is read as the calendar date [x]. *)
Definition reads (s : string) (x : t) : Prop :=
  iso_text s (year x, month x, day x) /\ valid x = true.

End Date.

(** ** class FinancialRecord *)

Module FinancialRecord.

Record t : Type := mk {
  date : Date.t;
  description : pyval;
  amount : pyval;
  due_date : pyval;
  record_type : pyval
}.

(** [__init__]: the five assignments, nothing else.  (The defaults of the
    last two parameters are [None] and ["expense"].) *)
Definition __init__ (date : Date.t) (description amount due_date record_type : pyval)
  : result t :=
  Ok {| date := date;
        description := description;
        amount := amount;
        due_date := due_date;
        record_type := record_type |}.

Definition to_dict (self : t) : pydict :=
  <["date" := VStr (Date.isoformat (date self))]>
  (<["description" := description self]>
  (<["amount" := amount self]>
  (<["due_date" := due_date self]>
  (<["record_type" := record_type self]> ∅)))).

Definition from_dict (data : pydict) : result t :=
  date_v ← getitem data "date";
  date ← Date.fromisoformat date_v;
  description ← getitem data "description";
  amount ← getitem data "amount";
  __init__ date description amount
           (dict_get data "due_date" VNone)
           (dict_get data "record_type" (VStr "expense")).

End FinancialRecord.

(** ** The world of a tracker: its file and its output *)

(** What [json.dump] writes: the object with the two arrays of record
    objects.  (The JSON text is not modelled, only the document.) *)
Record document : Type := {
  doc_plans : list pydict;
  doc_trash_bin : list pydict
}.

(** The file system as the tracker sees it: which paths [open(path, 'w')]
    accepts, and what the files hold. *)
Record filesystem : Type := {
  writable : string -> bool;
  files : gmap string document
}.

(** The lines [print] writes.  Fixed messages are named; a line that shows
    fields of a record carries the record. *)
Inductive line : Type :=
| NoRecords                 (* No records to display. *)
| TableHeader               (* the column titles *)
| TableRule                 (* the row of dashes *)
| TableRow (n : Z) (r : FinancialRecord.t)
| NoUpcoming                (* No upcoming due dates. *)
| UpcomingHeader            (* Upcoming Due Dates: *)
| DueLine (r : FinancialRecord.t)
| DeletionCancelled         (* Deletion cancelled. *)
| Deleted (r : FinancialRecord.t)
| InvalidPlanNumber         (* Invalid plan number. Please try again. *)
| InvalidInput              (* Invalid input. Please enter a number. *)
| ErrorSaving (e : exn)     (* Error saving data: ... *)
| AddHeader                 (* Add New Financial Record *)
| InvalidRecordType         (* Invalid record type. Please enter ... *)
| InvalidDateFormat         (* Invalid date format. Please use MM-DD-YYYY. *)
| EmptyDescription          (* Description cannot be empty. *)
| AmountNotPositive         (* Invalid Amount. Must be positive. *)
| AmountNotNumber           (* Invalid amount. Please enter a number. *)
| Added (record_type : string).  (* Plan / Allowance record added successfully! *)

(** ** class FinanceTracker *)

Module FinanceTracker.

(** The attributes of the object. *)
Record t : Type := mk {
  plans : list FinancialRecord.t;
  trash_bin : list FinancialRecord.t;
  data_file : string
}.

(** A state of the program: the tracker object, the file system, and what
    has been printed so far. *)
Record state : Type := mkState {
  self : t;
  fs : filesystem;
  stdout : list line
}.

(** A method: it runs from a state to an outcome and a state.  What was
    done before an exception was raised stays done. *)
Definition M (A : Type) : Type := state -> result A * state.

#[global] Instance M_ret : MRet M := fun A a s => (Ok a, s).
#[global] Instance M_bind : MBind M := fun A B k m s =>
  match m s with
  | (Ok a, s') => k a s'
  | (Raise e, s') => (Raise e, s')
  end.

Definition get_self : M t := fun s => (Ok (self s), s).

Definition set_self (x : t) : M unit := fun s =>
  (Ok tt, {| self := x; fs := fs s; stdout := stdout s |}).

Definition print (l : line) : M unit := fun s =>
  (Ok tt, {| self := self s; fs := fs s; stdout := stdout s ++ [l] |}).

(** The state with some more lines printed. *)
Definition printed (s : state) (ls : list line) : state :=
  {| self := self s; fs := fs s; stdout := stdout s ++ ls |}.

(** An expression that may raise, evaluated inside a method. *)
Definition lift {A : Type} (r : result A) : M A := fun s => (r, s).

(** [try: body except Exception as e: handler e]; every exception of the
    model is an [Exception]. *)
Definition try_except {A : Type} (body : M A) (handler : exn -> M A) : M A :=
  fun s =>
    match body s with
    | (Ok a, s') => (Ok a, s')
    | (Raise e, s') => handler e s'
    end.

(** [with open(path, 'w') as f: json.dump(data, f, indent=2)]: [OSError]
    when the path cannot be opened for writing; otherwise the file holds
    the document afterwards. *)
Definition open_w_dump (path : string) (data : document) : M unit := fun s =>
  if writable (fs s) path
  then (Ok tt, {| self := self s;
                  fs := {| writable := writable (fs s);
                           files := <[path := data]> (files (fs s)) |};
                  stdout := stdout s |})
  else (Raise OSError, s).

Definition save_data : M unit :=
  try_except
    (this ← get_self;
     let data := {| doc_plans := FinancialRecord.to_dict <$> plans this;
                    doc_trash_bin := FinancialRecord.to_dict <$> trash_bin this |} in
     open_w_dump (data_file this) data)
    (fun e => print (ErrorSaving e)).

Definition add_record (record : FinancialRecord.t) : M unit :=
  this ← get_self;
  _ ← set_self {| plans := plans this ++ [record];
                  trash_bin := trash_bin this;
                  data_file := data_file this |};
  save_data.

(** The rows of [view_plans]: for each plan the amount is formatted with
    [.2f] and then the row with its padded fields, before it is printed. *)
Fixpoint view_rows (i : Z) (l : list FinancialRecord.t) : M unit :=
  match l with
  | [] => mret tt
  | plan :: l' =>
      _ ← lift (format_2f (FinancialRecord.amount plan));
      _ ← lift (format_pad (FinancialRecord.description plan));
      _ ← print (TableRow (i + 1) plan);
      view_rows (i + 1) l'
  end.

(** [view_plans(plans_list)], the argument given. *)
Definition view_plans_of (plans_to_view : list FinancialRecord.t) : M unit :=
  match plans_to_view with
  | [] => print NoRecords
  | _ =>
      _ ← print TableHeader;
      _ ← print TableRule;
      view_rows 0 plans_to_view
  end.

(** [view_plans()]: the active plans. *)
Definition view_plans : M unit :=
  this ← get_self;
  view_plans_of (plans this).

Definition is_income (plan : FinancialRecord.t) : bool :=
  eq_str (FinancialRecord.record_type plan) "income".

Definition is_expense (plan : FinancialRecord.t) : bool :=
  eq_str (FinancialRecord.record_type plan) "expense".

(** The dictionary [calculate_balance] returns. *)
Record balance : Type := {
  income : pyval;
  expenses : pyval;
  net_balance : pyval
}.

Definition calculate_balance : M balance :=
  this ← get_self;
  total_income ← lift (py_sum (FinancialRecord.amount <$> List.filter is_income (plans this)));
  total_expenses ← lift (py_sum (FinancialRecord.amount <$> List.filter is_expense (plans this)));
  net ← lift (py_sub total_income total_expenses);
  mret {| income := total_income;
          expenses := total_expenses;
          net_balance := net |}.

(** The body of the loop of [view_upcoming_due_dates]. *)
Fixpoint print_due (l : list FinancialRecord.t) : M unit :=
  match l with
  | [] => mret tt
  | expense :: l' =>
      _ ← lift (format_2f (FinancialRecord.amount expense));
      _ ← print (DueLine expense);
      print_due l'
  end.

Definition has_due (plan : FinancialRecord.t) : bool :=
  is_expense plan && truthy (FinancialRecord.due_date plan).

Definition view_upcoming_due_dates : M unit :=
  this ← get_self;
  let upcoming_expenses := List.filter has_due (plans this) in
  match upcoming_expenses with
  | [] => print NoUpcoming
  | _ =>
      _ ← print UpcomingHeader;
      ordered ← lift (py_sorted FinancialRecord.due_date upcoming_expenses);
      print_due ordered
  end.

(** [l.pop(i)]: the element at index [i] and the list without it; a
    negative index counts from the end; [IndexError] out of range. *)
Definition list_pop {A : Type} (l : list A) (i : Z) : result (A * list A) :=
  let j := if i <? 0 then i + Z.of_nat (length l) else i in
  if j <? 0 then Raise IndexError
  else
    match l !! Z.to_nat j with
    | Some x => Ok (x, delete (Z.to_nat j) l)
    | None => Raise IndexError
    end.

(** *** The interactive methods

    [input()] reads the next line of the standard input, which the methods
    below take as the list of the lines still unread and return shortened;
    [EOFError] when none is left.  (The prompts are not recorded.)  The
    built-ins that read a line are parameters; [None] stands for their
    [ValueError]. *)
Section Interactive.

Variable int_of_str : string -> option Z.          (* int(s) *)
Variable float_of_str : string -> option float.    (* float(s) *)
Variable strptime_mdY : string -> option Date.t.   (* strptime(s, '%m-%d-%Y').date() *)
Variable str_strip : string -> string.             (* s.strip() *)
Variable str_lower : string -> string.             (* s.lower() *)

(** The [while True] loop of [delete_plan]. *)
Fixpoint delete_loop (ins : list string) : M (list string) :=
  match ins with
  | [] => lift (Raise EOFError)
  | s :: ins' =>
      match int_of_str s with
      | None => _ ← print InvalidInput; delete_loop ins'
      | Some n =>
          let index := n - 1 in
          if index =? -1 then
            _ ← print DeletionCancelled; mret ins'
          else
            this ← get_self;
            if (0 <=? index) && (index <? Z.of_nat (length (plans this))) then
              '(deleted_plan, rest) ← lift (list_pop (plans this) index);
              _ ← set_self {| plans := rest;
                              trash_bin := trash_bin this ++ [deleted_plan];
                              data_file := data_file this |};
              _ ← save_data;
              match format_2f (FinancialRecord.amount deleted_plan) with
              | Ok _ => _ ← print (Deleted deleted_plan); mret ins'
              | Raise ValueError => _ ← print InvalidInput; delete_loop ins'
              | Raise e => lift (Raise e)
              end
            else
              _ ← print InvalidPlanNumber; delete_loop ins'
      end
  end.

Definition delete_plan (ins : list string) : M (list string) :=
  _ ← view_plans;
  this ← get_self;
  match plans this with
  | [] => mret ins
  | _ => delete_loop ins
  end.

(** The three input loops of [add_plan_interactive]. *)
Fixpoint read_record_type (ins : list string) : M (string * list string) :=
  match ins with
  | [] => lift (Raise EOFError)
  | s :: ins' =>
      let record_type := str_lower (str_strip s) in
      if String.eqb record_type "plan" || String.eqb record_type "allowance" then
        mret (if String.eqb record_type "plan" then "expense" else "income", ins')
      else
        _ ← print InvalidRecordType; read_record_type ins'
  end.

Fixpoint read_date (ins : list string) : M (Date.t * list string) :=
  match ins with
  | [] => lift (Raise EOFError)
  | s :: ins' =>
      match strptime_mdY (str_strip s) with
      | Some date => mret (date, ins')
      | None => _ ← print InvalidDateFormat; read_date ins'
      end
  end.

Fixpoint read_amount (ins : list string) : M (float * list string) :=
  match ins with
  | [] => lift (Raise EOFError)
  | s :: ins' =>
      match float_of_str s with
      | Some amount =>
          if PrimFloat.leb amount 0 then
            _ ← print AmountNotPositive; read_amount ins'
          else mret (amount, ins')
      | None => _ ← print AmountNotNumber; read_amount ins'
      end
  end.

(** The optional due date, asked for an expense only. *)
Definition read_due_date (record_type : string) (ins : list string)
  : M (pyval * list string) :=
  if String.eqb record_type "expense" then
    match ins with
    | [] => lift (Raise EOFError)
    | s :: ins' =>
        let due_date := str_strip s in
        mret (if String.eqb due_date "" then VNone else VStr due_date, ins')
    end
  else mret (VNone, ins).

Definition add_plan_interactive (ins : list string) : M (list string) :=
  _ ← print AddHeader;
  '(record_type, ins) ← read_record_type ins;
  '(date, ins) ← read_date ins;
  match ins with
  | [] => lift (Raise EOFError)
  | s :: ins =>
      let description := str_strip s in
      if String.eqb description "" then
        _ ← print EmptyDescription; mret ins
      else
        '(amount, ins) ← read_amount ins;
        '(due_date, ins) ← read_due_date record_type ins;
        record ← lift (FinancialRecord.__init__ date (VStr description)
                         (VFloat amount) due_date (VStr record_type));
        _ ← add_record record;
        _ ← print (Added record_type);
        mret ins
  end.

End Interactive.

End FinanceTracker.

(** ** Fields as the annotations have them *)

(** The annotation [Optional[str]]. *)
Definition str_or_none (v : pyval) : bool :=
  match v with
  | VNone | VStr _ => true
  | _ => false
  end.

(** The text of a due date that is a string. *)
Definition due_text (r : FinancialRecord.t) : string :=
  match FinancialRecord.due_date r with
  | VStr t => t
  | _ => ""
  end.

(** * Sample data *)

Module Samples.

Definition new_year : Date.t := Date.mk 2024 1 1.

(** A persisted entry with a text for an amount and an unknown kind tag. *)
Definition odd_entry : pydict :=
  <["date" := VStr "2024-01-01"]>
  (<["description" := VStr "Rent"]>
  (<["amount" := VStr "abc"]>
  (<["record_type" := VStr "bogus"]> ∅))).

(** An entry of the older format, without a kind tag. *)
Definition old_entry : pydict :=
  <["date" := VStr "2024-01-01"]>
  (<["description" := VStr "Rent"]>
  (<["amount" := VFloat 500]> ∅)).

Definition rent : FinancialRecord.t :=
  FinancialRecord.mk (Date.mk 2024 1 1) (VStr "Rent") (VFloat 500)
    (VStr "2024-01-05") (VStr "expense").

Definition salary : FinancialRecord.t :=
  FinancialRecord.mk (Date.mk 2024 1 2) (VStr "Salary") (VFloat 2000)
    VNone (VStr "income").

(** An income of ten cents. *)
Definition dime : FinancialRecord.t :=
  FinancialRecord.mk new_year (VStr "Coin") (VFloat 0.1) VNone (VStr "income").

(** A file system that refuses every write, and one that accepts them. *)
Definition read_only : filesystem := {| writable := fun _ => false; files := ∅ |}.
Definition read_write : filesystem := {| writable := fun _ => true; files := ∅ |}.

Definition tracker_of (plans trash_bin : list FinancialRecord.t) : FinanceTracker.t :=
  FinanceTracker.mk plans trash_bin "financial_data.json".

Definition state_of (plans trash_bin : list FinancialRecord.t) (fs : filesystem)
  : FinanceTracker.state :=
  FinanceTracker.mkState (tracker_of plans trash_bin) fs [].

(** An expense due on the given day. *)
Definition bill (description due_date : string) : FinancialRecord.t :=
  FinancialRecord.mk new_year (VStr description) (VFloat 100) (VStr due_date)
    (VStr "expense").

(** A reader of plain decimal numerals, to stand for [int] on a line of
    input: it accepts the digit strings, a part of what [int] accepts. *)
Definition int_of_digits (s : string) : option Z :=
  match s with
  | EmptyString => None
  | _ => Date.parse_digits (list_ascii_of_string s) 0
  end.

(** Tables to stand for [float] and [strptime] on the lines used in the
    examples; the lines are taken as already stripped and in lower case. *)
Definition float_of_sample (s : string) : option float :=
  if String.eqb s "500" then Some 500%float
  else if String.eqb s "2000" then Some 2000%float
  else if String.eqb s "-5" then Some (-5)%float
  else if String.eqb s "nan" then Some nan
  else None.

Definition date_of_sample (s : string) : option Date.t :=
  if String.eqb s "01-01-2024" then Some (Date.mk 2024 1 1)
  else if String.eqb s "01-02-2024" then Some (Date.mk 2024 1 2)
  else None.

Definition as_it_is (s : string) : string := s.

(** A tracker with nothing in it. *)
Definition empty : FinanceTracker.state := state_of [] [] read_write.

(** The ledger after [Rent] and [Salary] were added. *)
Definition rent_and_salary : FinanceTracker.state :=
  state_of [rent; salary] [] read_write.

(** Three incomes of ten cents each, nothing in the trash. *)
Definition three_dimes : FinanceTracker.state :=
  state_of [dime; dime; dime] [] read_write.

End Samples.

(** * Reference sums

    The totals of the specification over floats, written out: the
    accumulation [((0 + a1) + a2) + ...] in binary64. *)

Definition fsum (l : list float) : float := fold_left PrimFloat.add l 0%float.

(** The total as [sum] returns it: the integer [0] when there is nothing
    to add. *)
Definition float_total (l : list float) : pyval :=
  match l with
  | [] => VInt 0
  | _ => VFloat (fsum l)
  end.

(** Income minus expenses: in binary64 as soon as one of the two totals
    is a float. *)
Definition net_total (inc exp : list float) : pyval :=
  match inc, exp with
  | [], [] => VInt 0
  | _, _ => VFloat (fsum inc - fsum exp)
  end.

(** * Callers and invariants *)

(** [for record in records: tracker.add_record(record)]: a caller that
    adds the records one after another. *)
Fixpoint add_records (records : list FinancialRecord.t) : FinanceTracker.M unit :=
  match records with
  | [] => mret tt
  | record :: records' =>
      _ ← FinanceTracker.add_record record;
      add_records records'
  end.

(** The document [save_data] writes for a tracker. *)
Definition document_of (t : FinanceTracker.t) : document :=
  {| doc_plans := FinancialRecord.to_dict <$> FinanceTracker.plans t;
     doc_trash_bin := FinancialRecord.to_dict <$> FinanceTracker.trash_bin t |}.

(** The data file holds the two lists of the tracker as they are now. *)
Definition in_sync (s : FinanceTracker.state) : Prop :=
  files (FinanceTracker.fs s) !! FinanceTracker.data_file (FinanceTracker.self s)
  = Some (document_of (FinanceTracker.self s)).

(** A record that [view_plans] can show: its amount takes the format
    [.2f] and its description a padding. *)
Definition displayable (r : FinancialRecord.t) : Prop :=
  format_2f (FinancialRecord.amount r) = Ok tt
  /\ format_pad (FinancialRecord.description r) = Ok tt.

(** The tracker after the record at index [i] of [plans] went to the end
    of [trash_bin]. *)
Definition moved_to_trash (t : FinanceTracker.t) (i : nat) (r : FinancialRecord.t)
  : FinanceTracker.t :=
  {| FinanceTracker.plans := delete i (FinanceTracker.plans t);
     FinanceTracker.trash_bin := FinanceTracker.trash_bin t ++ [r];
     FinanceTracker.data_file := FinanceTracker.data_file t |}.

(** The tracker after a record was appended to [plans]. *)
Definition with_plan (t : FinanceTracker.t) (r : FinancialRecord.t) : FinanceTracker.t :=
  {| FinanceTracker.plans := FinanceTracker.plans t ++ [r];
     FinanceTracker.trash_bin := FinanceTracker.trash_bin t;
     FinanceTracker.data_file := FinanceTracker.data_file t |}.

(** A tracker that has kept its trash and every plan it had, in front. *)
Definition kept (before after : FinanceTracker.t) : Prop :=
  FinanceTracker.trash_bin after = FinanceTracker.trash_bin before
  /\ FinanceTracker.plans before `prefix_of` FinanceTracker.plans after
  /\ FinanceTracker.data_file after = FinanceTracker.data_file before.

(** * Loading, the reports and the menu

    The remaining methods print lines of their own, and the menu can fail
    in a way of its own.  They run on a console that holds the tracker, the
    file system and a screen for both kinds of lines; the methods of
    [FinanceTracker] above run inside it. *)

Module Console.

(** What can end a call: an exception of the first part, or the
    [AttributeError] for an attribute the object does not have. *)
Inductive failure : Type :=
| Exn (e : exn)
| AttributeError (name : string)
| Stuck.  (* the measure of the menu loop used up: never the case, see below *)

Inductive outcome (A : Type) : Type :=
| Done (a : A)
| Failed (f : failure).
Arguments Done {A} a.
Arguments Failed {A} f.

(** The lines on the screen. *)
Inductive cline : Type :=
| Core (l : line)             (* a line of the methods above *)
| ErrorLoading (f : failure)  (* Error loading data: ... *)
| TrashEmpty                  (* Trash bin is empty. *)
| TrashHeader                 (* --- Trash Bin --- *)
| ReportHeader                (* --- Financial Balance Report --- *)
| TotalAllowances (v : pyval) (* Total Allowances: ... *)
| TotalPlans (v : pyval)      (* Total Plans: ... *)
| NetBalance (v : pyval)      (* Net Balance: ... *)
| StatusGood                  (* Status: Good. Save more! *)
| StatusAlert                 (* Status: ALERT!!! You're out of balance! *)
| StatusZero                  (* Status: Zero Balance, don't forget to save! *)
| Menu                        (* the ten lines of the menu *)
| InvalidChoice               (* Invalid choice. Please try again. *)
| Goodbye.                    (* Thank you for using Personal Finance Tracker! *)

Record t : Type := mk {
  tracker : FinanceTracker.t;
  disk : filesystem;
  screen : list cline
}.

Definition C (A : Type) : Type := t -> outcome A * t.

#[global] Instance C_ret : MRet C := fun A a c => (Done a, c).
#[global] Instance C_bind : MBind C := fun A B k m c =>
  match m c with
  | (Done a, c') => k a c'
  | (Failed f, c') => (Failed f, c')
  end.

(** The console with some more lines on the screen. *)
Definition shown (c : t) (ls : list cline) : t :=
  {| tracker := tracker c; disk := disk c; screen := screen c ++ ls |}.

Definition get_tracker : C FinanceTracker.t := fun c => (Done (tracker c), c).

Definition get_disk : C filesystem := fun c => (Done (disk c), c).

Definition set_tracker (x : FinanceTracker.t) : C unit := fun c =>
  (Done tt, {| tracker := x; disk := disk c; screen := screen c |}).

Definition cprint (l : cline) : C unit := fun c => (Done tt, shown c [l]).

Definition fail {A : Type} (f : failure) : C A := fun c => (Failed f, c).

(** An expression that may raise, evaluated inside a method. *)
Definition clift {A : Type} (r : result A) : C A := fun c =>
  (match r with Ok a => Done a | Raise e => Failed (Exn e) end, c).

(** The state a method of [FinanceTracker] starts from on this console;
    the methods never look at what was printed, so they start with a
    clean sheet. *)
Definition core (c : t) : FinanceTracker.state :=
  {| FinanceTracker.self := tracker c;
     FinanceTracker.fs := disk c;
     FinanceTracker.stdout := [] |}.

(** A method of [FinanceTracker] run on the console: its tracker and its
    files become the console's, its lines go to the screen. *)
Definition run {A : Type} (m : FinanceTracker.M A) : C A := fun c =>
  let '(r, s) := m (core c) in
  (match r with Ok a => Done a | Raise e => Failed (Exn e) end,
   {| tracker := FinanceTracker.self s;
      disk := FinanceTracker.fs s;
      screen := screen c ++ (Core <$> FinanceTracker.stdout s) |}).

(** [try: body except Exception as e: handler e]. *)
Definition try_except {A : Type} (body : C A) (handler : failure -> C A) : C A :=
  fun c =>
    match body c with
    | (Done a, c') => (Done a, c')
    | (Failed f, c') => handler f c'
    end.

(** [[FinancialRecord.from_dict(item) for item in items]]: the records in
    order, or what the first failing item raises. *)
Fixpoint from_dict_all (items : list pydict) : result (list FinancialRecord.t) :=
  match items with
  | [] => Ok []
  | item :: items' =>
      record ← FinancialRecord.from_dict item;
      records ← from_dict_all items';
      Ok (record :: records)
  end.

(** [load_data]: the data file exists when the file system holds it, and
    then holds a document as [save_data] writes one, the object with the
    arrays ["plans"] and ["trash_bin"] of record objects.  (Files that
    cannot be read or hold other JSON or no JSON are outside the model of
    the file system.) *)
Definition load_data : C unit :=
  try_except
    (this ← get_tracker;
     disk ← get_disk;
     match files disk !! FinanceTracker.data_file this with
     | None => mret tt
     | Some data =>
         plans ← clift (from_dict_all (doc_plans data));
         _ ← set_tracker {| FinanceTracker.plans := plans;
                           FinanceTracker.trash_bin := FinanceTracker.trash_bin this;
                           FinanceTracker.data_file := FinanceTracker.data_file this |};
         trash_bin ← clift (from_dict_all (doc_trash_bin data));
         set_tracker {| FinanceTracker.plans := plans;
                        FinanceTracker.trash_bin := trash_bin;
                        FinanceTracker.data_file := FinanceTracker.data_file this |}
     end)
    (fun f => cprint (ErrorLoading f)).

(** [FinanceTracker.__init__(data_file)]: the console gets a new tracker. *)
Definition __init__ (data_file : string) : C unit :=
  _ ← set_tracker {| FinanceTracker.plans := [];
                    FinanceTracker.trash_bin := [];
                    FinanceTracker.data_file := data_file |};
  load_data.

Definition view_trash_bin : C unit :=
  this ← get_tracker;
  match FinanceTracker.trash_bin this with
  | [] => cprint TrashEmpty
  | _ =>
      _ ← cprint TrashHeader;
      run (FinanceTracker.view_plans_of (FinanceTracker.trash_bin this))
  end.

(** [a > b]: for strings and numbers, [b < a]. *)
Definition py_gt (a b : pyval) : result bool := py_lt b a.

Definition display_balance_report : C unit :=
  balance ← run FinanceTracker.calculate_balance;
  _ ← cprint ReportHeader;
  _ ← clift (format_2f (FinanceTracker.income balance));
  _ ← cprint (TotalAllowances (FinanceTracker.income balance));
  _ ← clift (format_2f (FinanceTracker.expenses balance));
  _ ← cprint (TotalPlans (FinanceTracker.expenses balance));
  _ ← clift (format_2f (FinanceTracker.net_balance balance));
  _ ← cprint (NetBalance (FinanceTracker.net_balance balance));
  positive ← clift (py_gt (FinanceTracker.net_balance balance) (VInt 0));
  if positive : bool then cprint StatusGood
  else
    negative ← clift (py_lt (FinanceTracker.net_balance balance) (VInt 0));
    if negative : bool then cprint StatusAlert else cprint StatusZero.

(** *** The menu *)

Section Menu.

Variable float_of_str : string -> option float.    (* float(s) *)
Variable strptime_mdY : string -> option Date.t.   (* strptime(s, '%m-%d-%Y').date() *)
Variable str_strip : string -> string.             (* s.strip() *)
Variable str_lower : string -> string.             (* s.lower() *)

(** The [while True] loop of [main], on the lines still unread.  Every
    turn reads a line, so the number of unread lines bounds the number of
    turns; [fuel] is that bound, and [Stuck] what a smaller one would
    give. *)
Fixpoint menu_loop (fuel : nat) (ins : list string) : C (list string) :=
  match fuel with
  | O =>
      match ins with
      | [] => _ ← cprint Menu; fail (Exn EOFError)
      | _ :: _ => fail Stuck
      end
  | S fuel' =>
      _ ← cprint Menu;
      match ins with
      | [] => fail (Exn EOFError)
      | l :: ins' =>
          let choice := str_strip l in
          if String.eqb choice "1" then
            ins'' ← run (FinanceTracker.add_plan_interactive float_of_str strptime_mdY
                           str_strip str_lower ins');
            menu_loop fuel' ins''
          else if String.eqb choice "2" then
            _ ← run FinanceTracker.view_plans; menu_loop fuel' ins'
          else if String.eqb choice "3" then
            _ ← display_balance_report; menu_loop fuel' ins'
          else if String.eqb choice "4" then
            _ ← run FinanceTracker.view_upcoming_due_dates; menu_loop fuel' ins'
          else if String.eqb choice "5" then
            (* tracker.export_data_to_file(): the class has no such method *)
            fail (AttributeError "export_data_to_file")
          else if String.eqb choice "6" then
            _ ← cprint Goodbye; mret ins'
          else
            _ ← cprint InvalidChoice; menu_loop fuel' ins'
      end
  end.

(** [main()]: a tracker on the default data file, then the menu. *)
Definition main (ins : list string) : C (list string) :=
  _ ← __init__ "financial_data.json";
  menu_loop (length ins) ins.

End Menu.

End Console.

(** The status line of the balance report for a net balance. *)
Definition status_of (net : pyval) : Console.cline :=
  match net with
  | VFloat f =>
      if PrimFloat.ltb 0 f then Console.StatusGood
      else if PrimFloat.ltb f 0 then Console.StatusAlert
      else Console.StatusZero
  | VInt z =>
      if 0 <? z then Console.StatusGood
      else if z <? 0 then Console.StatusAlert
      else Console.StatusZero
  | _ => Console.StatusZero
  end.

(** * More sample data *)

Module Cases.

(** An entry dated the 30th of February. *)
Definition february_30 : pydict :=
  <["date" := VStr "2024-02-30"]>
  (<["description" := VStr "Rent"]>
  (<["amount" := VFloat 500]> ∅)).

(** A data file with that entry among the plans, and a good trash. *)
Definition spoilt : document :=
  {| doc_plans := [FinancialRecord.to_dict Samples.rent; february_30];
     doc_trash_bin := [FinancialRecord.to_dict Samples.salary] |}.

(** A data file with that entry in the trash, and good plans. *)
Definition spoilt_trash : document :=
  {| doc_plans := [FinancialRecord.to_dict Samples.rent];
     doc_trash_bin := [FinancialRecord.to_dict Samples.salary; february_30] |}.

(** An entry whose date is written without hyphens. *)
Definition basic_entry : pydict :=
  <["date" := VStr "20240101"]>
  (<["description" := VStr "Rent"]>
  (<["amount" := VFloat 500]> ∅)).


Definition disk_with (data : document) : filesystem :=
  {| writable := fun _ => true;
     files := {["financial_data.json" := data]} |}.

Definition console_on (fs : filesystem) : Console.t :=
  {| Console.tracker := Samples.tracker_of [] [];
     Console.disk := fs;
     Console.screen := [] |}.

(** A tracker with one plan and a data file that holds just that. *)
Definition in_step : FinanceTracker.state :=
  {| FinanceTracker.self := Samples.tracker_of [Samples.rent] [];
     FinanceTracker.fs := disk_with (document_of (Samples.tracker_of [Samples.rent] []));
     FinanceTracker.stdout := [] |}.

End Cases.

(** * Properties *)

Section DateRoundTrip.

Lemma digit_val_digit (n : Z) : Date.digit_val (Date.digit n) = Some (n mod 10).
Proof.
  unfold Date.digit_val, Date.digit.
  assert (H : 0 <= n mod 10 < 10) by (apply Z.mod_pos_bound; lia).
  rewrite N_ascii_embedding by lia.
  rewrite Z2N.id by lia.
  replace ((48 <=? 48 + n mod 10) && (48 + n mod 10 <=? 57)) with true
    by (symmetry; apply andb_true_iff; split; apply Z.leb_le; lia).
  f_equal. lia.
Qed.

(** A digit is neither a hyphen nor the letter of the week dates. *)
Lemma digit_not (n : Z) (c : ascii) :
  Date.digit_val c = None -> Ascii.eqb (Date.digit n) c = false.
Proof.
  intros Hc. apply Ascii.eqb_neq. intros E. rewrite <- E, digit_val_digit in Hc.
  discriminate.
Qed.

Local Arguments Date.digit : simpl never.
Local Arguments Date.digit_val : simpl never.
Local Arguments Date.valid_ymd : simpl never.
Local Arguments Date.iso_to_ymd : simpl never.

Lemma number4 (y : Z) :
  0 <= y <= 9999 ->
  10 * (10 * (10 * (10 * 0 + (y / 1000) mod 10) + (y / 100) mod 10)
          + (y / 10) mod 10) + y mod 10 = y.
Proof. intros H. Z.div_mod_to_equations. lia. Qed.

Lemma number2 (m : Z) :
  0 <= m <= 99 -> 10 * (10 * 0 + (m / 10) mod 10) + m mod 10 = m.
Proof. intros H. Z.div_mod_to_equations. lia. Qed.

Lemma number1 (k : Z) : 0 <= k <= 9 -> 10 * 0 + k mod 10 = k.
Proof. intros H. Z.div_mod_to_equations. lia. Qed.

Lemma valid_range (y m d : Z) :
  Date.valid_ymd y m d = true -> 1 <= y <= 9999 /\ 1 <= m <= 12 /\ 1 <= d <= 31.
Proof.
  unfold Date.valid_ymd. intros Hv.
  repeat (apply andb_true_iff in Hv; destruct Hv as [Hv ?]).
  assert (Date.days_in_month y m <= 31).
  { unfold Date.days_in_month. repeat case_match; lia. }
  lia.
Qed.

Ltac read_text :=
  unfold Date.fromisoformat_str, Date.parse_isoformat_date, Date.digits_at, Date.char_at;
  repeat (progress
    (simpl;
     rewrite ?digit_val_digit, ?(digit_not _ "W" eq_refl), ?(digit_not _ "-" eq_refl)));
  rewrite ?number4, ?number2, ?number1 by lia;
  simpl.

Lemma fromisoformat_isoformat (x : Date.t) :
  Date.valid x = true -> Date.fromisoformat_str (Date.isoformat x) = Ok x.
Proof.
  destruct x as [y m d]. unfold Date.valid. cbn [Date.year Date.month Date.day]. intros Hv.
  destruct (valid_range _ _ _ Hv) as (Hy & Hm & Hd).
  unfold Date.isoformat. cbn [Date.year Date.month Date.day].
  read_text. rewrite Hv. reflexivity.
Qed.

Lemma fromisoformat_valid (s : string) (x : Date.t) :
  Date.fromisoformat_str s = Ok x -> Date.valid x = true.
Proof.
  unfold Date.fromisoformat_str.
  destruct (_ || _); [|discriminate].
  destruct (Date.parse_isoformat_date s) as [[[y m] d]|]; [|discriminate].
  destruct (Date.valid_ymd y m d) eqn:E; [|discriminate].
  intros H. injection H as <-. exact E.
Qed.

(** *** The forms of the texts *)

Lemma digit_ext (n m : Z) : n mod 10 = m mod 10 -> Date.digit n = Date.digit m.
Proof. unfold Date.digit. intros ->. reflexivity. Qed.

Lemma digit_val_inv (c : ascii) (v : Z) :
  Date.digit_val c = Some v -> 0 <= v <= 9 /\ c = Date.digit v.
Proof.
  unfold Date.digit_val, Date.digit. intros H.
  destruct ((48 <=? Z.of_N (N_of_ascii c)) && (Z.of_N (N_of_ascii c) <=? 57)) eqn:E;
    [|discriminate].
  apply andb_true_iff in E. destruct E as [E1 E2].
  apply Z.leb_le in E1. apply Z.leb_le in E2.
  injection H as <-. split; [lia|].
  rewrite Z.mod_small by lia.
  replace (48 + (Z.of_N (N_of_ascii c) - 48)) with (Z.of_N (N_of_ascii c)) by lia.
  rewrite N2Z.id. symmetry. apply ascii_N_embedding.
Qed.

Lemma text4_digits (a b c d : Z) :
  0 <= a <= 9 -> 0 <= b <= 9 -> 0 <= c <= 9 -> 0 <= d <= 9 ->
  Date.text4 (10 * (10 * (10 * (10 * 0 + a) + b) + c) + d)
  = String (Date.digit a) (String (Date.digit b) (String (Date.digit c)
      (String (Date.digit d) ""))).
Proof.
  intros. unfold Date.text4, Date.text2, Date.text1.
  repeat (apply f_equal2; [apply digit_ext; Z.div_mod_to_equations; lia|]); reflexivity.
Qed.

Lemma text2_digits (a b : Z) :
  0 <= a <= 9 -> 0 <= b <= 9 ->
  Date.text2 (10 * (10 * 0 + a) + b) = String (Date.digit a) (String (Date.digit b) "").
Proof.
  intros. unfold Date.text2, Date.text1.
  repeat (apply f_equal2; [apply digit_ext; Z.div_mod_to_equations; lia|]); reflexivity.
Qed.

Lemma text1_digits (a : Z) : Date.text1 (10 * 0 + a) = String (Date.digit a) "".
Proof. unfold Date.text1. f_equal. Qed.

(** The next test the reader makes, in a hypothesis that says what it
    returned. *)
Ltac scrutinee t :=
  lazymatch t with
  | match ?e with _ => _ end => scrutinee e
  | Ascii.eqb ?a ?k =>
      lazymatch a with
      | match _ with _ => _ end => scrutinee a
      | _ => t
      end
  | Date.digit_val ?a =>
      lazymatch a with
      | match _ with _ => _ end => scrutinee a
      | _ => t
      end
  | negb ?a => scrutinee a
  | andb ?a _ => scrutinee a
  | _ => t
  end.

Ltac next_test H :=
  unfold mbind, option_bind in H; simpl in H;
  lazymatch type of H with
  | ?l = _ =>
      let e := scrutinee l in
      lazymatch e with
      | Date.digit_val ?c =>
          let E := fresh "E" in
          destruct (Date.digit_val c) eqn:E;
          [apply digit_val_inv in E; destruct E as [? ->]|try discriminate H]
      | Ascii.eqb (Date.digit ?n) ?k =>
          rewrite (digit_not n k eq_refl) in H
      | Ascii.eqb ?c ?k =>
          let E := fresh "E" in
          destruct (Ascii.eqb c k) eqn:E;
          [apply Ascii.eqb_eq in E; subst c|]
      | Date.iso_to_ymd _ _ _ =>
          let E := fresh "E" in
          destruct e eqn:E; [|discriminate H]
      | Date.valid_ymd _ _ _ =>
          let E := fresh "E" in
          destruct e eqn:E; [|discriminate H]
      | _ => is_var e; destruct e
      end
  end.

(** The forms of the texts, digit by digit. *)
Lemma iso_text_digits (a b c d e f g h k : Z) (rest : string) (ymd : Z * Z * Z) :
  0 <= a <= 9 -> 0 <= b <= 9 -> 0 <= c <= 9 -> 0 <= d <= 9 ->
  0 <= e <= 9 -> 0 <= f <= 9 ->
  let y := 10 * (10 * (10 * (10 * 0 + a) + b) + c) + d in
  let m := 10 * (10 * 0 + e) + f in
  let D := 10 * (10 * 0 + g) + h in
  let s4 := fun r => String (Date.digit a) (String (Date.digit b) (String (Date.digit c)
              (String (Date.digit d) r))) in
  let s2 := fun r => String (Date.digit e) (String (Date.digit f) r) in
  (0 <= g <= 9 -> 0 <= h <= 9 ->
   Date.iso_text (s4 (String "-" (s2 (String "-"
      (String (Date.digit g) (String (Date.digit h) ""))))))
     (y, m, D))
  /\ (0 <= g <= 9 -> 0 <= h <= 9 -> Date.ignored rest ->
      Date.iso_text (s4 (s2 (String (Date.digit g) (String (Date.digit h) rest))))
        (y, m, D))
  /\ (Date.iso_to_ymd y m 1 = Some ymd ->
      Date.iso_text (s4 (String "-" (String "W" (s2 "")))) ymd)
  /\ (0 <= k <= 9 -> Date.iso_to_ymd y m (10 * 0 + k) = Some ymd ->
      Date.iso_text (s4 (String "-" (String "W" (s2 (String "-"
         (String (Date.digit k) "")))))) ymd)
  /\ (Date.iso_to_ymd y m 1 = Some ymd ->
      Date.iso_text (s4 (String "W" (s2 ""))) ymd)
  /\ (0 <= k <= 9 -> Date.ignored rest ->
      Date.iso_to_ymd y m (10 * 0 + k) = Some ymd ->
      Date.iso_text (s4 (String "W" (s2 (String (Date.digit k) rest)))) ymd).
Proof.
  intros Ha Hb Hc Hd He Hf y m D s4 s2.
  assert (Hy : 0 <= y <= 9999) by (subst y; lia).
  assert (Hm : 0 <= m <= 99) by (subst m; lia).
  pose proof (text4_digits a b c d Ha Hb Hc Hd) as E4.
  pose proof (text2_digits e f He Hf) as E2.
  fold y in E4. fold m in E2.
  repeat split.
  - intros Hg Hh.
    assert (HD : 0 <= D <= 99) by (subst D; lia).
    pose proof (Date.iso_extended y m D Hy Hm HD) as R.
    rewrite E4, E2 in R. unfold D in R at 1. rewrite text2_digits in R by assumption.
    exact R.
  - intros Hg Hh Hr.
    assert (HD : 0 <= D <= 99) by (subst D; lia).
    pose proof (Date.iso_basic y m D rest Hy Hm HD Hr) as R.
    rewrite E4, E2 in R. unfold D in R at 1. rewrite text2_digits in R by assumption.
    exact R.
  - intros H.
    pose proof (Date.iso_week_extended y m ymd Hy Hm H) as R.
    rewrite E4, E2 in R. exact R.
  - intros Hk H.
    assert (Hk' : 0 <= 10 * 0 + k <= 9) by lia.
    pose proof (Date.iso_week_day_extended y m _ ymd Hy Hm Hk' H) as R.
    rewrite E4, E2, text1_digits in R. exact R.
  - intros H.
    pose proof (Date.iso_week_basic y m ymd Hy Hm H) as R.
    rewrite E4, E2 in R. exact R.
  - intros Hk Hr H.
    assert (Hk' : 0 <= 10 * 0 + k <= 9) by lia.
    pose proof (Date.iso_week_day_basic y m _ rest ymd Hy Hm Hk' Hr H) as R.
    rewrite E4, E2, text1_digits in R. exact R.
Qed.

Ltac read_done H :=
    injection H as <-; split; [|assumption];
  cbn [Date.year Date.month Date.day];
  lazymatch goal with
  | |- Date.iso_text (String (Date.digit ?a) (String (Date.digit ?b) (String (Date.digit ?c)
         (String (Date.digit ?d) (String "-" (String "W" (String (Date.digit ?e)
         (String (Date.digit ?f) ""))))))) ) ?ymd =>
      apply (iso_text_digits a b c d e f 0 0 0 "" ymd); assumption
  | |- Date.iso_text (String (Date.digit ?a) (String (Date.digit ?b) (String (Date.digit ?c)
         (String (Date.digit ?d) (String "-" (String "W" (String (Date.digit ?e)
         (String (Date.digit ?f) (String "-" (String (Date.digit ?k) ""))))))))) ) ?ymd =>
      apply (iso_text_digits a b c d e f 0 0 k "" ymd); assumption
  | |- Date.iso_text (String (Date.digit ?a) (String (Date.digit ?b) (String (Date.digit ?c)
         (String (Date.digit ?d) (String "W" (String (Date.digit ?e)
         (String (Date.digit ?f) "")))))) ) ?ymd =>
      apply (iso_text_digits a b c d e f 0 0 0 "" ymd); assumption
  | |- Date.iso_text (String (Date.digit ?a) (String (Date.digit ?b) (String (Date.digit ?c)
         (String (Date.digit ?d) (String "W" (String (Date.digit ?e)
         (String (Date.digit ?f) (String (Date.digit ?k) ?rest))))))) ) ?ymd =>
      apply (iso_text_digits a b c d e f 0 0 k rest ymd);
      first [assumption | left; reflexivity | right; reflexivity]
  | |- Date.iso_text (String (Date.digit ?a) (String (Date.digit ?b) (String (Date.digit ?c)
         (String (Date.digit ?d) (String "-" (String (Date.digit ?e)
         (String (Date.digit ?f) (String "-" (String (Date.digit ?g)
         (String (Date.digit ?h) "")))))))))) ?ymd =>
      apply (iso_text_digits a b c d e f g h 0 "" ymd); assumption
  | |- Date.iso_text (String (Date.digit ?a) (String (Date.digit ?b) (String (Date.digit ?c)
         (String (Date.digit ?d) (String (Date.digit ?e)
         (String (Date.digit ?f) (String (Date.digit ?g)
         (String (Date.digit ?h) ?rest)))))))) ?ymd =>
      apply (iso_text_digits a b c d e f g h 0 rest ymd);
      first [assumption | left; reflexivity | right; reflexivity]
  end.

Lemma fromisoformat_str_reads (s : string) (x : Date.t) :
  Date.fromisoformat_str s = Ok x -> Date.reads s x.
Proof.
  intros H.
  assert (Hl : String.length s = 7%nat \/ String.length s = 8%nat
               \/ String.length s = 10%nat).
  { unfold Date.fromisoformat_str in H.
    destruct (String.length s =? 7)%nat eqn:E7; [apply Nat.eqb_eq in E7; auto|].
    destruct (String.length s =? 8)%nat eqn:E8; [apply Nat.eqb_eq in E8; auto|].
    destruct (String.length s =? 10)%nat eqn:E10; [apply Nat.eqb_eq in E10; auto|].
    discriminate H. }
  destruct Hl as [Hl|[Hl|Hl]].
  - do 7 (destruct s as [|? s]; [discriminate Hl|]).
    destruct s; [|discriminate Hl]. clear Hl.
    unfold Date.fromisoformat_str, Date.parse_isoformat_date, Date.digits_at, Date.char_at in H.
    repeat next_test H.
    all: try discriminate H.
    all: read_done H.
  - do 8 (destruct s as [|? s]; [discriminate Hl|]).
    destruct s; [|discriminate Hl]. clear Hl.
    unfold Date.fromisoformat_str, Date.parse_isoformat_date, Date.digits_at, Date.char_at in H.
    repeat next_test H.
    all: try discriminate H.
    all: read_done H.
  - do 10 (destruct s as [|? s]; [discriminate Hl|]).
    destruct s; [|discriminate Hl]. clear Hl.
    unfold Date.fromisoformat_str, Date.parse_isoformat_date, Date.digits_at, Date.char_at in H.
    repeat next_test H.
    all: try discriminate H.
    all: read_done H.
Qed.

Lemma ignored_cases (rest : string) :
  Date.ignored rest -> rest = "" \/ exists a b, rest = String a (String b "").
Proof.
  intros [H|H].
  - destruct rest; [auto|discriminate H].
  - destruct rest as [|a [|b [|c rest]]]; try discriminate H. eauto.
Qed.

Lemma reads_fromisoformat_str (s : string) (x : Date.t) :
  Date.reads s x -> Date.fromisoformat_str s = Ok x.
Proof.
  destruct x as [y m d]. unfold Date.reads, Date.valid.
  cbn [Date.year Date.month Date.day]. intros [Ht Hv].
  inversion Ht as [y' m' d' Hy Hm Hd
                  |y' m' d' rest Hy Hm Hd Hr
                  |y' w ymd Hy Hw Hi
                  |y' w k ymd Hy Hw Hk Hi
                  |y' w ymd Hy Hw Hi
                  |y' w k rest ymd Hy Hw Hk Hr Hi]; subst;
    try (destruct (ignored_cases _ Hr) as [->|(a & b & ->)]);
    unfold Date.text4, Date.text2, Date.text1; read_text;
    rewrite ?Hi, ?Hv; reflexivity.
Qed.

(** The reader and the forms of the texts agree. *)
Lemma fromisoformat_str_iff (s : string) (x : Date.t) :
  Date.fromisoformat_str s = Ok x <-> Date.reads s x.
Proof. split; [apply fromisoformat_str_reads|apply reads_fromisoformat_str]. Qed.

(** Some texts and what they are read as: the first of January 2024 in
    three forms, the last day of the 53 weeks of 2020, and four texts
    that are refused. *)
Example fromisoformat_texts :
  Date.fromisoformat_str "2024-01-01" = Ok (Date.mk 2024 1 1)
  /\ Date.fromisoformat_str "20240101" = Ok (Date.mk 2024 1 1)
  /\ Date.fromisoformat_str "2024-W01-1" = Ok (Date.mk 2024 1 1)
  /\ Date.fromisoformat_str "2020-W53-7" = Ok (Date.mk 2021 1 3)
  /\ Date.fromisoformat_str "2024-1-1" = Raise ValueError
  /\ Date.fromisoformat_str "2024-02-30" = Raise ValueError
  /\ Date.fromisoformat_str "2019-W53-1" = Raise ValueError
  /\ Date.fromisoformat_str "01-01-2024" = Raise ValueError.
Proof. repeat split; vm_compute; reflexivity. Qed.

End DateRoundTrip.

(** ** Records *)

Section RecordProperties.

Lemma getitem_Some (d : pydict) (k : string) (v : pyval) :
  d !! k = Some v -> getitem d k = Ok v.
Proof. unfold getitem. intros ->. reflexivity. Qed.

Lemma getitem_None (d : pydict) (k : string) :
  d !! k = None -> getitem d k = Raise (KeyError k).
Proof. unfold getitem. intros ->. reflexivity. Qed.

(** What [from_dict] does on every dictionary, key by key. *)
Lemma from_dict_cases (data : pydict) :
  FinancialRecord.from_dict data =
    match data !! "date" with
    | None => Raise (KeyError "date")
    | Some date_v =>
        match Date.fromisoformat date_v with
        | Raise e => Raise e
        | Ok date =>
            match data !! "description" with
            | None => Raise (KeyError "description")
            | Some description =>
                match data !! "amount" with
                | None => Raise (KeyError "amount")
                | Some amount =>
                    Ok (FinancialRecord.mk date description amount
                          (dict_get data "due_date" VNone)
                          (dict_get data "record_type" (VStr "expense")))
                end
            end
        end
    end.
Proof.
  unfold FinancialRecord.from_dict, getitem.
  destruct (data !! "date") as [dv|]; [|reflexivity]. cbn.
  destruct (Date.fromisoformat dv) as [x|e]; [|reflexivity]. cbn.
  destruct (data !! "description") as [de|]; [|reflexivity]. cbn.
  destruct (data !! "amount") as [am|]; reflexivity.
Qed.

(** The five entries of the dictionary [to_dict] builds. *)
Lemma to_dict_lookup (r : FinancialRecord.t) :
  let d := FinancialRecord.to_dict r in
  d !! "date" = Some (VStr (Date.isoformat (FinancialRecord.date r)))
  /\ d !! "description" = Some (FinancialRecord.description r)
  /\ d !! "amount" = Some (FinancialRecord.amount r)
  /\ d !! "due_date" = Some (FinancialRecord.due_date r)
  /\ d !! "record_type" = Some (FinancialRecord.record_type r).
Proof. unfold FinancialRecord.to_dict. repeat split; by simplify_map_eq. Qed.

(** C5: a record whose date is a calendar date, written by [to_dict] and
    read back by [from_dict], is the record itself: all five fields are
    equal, whatever the description, the amount, the kind and the due
    date. *)
Theorem from_dict_to_dict (r : FinancialRecord.t) :
  Date.valid (FinancialRecord.date r) = true ->
  FinancialRecord.from_dict (FinancialRecord.to_dict r) = Ok r.
Proof.
  intros Hv. rewrite from_dict_cases.
  destruct (to_dict_lookup r) as (-> & -> & -> & Hdue & Hkind).
  unfold dict_get. rewrite Hdue, Hkind.
  unfold Date.fromisoformat. rewrite (fromisoformat_isoformat _ Hv).
  destruct r; reflexivity.
Qed.

Lemma from_dict_to_dict_witness :
  FinancialRecord.from_dict
    (FinancialRecord.to_dict
       (FinancialRecord.mk (Date.mk 2024 1 1) (VStr "Rent") (VFloat 500)
          (VStr "2024-01-05") (VStr "expense")))
  = Ok (FinancialRecord.mk (Date.mk 2024 1 1) (VStr "Rent") (VFloat 500)
          (VStr "2024-01-05") (VStr "expense")).
Proof. apply from_dict_to_dict. reflexivity. Defined.

Lemma fromisoformat_Ok_iff (v : pyval) (x : Date.t) :
  Date.fromisoformat v = Ok x <-> exists s, v = VStr s /\ Date.reads s x.
Proof.
  split.
  - destruct v; try discriminate. unfold Date.fromisoformat. intros H.
    apply fromisoformat_str_iff in H. eauto.
  - intros (s & -> & H). unfold Date.fromisoformat. apply fromisoformat_str_iff, H.
Qed.

(** C6, as the code has it: [from_dict] raises exactly when the ["date"]
    entry is missing or is not a string that [date.fromisoformat] reads as
    a calendar date (an ISO 8601 date in one of the forms of
    [Date.iso_text], naming a date from 0001-01-01 to 9999-12-31), or the
    ["description"] or the ["amount"] entry is missing.  The value of the
    amount is not looked at, and a kind tag is taken over as it is;
    without a kind tag the record is an ["expense"]. *)
Theorem from_dict_raises_iff (data : pydict) :
  ((exists e, FinancialRecord.from_dict data = Raise e) <->
     (~ exists s x, data !! "date" = Some (VStr s) /\ Date.reads s x)
     \/ data !! "description" = None
     \/ data !! "amount" = None)
  /\ (forall r, FinancialRecord.from_dict data = Ok r ->
        data !! "amount" = Some (FinancialRecord.amount r)
        /\ FinancialRecord.record_type r =
             match data !! "record_type" with
             | Some tag => tag
             | None => VStr "expense"
             end).
Proof.
  rewrite from_dict_cases. split.
  - split.
    + intros [e He].
      destruct (data !! "date") as [dv|] eqn:Ed.
      * destruct (Date.fromisoformat dv) as [x|e'] eqn:Ex.
        -- right. destruct (data !! "description"); [|auto].
           destruct (data !! "amount"); [discriminate|auto].
        -- left. intros (s & x & Hs & Hx). injection Hs as ->.
           assert (Date.fromisoformat (VStr s) = Ok x) as Hx'
             by (apply fromisoformat_Ok_iff; eauto).
           congruence.
      * left. intros (s & x & Hs & _). discriminate.
    + intros [Hd|[Hd|Hd]].
      * destruct (data !! "date") as [dv|] eqn:Ed; [|eauto].
        destruct (Date.fromisoformat dv) as [x|e'] eqn:Ex; [|eauto].
        exfalso. apply Hd.
        apply fromisoformat_Ok_iff in Ex. destruct Ex as (s & -> & Hs). eauto.
      * rewrite Hd. destruct (data !! "date") as [dv|]; [|eauto].
        destruct (Date.fromisoformat dv); eauto.
      * rewrite Hd. destruct (data !! "date") as [dv|]; [|eauto].
        destruct (Date.fromisoformat dv); [|eauto].
        destruct (data !! "description"); eauto.
  - intros r Hr.
    destruct (data !! "date") as [dv|]; [|discriminate].
    destruct (Date.fromisoformat dv); [|discriminate].
    destruct (data !! "description"); [|discriminate].
    destruct (data !! "amount"); [|discriminate].
    injection Hr as <-. cbn. auto.
Qed.

(** C6, as stated, fails: an entry whose amount is the text ["abc"] and
    whose kind tag is ["bogus"] is read without complaint, and both values
    end up in the record. *)
Lemma from_dict_accepts_odd_entry :
  Samples.odd_entry !! "amount" = Some (VStr "abc")
  /\ as_num (VStr "abc") = None
  /\ Samples.odd_entry !! "record_type" = Some (VStr "bogus")
  /\ FinancialRecord.from_dict Samples.odd_entry =
       Ok (FinancialRecord.mk Samples.new_year (VStr "Rent") (VStr "abc")
             VNone (VStr "bogus")).
Proof. repeat split; vm_compute; reflexivity. Qed.

(** An entry without a kind tag is read as an expense. *)
Example from_dict_old_entry :
  FinancialRecord.from_dict Samples.old_entry =
    Ok (FinancialRecord.mk Samples.new_year (VStr "Rent") (VFloat 500)
          VNone (VStr "expense")).
Proof. vm_compute. reflexivity. Qed.

(** An entry whose date is written without hyphens is read as well. *)
Example from_dict_basic_date :
  FinancialRecord.from_dict Cases.basic_entry =
    Ok (FinancialRecord.mk Samples.new_year (VStr "Rent") (VFloat 500)
          VNone (VStr "expense")).
Proof. vm_compute. reflexivity. Qed.

End RecordProperties.

(** ** The order of strings *)

Section StringOrder.

Lemma ascii_compare_cases (a b : ascii) :
  match Ascii.compare a b with
  | Eq => a = b
  | Lt => (N_of_ascii a < N_of_ascii b)%N
  | Gt => (N_of_ascii b < N_of_ascii a)%N
  end.
Proof.
  unfold Ascii.compare. destruct (N.compare_spec (N_of_ascii a) (N_of_ascii b)) as [E|E|E]; auto.
  rewrite <- (ascii_N_embedding a), <- (ascii_N_embedding b), E. reflexivity.
Qed.

Lemma ascii_compare_lt (a b : ascii) :
  (N_of_ascii a < N_of_ascii b)%N -> Ascii.compare a b = Lt.
Proof. unfold Ascii.compare. apply N.compare_lt_iff. Qed.

Lemma ascii_compare_refl (a : ascii) : Ascii.compare a a = Eq.
Proof. unfold Ascii.compare. apply N.compare_refl. Qed.

Lemma string_compare_refl (s : string) : String.compare s s = Eq.
Proof. induction s as [|a s IH]; [reflexivity|]. cbn. rewrite ascii_compare_refl. exact IH. Qed.

Lemma string_compare_lt_trans (s t u : string) :
  String.compare s t = Lt -> String.compare t u = Lt -> String.compare s u = Lt.
Proof.
  revert t u. induction s as [|a s IH]; intros [|b t] [|c u]; cbn; try congruence.
  pose proof (ascii_compare_cases a b) as Hab.
  pose proof (ascii_compare_cases b c) as Hbc.
  destruct (Ascii.compare a b) eqn:Eab; try discriminate;
  destruct (Ascii.compare b c) eqn:Ebc; try discriminate; intros H1 H2; subst.
  - rewrite ascii_compare_refl. eauto.
  - rewrite Ebc. reflexivity.
  - rewrite Eab. reflexivity.
  - rewrite ascii_compare_lt by lia. reflexivity.
Qed.

Lemma string_ltb_irrefl (s : string) : String.ltb s s = false.
Proof. unfold String.ltb. rewrite string_compare_refl. reflexivity. Qed.

Lemma string_leb_ltb (s t : string) : String.leb s t = negb (String.ltb t s).
Proof.
  unfold String.leb, String.ltb. rewrite (String.compare_antisym s t).
  destruct (String.compare t s); reflexivity.
Qed.

Lemma string_ltb_leb (s t : string) : String.ltb s t = true -> String.leb s t = true.
Proof. unfold String.leb, String.ltb. destruct (String.compare s t); congruence. Qed.

Lemma string_leb_trans (s t u : string) :
  String.leb s t = true -> String.leb t u = true -> String.leb s u = true.
Proof.
  unfold String.leb.
  destruct (String.compare s t) eqn:Est; try discriminate;
  destruct (String.compare t u) eqn:Etu; try discriminate; intros _ _.
  - apply String.compare_eq_iff in Est, Etu. subst. rewrite string_compare_refl. reflexivity.
  - apply String.compare_eq_iff in Est. subst. rewrite Etu. reflexivity.
  - apply String.compare_eq_iff in Etu. subst. rewrite Est. reflexivity.
  - rewrite (string_compare_lt_trans s t u Est Etu). reflexivity.
Qed.

End StringOrder.

(** ** Sorting by a key that is a string *)

Section SortedByKey.

Context {A : Type} (key : A -> pyval) (text : A -> string).

Local Abbreviation keyed := (fun a => key a = VStr (text a)).
Local Abbreviation le := (fun a b => String.leb (text a) (text b) = true).
Local Abbreviation same t := (fun a => String.eqb (text a) t).

Lemma insert_by_key_text (x : A) (l : list A) :
  keyed x -> Forall keyed l -> StronglySorted le l ->
  exists r, insert_by_key key x l = Ok r
            /\ Permutation r (x :: l)
            /\ StronglySorted le r
            /\ forall t, List.filter (same t) r = List.filter (same t) (x :: l).
Proof.
  intros Hx Hl Hs. induction l as [|y l IH].
  - exists [x]. cbn. repeat split; auto. repeat constructor.
  - apply Forall_cons in Hl. destruct Hl as [Hy Hl].
    apply StronglySorted_inv in Hs. destruct Hs as [Hs Hyl].
    cbn [insert_by_key]. rewrite Hy, Hx. cbn [py_lt mbind result_bind].
    destruct (String.ltb (text y) (text x)) eqn:Hlt.
    + destruct (IH Hl Hs) as (r & -> & Hp & Hsr & Hf).
      exists (y :: r). cbn [mbind result_bind]. split; [reflexivity|].
      split; [|split].
      * rewrite Hp. apply perm_swap.
      * constructor; [exact Hsr|].
        rewrite Hp.
        constructor; [apply string_ltb_leb, Hlt|exact Hyl].
      * intros t. cbn [List.filter]. rewrite Hf. cbn [List.filter].
        destruct (String.eqb (text y) t) eqn:Ey, (String.eqb (text x) t) eqn:Ex;
          try reflexivity.
        apply String.eqb_eq in Ey, Ex. rewrite Ey, Ex, string_ltb_irrefl in Hlt.
        discriminate.
    + exists (x :: y :: l). split; [reflexivity|].
      split; [reflexivity|]. split; [|reflexivity].
      assert (Hxy : String.leb (text x) (text y) = true)
        by (rewrite string_leb_ltb, Hlt; reflexivity).
      constructor; [constructor; assumption|].
      constructor; [exact Hxy|].
      eapply Forall_impl; [exact Hyl|].
      intros z Hz. cbn in Hz |- *. eapply string_leb_trans; eassumption.
Qed.

(** On keys that are strings [sorted] returns a permutation that is in
    ascending order and keeps elements of equal key in their order. *)
Lemma py_sorted_text (l : list A) :
  Forall keyed l ->
  exists r, py_sorted key l = Ok r
            /\ Permutation r l
            /\ StronglySorted le r
            /\ forall t, List.filter (same t) r = List.filter (same t) l.
Proof.
  induction l as [|x l IH]; intros Hl.
  - exists []. repeat split; auto. constructor.
  - apply Forall_cons in Hl. destruct Hl as [Hx Hl].
    destruct (IH Hl) as (r & Hr & Hp & Hs & Hf).
    assert (Hkr : Forall keyed r)
      by (rewrite Hp; exact Hl).
    destruct (insert_by_key_text x r Hx Hkr Hs) as (r' & Hr' & Hp' & Hs' & Hf').
    exists r'. cbn [py_sorted]. rewrite Hr. cbn [mbind result_bind].
    split; [exact Hr'|]. split; [|split].
    + rewrite Hp', Hp. reflexivity.
    + exact Hs'.
    + intros t. rewrite Hf'. cbn [List.filter]. rewrite Hf. reflexivity.
Qed.

End SortedByKey.

(** ** The ledger *)

Section LedgerProperties.

Import FinanceTracker.

Lemma bind_unfold {A B : Type} (m : M A) (k : A -> M B) (s : state) :
  (m ≫= k) s =
    match m s with
    | (Ok a, s') => k a s'
    | (Raise e, s') => (Raise e, s')
    end.
Proof. reflexivity. Qed.

Lemma lift_bind {A B : Type} (r : result A) (k : A -> M B) (s : state) :
  (lift r ≫= k) s =
    match r with
    | Ok a => k a s
    | Raise e => (Raise e, s)
    end.
Proof. rewrite bind_unfold. unfold lift. destruct r; reflexivity. Qed.

Lemma state_eta (s : state) :
  {| self := self s; fs := fs s; stdout := stdout s |} = s.
Proof. destruct s; reflexivity. Qed.

(** *** Saving *)

(** The state after the data file was written. *)
Lemma save_data_cases (s : state) :
  save_data s =
    if writable (fs s) (data_file (self s)) then
      (Ok tt,
       {| self := self s;
          fs := {| writable := writable (fs s);
                   files := <[data_file (self s) :=
                                {| doc_plans := FinancialRecord.to_dict <$> plans (self s);
                                   doc_trash_bin := FinancialRecord.to_dict <$> trash_bin (self s) |}]>
                              (files (fs s)) |};
          stdout := stdout s |})
    else (Ok tt, printed s [ErrorSaving OSError]).
Proof.
  unfold save_data, try_except, open_w_dump, get_self, print, printed.
  rewrite bind_unfold. cbn.
  destruct (writable (fs s) (data_file (self s))); reflexivity.
Qed.

(** [save_data] never raises and never touches the tracker. *)
Lemma save_data_frame (s : state) :
  fst (save_data s) = Ok tt /\ self (snd (save_data s)) = self s.
Proof.
  rewrite save_data_cases.
  destruct (writable (fs s) (data_file (self s))); auto.
Qed.

(** C9, as the code has it: when the data file cannot be opened for
    writing, [save_data] catches the error, prints the line
    [Error saving data: ...] and returns normally; the tracker (both
    lists) and the file system are as before. *)
Theorem save_data_unwritable (s : state) :
  writable (fs s) (data_file (self s)) = false ->
  save_data s = (Ok tt, printed s [ErrorSaving OSError])
  /\ self (snd (save_data s)) = self s
  /\ fs (snd (save_data s)) = fs s.
Proof.
  intros Hw. rewrite save_data_cases, Hw. auto.
Qed.

Lemma save_data_unwritable_witness :
  save_data (Samples.state_of [Samples.rent] [Samples.salary] Samples.read_only)
  = (Ok tt, printed (Samples.state_of [Samples.rent] [Samples.salary] Samples.read_only)
              [ErrorSaving OSError]).
Proof.
  apply (save_data_unwritable
           (Samples.state_of [Samples.rent] [Samples.salary] Samples.read_only)).
  reflexivity.
Defined.

(** C9, as stated, fails: on a file system that refuses the write nothing
    is raised to the caller of [save_data]. *)
Lemma save_data_swallows_error :
  writable Samples.read_only "financial_data.json" = false
  /\ ~ (exists e,
          fst (save_data (Samples.state_of [Samples.rent] [Samples.salary]
                            Samples.read_only)) = Raise e).
Proof.
  split; [reflexivity|]. intros [e He]. vm_compute in He. discriminate.
Qed.

(** *** Deleting *)

Lemma view_rows_frame (l : list FinancialRecord.t) (i : Z) (s : state) :
  exists ls, snd (view_rows i l s) = printed s ls.
Proof.
  revert i s. induction l as [|r l IH]; intros i s.
  - exists []. cbn. unfold printed. rewrite app_nil_r, state_eta. reflexivity.
  - cbn [view_rows]. rewrite lift_bind.
    destruct (format_2f (FinancialRecord.amount r));
      [|exists []; cbn; unfold printed; rewrite app_nil_r, state_eta; reflexivity].
    rewrite lift_bind.
    destruct (format_pad (FinancialRecord.description r));
      [|exists []; cbn; unfold printed; rewrite app_nil_r, state_eta; reflexivity].
    rewrite bind_unfold. cbn [print].
    destruct (IH (i + 1) (printed s [TableRow (i + 1) r])) as [ls Hls].
    exists (TableRow (i + 1) r :: ls). unfold printed in *. cbn in *.
    rewrite Hls, <- app_assoc. reflexivity.
Qed.

Lemma view_rows_ok (l : list FinancialRecord.t) (i : Z) (s : state) :
  Forall (fun r => format_2f (FinancialRecord.amount r) = Ok tt
                   /\ format_pad (FinancialRecord.description r) = Ok tt) l ->
  exists ls, view_rows i l s = (Ok tt, printed s ls).
Proof.
  intros Hl. revert i s. induction Hl as [|r l [Ha Hd] Hl IH]; intros i s.
  - exists []. cbn. unfold printed. rewrite app_nil_r, state_eta. reflexivity.
  - cbn [view_rows]. rewrite lift_bind, Ha, lift_bind, Hd, bind_unfold. cbn [print].
    destruct (IH (i + 1) (printed s [TableRow (i + 1) r])) as [ls Hls].
    exists (TableRow (i + 1) r :: ls). unfold printed in *. cbn in *.
    rewrite Hls, <- app_assoc. reflexivity.
Qed.

Lemma view_plans_frame (s : state) :
  exists ls, snd (view_plans s) = printed s ls.
Proof.
  unfold view_plans, view_plans_of. rewrite bind_unfold. cbn [get_self].
  destruct (plans (self s)) as [|r l].
  - exists [NoRecords]. reflexivity.
  - cbv beta iota. remember (r :: l) as pl eqn:Epl. clear Epl.
    do 2 (rewrite bind_unfold; cbn [print]).
    destruct (view_rows_frame pl 0
                {| self := self s; fs := fs s;
                   stdout := (stdout s ++ [TableHeader]) ++ [TableRule] |}) as [ls Hls].
    exists (TableHeader :: TableRule :: ls). unfold printed in *. cbn in *.
    rewrite Hls, <- !app_assoc. reflexivity.
Qed.

Lemma view_plans_ok (s : state) :
  Forall (fun r => format_2f (FinancialRecord.amount r) = Ok tt
                   /\ format_pad (FinancialRecord.description r) = Ok tt)
         (plans (self s)) ->
  exists ls, view_plans s = (Ok tt, printed s ls).
Proof.
  intros Hl. unfold view_plans, view_plans_of. rewrite bind_unfold. cbn [get_self].
  destruct (plans (self s)) as [|r l].
  - exists [NoRecords]. reflexivity.
  - cbv beta iota. remember (r :: l) as pl eqn:Epl. clear Epl.
    do 2 (rewrite bind_unfold; cbn [print]).
    destruct (view_rows_ok pl 0
                {| self := self s; fs := fs s;
                   stdout := (stdout s ++ [TableHeader]) ++ [TableRule] |} Hl) as [ls Hls].
    exists (TableHeader :: TableRule :: ls). unfold printed in *. cbn in *.
    rewrite Hls, <- !app_assoc. reflexivity.
Qed.

Lemma list_pop_in_range {A : Type} (l : list A) (i : Z) (x : A) :
  0 <= i -> l !! Z.to_nat i = Some x ->
  list_pop l i = Ok (x, delete (Z.to_nat i) l).
Proof.
  intros Hi Hx. unfold list_pop.
  destruct (i <? 0) eqn:E; [apply Z.ltb_lt in E; lia|].
  rewrite E, Hx. reflexivity.
Qed.

(** The tracker after the plan at [index] went to the trash. *)
Lemma delete_loop_in_range (int_of_str : string -> option Z) (s : state)
  (l : string) (rest : list string) (n : Z) (r : FinancialRecord.t) :
  int_of_str l = Some n ->
  1 <= n ->
  plans (self s) !! Z.to_nat (n - 1) = Some r ->
  format_2f (FinancialRecord.amount r) = Ok tt ->
  delete_loop int_of_str (l :: rest) s =
    (Ok rest,
     printed (snd (save_data
                     {| self := {| plans := delete (Z.to_nat (n - 1)) (plans (self s));
                                   trash_bin := trash_bin (self s) ++ [r];
                                   data_file := data_file (self s) |};
                        fs := fs s;
                        stdout := stdout s |}))
       [Deleted r]).
Proof.
  intros Hn H1 Hr Hf. cbn [delete_loop]. rewrite Hn.
  destruct (n - 1 =? -1) eqn:E; [apply Z.eqb_eq in E; lia|].
  rewrite bind_unfold. cbn [get_self].
  assert (Hlen : (Z.to_nat (n - 1) < length (plans (self s)))%nat)
    by (eapply lookup_lt_Some; exact Hr).
  replace ((0 <=? n - 1) && (n - 1 <? Z.of_nat (length (plans (self s))))) with true
    by (symmetry; apply andb_true_iff; split; [apply Z.leb_le|apply Z.ltb_lt]; lia).
  rewrite lift_bind, (list_pop_in_range _ _ r) by (lia || exact Hr).
  rewrite bind_unfold. cbn [set_self]. rewrite bind_unfold.
  match goal with |- context [save_data ?s0] =>
    pose proof (save_data_frame s0) as [Hok _]; destruct (save_data s0) as [o s1]
  end.
  cbn in Hok. subst o. rewrite Hf, bind_unfold. reflexivity.
Qed.



(** The scenario of the specification: with [Rent] and [Salary] active,
    deleting number 1 leaves [Salary] active and [Rent] in the trash. *)
Example delete_plan_scenario :
  self (snd (delete_plan Samples.int_of_digits ["1"] Samples.rent_and_salary))
  = Samples.tracker_of [Samples.salary] [Samples.rent]
  /\ stdout (snd (delete_plan Samples.int_of_digits ["1"] Samples.rent_and_salary))
     = [TableHeader; TableRule; TableRow 1 Samples.rent; TableRow 2 Samples.salary;
        Deleted Samples.rent].
Proof. split; vm_compute; reflexivity. Qed.


Lemma delete_loop_frame (int_of_str : string -> option Z) (ins : list string) (s : state) :
  Forall (fun l => forall j, int_of_str l = Some j ->
                             ~ (1 <= j <= Z.of_nat (length (plans (self s))))) ins ->
  exists ls, snd (delete_loop int_of_str ins s) = printed s ls.
Proof.
  intros Hins. revert s Hins. induction ins as [|l ins IH]; intros s Hins.
  - exists []. cbn. unfold printed. rewrite app_nil_r, state_eta. reflexivity.
  - apply Forall_cons in Hins. destruct Hins as [Hl Hins].
    cbn [delete_loop]. destruct (int_of_str l) as [n|] eqn:En.
    + destruct (n - 1 =? -1) eqn:E.
      * exists [DeletionCancelled]. reflexivity.
      * rewrite bind_unfold. cbn [get_self].
        replace ((0 <=? n - 1) && (n - 1 <? Z.of_nat (length (plans (self s)))))
          with false.
        2:{ symmetry. apply andb_false_iff. specialize (Hl n eq_refl).
            destruct (Z.leb_spec 0 (n - 1)); [right|left; reflexivity].
            apply Z.ltb_ge. lia. }
        rewrite bind_unfold. cbn [print].
        destruct (IH (printed s [InvalidPlanNumber]) Hins) as [ls Hls].
        exists (InvalidPlanNumber :: ls). unfold printed in *.
        cbn [self fs stdout] in Hls. rewrite Hls. cbn [self fs stdout].
        rewrite <- app_assoc. reflexivity.
    + rewrite bind_unfold. cbn [print].
      destruct (IH (printed s [InvalidInput]) Hins) as [ls Hls].
      exists (InvalidInput :: ls). unfold printed in *.
      cbn [self fs stdout] in Hls. rewrite Hls. cbn [self fs stdout].
      rewrite <- app_assoc. reflexivity.
Qed.

(** C4, as the code has it: a number [i] outside [1 .. len(plans)] read by
    the loop of [delete_plan] changes neither list.  For [i = 0] the
    method prints [Deletion cancelled.] and ends without reporting an
    error; for any other such [i] it prints [Invalid plan number. Please
    try again.] and reads the next line.  Hence, whatever lines are read,
    as long as none is a number within the range, [plans] and [trash_bin]
    are after [delete_plan] what they were before. *)
Theorem delete_plan_out_of_range (int_of_str : string -> option Z) (s : state) :
  (forall l rest i,
      int_of_str l = Some i ->
      ~ (1 <= i <= Z.of_nat (length (plans (self s)))) ->
      (i = 0 -> delete_loop int_of_str (l :: rest) s =
                  (Ok rest, printed s [DeletionCancelled]))
      /\ (i <> 0 -> delete_loop int_of_str (l :: rest) s =
                      delete_loop int_of_str rest (printed s [InvalidPlanNumber])))
  /\ (forall ins,
        Forall (fun l => forall j, int_of_str l = Some j ->
                                   ~ (1 <= j <= Z.of_nat (length (plans (self s))))) ins ->
        plans (self (snd (delete_plan int_of_str ins s))) = plans (self s)
        /\ trash_bin (self (snd (delete_plan int_of_str ins s))) = trash_bin (self s)).
Proof.
  split.
  - intros l rest i Hi Hout. split.
    + intros ->. cbn [delete_loop]. rewrite Hi. reflexivity.
    + intros Hne. cbn [delete_loop]. rewrite Hi.
      destruct (i - 1 =? -1) eqn:E; [apply Z.eqb_eq in E; lia|].
      rewrite bind_unfold. cbn [get_self].
      replace ((0 <=? i - 1) && (i - 1 <? Z.of_nat (length (plans (self s)))))
        with false.
      2:{ symmetry. apply andb_false_iff.
          destruct (Z.leb_spec 0 (i - 1)); [right|left; reflexivity].
          apply Z.ltb_ge. lia. }
      rewrite bind_unfold. reflexivity.
  - intros ins Hins.
    assert (H : exists ls, snd (delete_plan int_of_str ins s) = printed s ls).
    { unfold delete_plan. rewrite bind_unfold.
      destruct (view_plans_frame s) as [ls Hls].
      destruct (view_plans s) as [[[]|e] s1]; cbn [snd] in Hls; subst s1;
        [|exists ls; reflexivity].
      rewrite bind_unfold. cbn [get_self printed self].
      destruct (plans (self s)) eqn:Ep; [exists ls; reflexivity|].
      rewrite <- Ep in *.
      destruct (delete_loop_frame int_of_str ins (printed s ls) Hins) as [ls' Hls'].
      exists (ls ++ ls')%list. rewrite Hls'. unfold printed. cbn [self fs stdout].
      rewrite app_assoc. reflexivity. }
    destruct H as [ls ->]. split; reflexivity.
Qed.

(** C4, as stated, fails: the number 0 is outside [1 .. len(plans)], and
    what is reported for it is the cancellation, not an invalid plan
    number. *)
Lemma delete_plan_zero_cancels :
  Samples.int_of_digits "0" = Some 0
  /\ ~ (1 <= 0 <= Z.of_nat (length (plans (self Samples.rent_and_salary))))
  /\ delete_plan Samples.int_of_digits ["0"] Samples.rent_and_salary
     = (Ok [], printed Samples.rent_and_salary
                 [TableHeader; TableRule; TableRow 1 Samples.rent;
                  TableRow 2 Samples.salary; DeletionCancelled])
  /\ ~ In InvalidPlanNumber
         (stdout (snd (delete_plan Samples.int_of_digits ["0"] Samples.rent_and_salary))).
Proof.
  split; [reflexivity|]. split; [lia|]. split; [vm_compute; reflexivity|].
  vm_compute. intros H. repeat (destruct H as [H|H]; [discriminate H|]). exact H.
Qed.

(** A number beyond the end is reported and the next line is read. *)
Example delete_plan_beyond_end :
  delete_plan Samples.int_of_digits ["7"; "0"] Samples.rent_and_salary
  = (Ok [], printed Samples.rent_and_salary
              [TableHeader; TableRule; TableRow 1 Samples.rent;
               TableRow 2 Samples.salary; InvalidPlanNumber; DeletionCancelled]).
Proof. vm_compute. reflexivity. Qed.

(** *** Adding *)

Section Adding.

Variable float_of_str : string -> option float.
Variable strptime_mdY : string -> option Date.t.
Variable str_strip : string -> string.
Variable str_lower : string -> string.

Lemma printed_nil (s : state) : printed s [] = s.
Proof. unfold printed. rewrite app_nil_r. apply state_eta. Qed.

Lemma printed_printed (s : state) (ls ls' : list line) :
  printed (printed s ls) ls' = printed s (ls ++ ls')%list.
Proof. unfold printed. cbn [self fs stdout]. rewrite app_assoc. reflexivity. Qed.

Lemma read_record_type_spec (ins : list string) (s : state) :
  exists ls, snd (read_record_type str_strip str_lower ins s) = printed s ls
    /\ forall kind rest,
         fst (read_record_type str_strip str_lower ins s) = Ok (kind, rest) ->
         kind = "expense" \/ kind = "income".
Proof.
  revert s. induction ins as [|l ins IH]; intros s.
  - exists []. rewrite printed_nil. split; [reflexivity|]. discriminate.
  - cbn [read_record_type].
    destruct (String.eqb (str_lower (str_strip l)) "plan"
              || String.eqb (str_lower (str_strip l)) "allowance").
    + exists []. rewrite printed_nil. split; [reflexivity|].
      intros kind rest H. cbn in H. injection H as <- _.
      destruct (String.eqb (str_lower (str_strip l)) "plan"); auto.
    + rewrite bind_unfold. cbn [print]. fold (printed s [InvalidRecordType]).
      destruct (IH (printed s [InvalidRecordType])) as (ls & Hls & Hk).
      exists (InvalidRecordType :: ls). rewrite Hls, printed_printed.
      split; [reflexivity|exact Hk].
Qed.

Lemma read_date_spec (ins : list string) (s : state) :
  exists ls, snd (read_date strptime_mdY str_strip ins s) = printed s ls.
Proof.
  revert s. induction ins as [|l ins IH]; intros s.
  - exists []. rewrite printed_nil. reflexivity.
  - cbn [read_date]. destruct (strptime_mdY (str_strip l)).
    + exists []. rewrite printed_nil. reflexivity.
    + rewrite bind_unfold. cbn [print]. fold (printed s [InvalidDateFormat]).
      destruct (IH (printed s [InvalidDateFormat])) as (ls & Hls).
      exists (InvalidDateFormat :: ls). rewrite Hls, printed_printed. reflexivity.
Qed.

Lemma read_amount_spec (ins : list string) (s : state) :
  exists ls, snd (read_amount float_of_str ins s) = printed s ls
    /\ forall amount rest,
         fst (read_amount float_of_str ins s) = Ok (amount, rest) ->
         PrimFloat.leb amount 0 = false.
Proof.
  revert s. induction ins as [|l ins IH]; intros s.
  - exists []. rewrite printed_nil. split; [reflexivity|]. discriminate.
  - cbn [read_amount]. destruct (float_of_str l) as [a|].
    + destruct (PrimFloat.leb a 0) eqn:Ea.
      * rewrite bind_unfold. cbn [print]. fold (printed s [AmountNotPositive]).
        destruct (IH (printed s [AmountNotPositive])) as (ls & Hls & Hk).
        exists (AmountNotPositive :: ls). rewrite Hls, printed_printed.
        split; [reflexivity|exact Hk].
      * exists []. rewrite printed_nil. split; [reflexivity|].
        intros amount rest H. cbn in H. injection H as H _.
        rewrite <- H. exact Ea.
    + rewrite bind_unfold. cbn [print]. fold (printed s [AmountNotNumber]).
      destruct (IH (printed s [AmountNotNumber])) as (ls & Hls & Hk).
      exists (AmountNotNumber :: ls). rewrite Hls, printed_printed.
      split; [reflexivity|exact Hk].
Qed.

Lemma read_due_date_spec (kind : string) (ins : list string) (s : state) :
  snd (read_due_date str_strip kind ins s) = s
  /\ forall due rest,
       fst (read_due_date str_strip kind ins s) = Ok (due, rest) ->
       (kind <> "expense" -> due = VNone)
       /\ (due = VNone \/ exists t, due = VStr t /\ t <> "").
Proof.
  unfold read_due_date. destruct (String.eqb kind "expense") eqn:Ek.
  - apply String.eqb_eq in Ek. destruct ins as [|l ins].
    + split; [reflexivity|discriminate].
    + split; [reflexivity|]. intros due rest H. cbn in H. injection H as <- _.
      split; [congruence|].
      destruct (String.eqb (str_strip l) "") eqn:Et; [auto|].
      right. exists (str_strip l). split; [reflexivity|].
      apply String.eqb_neq, Et.
  - split; [reflexivity|]. intros due rest H. cbn in H. injection H as <- _.
    auto.
Qed.

Lemma add_record_self (r : FinancialRecord.t) (s : state) :
  fst (add_record r s) = Ok tt
  /\ self (snd (add_record r s)) =
       {| plans := plans (self s) ++ [r];
          trash_bin := trash_bin (self s);
          data_file := data_file (self s) |}.
Proof.
  unfold add_record. rewrite bind_unfold. cbn [get_self].
  rewrite bind_unfold. cbn [set_self].
  match goal with |- context [save_data ?s0] =>
    destruct (save_data_frame s0) as [H1 H2]
  end.
  split; assumption.
Qed.

(** What [add_plan_interactive] can do to the tracker: nothing, or one
    record more at the end of [plans], made of checked input. *)
Lemma add_plan_interactive_adds (ins : list string) (s : state) :
  self (snd (add_plan_interactive float_of_str strptime_mdY str_strip str_lower ins s))
    = self s
  \/ exists date description amount due_date kind,
       self (snd (add_plan_interactive float_of_str strptime_mdY str_strip str_lower
                    ins s))
       = {| plans := plans (self s)
                     ++ [FinancialRecord.mk date (VStr description) (VFloat amount)
                           due_date (VStr kind)];
            trash_bin := trash_bin (self s);
            data_file := data_file (self s) |}
       /\ description <> ""
       /\ PrimFloat.leb amount 0 = false
       /\ (kind = "expense" \/ kind = "income")
       /\ (kind <> "expense" -> due_date = VNone)
       /\ (due_date = VNone \/ exists t, due_date = VStr t /\ t <> "").
Proof.
  unfold add_plan_interactive. rewrite bind_unfold. cbn [print].
  fold (printed s [AddHeader]). set (s0 := printed s [AddHeader]).
  assert (H0 : self s0 = self s) by reflexivity. clearbody s0.
  rewrite bind_unfold.
  destruct (read_record_type_spec ins s0) as (ls1 & Hs1 & Hk).
  destruct (read_record_type str_strip str_lower ins s0) as [[[kind ins1]|e] s1];
    cbn [snd fst] in Hs1, Hk; subst s1; [|left; exact H0].
  specialize (Hk kind ins1 eq_refl).
  rewrite bind_unfold.
  destruct (read_date_spec ins1 (printed s0 ls1)) as (ls2 & Hs2).
  destruct (read_date strptime_mdY str_strip ins1 (printed s0 ls1))
    as [[[date ins2]|e] s2]; cbn [snd] in Hs2; subst s2; [|left; exact H0].
  destruct ins2 as [|l ins3]; [left; exact H0|].
  destruct (String.eqb (str_strip l) "") eqn:Ed; [left; exact H0|].
  apply String.eqb_neq in Ed.
  rewrite bind_unfold.
  match goal with |- context [read_amount float_of_str ins3 ?st] =>
    destruct (read_amount_spec ins3 st) as (ls3 & Hs3 & Ha);
    destruct (read_amount float_of_str ins3 st) as [[[amount ins4]|e] s3]
  end; cbn [snd fst] in Hs3, Ha; subst s3; [|left; exact H0].
  specialize (Ha amount ins4 eq_refl).
  rewrite bind_unfold.
  match goal with |- context [read_due_date str_strip kind ins4 ?st] =>
    destruct (read_due_date_spec kind ins4 st) as (Hs4 & Hd);
    destruct (read_due_date str_strip kind ins4 st) as [[[due ins5]|e] s4]
  end; cbn [snd fst] in Hs4, Hd; subst s4; [|left; exact H0].
  destruct (Hd due ins5 eq_refl) as [Hd1 Hd2].
  rewrite lift_bind. cbn [FinancialRecord.__init__].
  rewrite bind_unfold.
  match goal with |- context [add_record ?r ?st] =>
    destruct (add_record_self r st) as [Hok Hself];
    destruct (add_record r st) as [[[]|e] s5]
  end; cbn [fst snd] in Hok, Hself; [|discriminate Hok].
  rewrite bind_unfold. cbn [print]. unfold mret, M_ret. cbn [snd self].
  right. exists date, (str_strip l), amount, due, kind.
  split; [|auto]. rewrite Hself. cbn [printed self]. rewrite H0. reflexivity.
Qed.

End Adding.

(** An expense entered at the prompts, the amount -5 refused on the way;
    then an income, which is not asked for a due date. *)
Example add_plan_interactive_rent :
  add_plan_interactive Samples.float_of_sample Samples.date_of_sample
    Samples.as_it_is Samples.as_it_is
    ["plan"; "01-01-2024"; "Rent"; "-5"; "500"; "2024-01-05"] Samples.empty
  = (Ok [],
     {| self := Samples.tracker_of [Samples.rent] [];
        fs := {| writable := fun _ => true;
                 files := {["financial_data.json" :=
                              {| doc_plans := [FinancialRecord.to_dict Samples.rent];
                                 doc_trash_bin := [] |}]} |};
        stdout := [AddHeader; AmountNotPositive; Added "expense"] |}).
Proof. vm_compute. reflexivity. Qed.

Example add_plan_interactive_salary :
  self (snd (add_plan_interactive Samples.float_of_sample Samples.date_of_sample
               Samples.as_it_is Samples.as_it_is
               ["allowance"; "01-02-2024"; "Salary"; "2000"; "2024-01-05"]
               (Samples.state_of [Samples.rent] [] Samples.read_write)))
  = Samples.tracker_of [Samples.rent; Samples.salary] [].
Proof. vm_compute. reflexivity. Qed.

(** The test [amount <= 0] lets a NaN through: it is false for it, as is
    [0 < amount]. *)
Example add_plan_interactive_nan :
  plans (self (snd (add_plan_interactive Samples.float_of_sample Samples.date_of_sample
                      Samples.as_it_is Samples.as_it_is
                      ["allowance"; "01-02-2024"; "Salary"; "nan"] Samples.empty)))
  = [FinancialRecord.mk (Date.mk 2024 1 2) (VStr "Salary") (VFloat nan) VNone
       (VStr "income")]
  /\ PrimFloat.ltb 0 nan = false.
Proof. split; vm_compute; reflexivity. Qed.

(** C1, as the code has it: constructing a record never fails and checks
    nothing, the five arguments become the five fields.  The checks are
    made by [add_plan_interactive] before it constructs the record: it
    adds nothing when the description is empty and asks again while
    [amount <= 0], so every record it adds has a description that is not
    empty and an amount for which [amount <= 0] is false. *)
Theorem construction_unchecked
  (float_of_str : string -> option float) (strptime_mdY : string -> option Date.t)
  (str_strip str_lower : string -> string) :
  (forall date description amount due_date record_type,
      FinancialRecord.__init__ date description amount due_date record_type =
        Ok (FinancialRecord.mk date description amount due_date record_type))
  /\ (forall ins s r,
        plans (self (snd (add_plan_interactive float_of_str strptime_mdY str_strip
                            str_lower ins s)))
          = (plans (self s) ++ [r])%list ->
        exists description amount,
          FinancialRecord.description r = VStr description /\ description <> ""
          /\ FinancialRecord.amount r = VFloat amount /\ PrimFloat.leb amount 0 = false).
Proof.
  split; [reflexivity|]. intros ins s r Hr.
  destruct (add_plan_interactive_adds float_of_str strptime_mdY str_strip str_lower ins s)
    as [H|(date & description & amount & due & kind & H & Hd & Ha & _)];
    rewrite H in Hr; cbn [plans] in Hr.
  - exfalso. apply (f_equal length) in Hr. rewrite length_app in Hr. cbn in Hr. lia.
  - apply app_inj_tail in Hr. destruct Hr as [_ <-].
    exists description, amount. auto.
Qed.

(** C1, as stated, fails: a record with an empty description and the
    amount -5 is constructed. *)
Lemma construction_accepts_invalid :
  FinancialRecord.__init__ Samples.new_year (VStr "") (VFloat (-5)) VNone (VStr "expense")
  = Ok (FinancialRecord.mk Samples.new_year (VStr "") (VFloat (-5)) VNone (VStr "expense"))
  /\ PrimFloat.ltb 0 (-5) = false.
Proof. split; reflexivity. Qed.

(** C7, as the code has it: the constructor keeps the due date it is
    given, also for an income.  It is [add_plan_interactive] that asks for
    a due date only when the kind is ["expense"]: a record it adds with
    another kind, that is an income, has the due date [None]. *)
Theorem due_date_of_income
  (float_of_str : string -> option float) (strptime_mdY : string -> option Date.t)
  (str_strip str_lower : string -> string) :
  (forall date description amount due_date record_type r,
      FinancialRecord.__init__ date description amount due_date record_type = Ok r ->
      FinancialRecord.due_date r = due_date)
  /\ (forall ins s r,
        plans (self (snd (add_plan_interactive float_of_str strptime_mdY str_strip
                            str_lower ins s)))
          = (plans (self s) ++ [r])%list ->
        (FinancialRecord.record_type r = VStr "expense"
         \/ FinancialRecord.record_type r = VStr "income")
        /\ (FinancialRecord.record_type r = VStr "income" ->
            FinancialRecord.due_date r = VNone)).
Proof.
  split.
  - intros date description amount due_date record_type r H.
    injection H as <-. reflexivity.
  - intros ins s r Hr.
    destruct (add_plan_interactive_adds float_of_str strptime_mdY str_strip str_lower ins s)
      as [H|(date & description & amount & due & kind & H & _ & _ & Hk & Hd & _)];
      rewrite H in Hr; cbn [plans] in Hr.
    + exfalso. apply (f_equal length) in Hr. rewrite length_app in Hr. cbn in Hr. lia.
    + apply app_inj_tail in Hr. destruct Hr as [_ <-].
      cbn [FinancialRecord.record_type FinancialRecord.due_date]. split.
      * destruct Hk as [-> | ->]; auto.
      * intros Hi. apply Hd. intros ->. discriminate Hi.
Qed.

(** C7, as stated, fails: an income constructed with a due date has that
    due date. *)
Lemma income_keeps_due_date :
  exists r,
    FinancialRecord.__init__ Samples.new_year (VStr "Salary") (VFloat 2000)
      (VStr "2024-01-05") (VStr "income") = Ok r
    /\ FinancialRecord.record_type r = VStr "income"
    /\ FinancialRecord.due_date r = VStr "2024-01-05"
    /\ FinancialRecord.due_date r <> VNone.
Proof.
  eexists. split; [reflexivity|]. cbn. repeat split. discriminate.
Qed.

(** *** The balance *)

Lemma float_of_int_0 : float_of_int 0 = Ok 0%float.
Proof. vm_compute. reflexivity. Qed.

Lemma sum_from_floats (a : float) (l : list float) :
  sum_from (VFloat a) (VFloat <$> l) = Ok (VFloat (fold_left PrimFloat.add l a)).
Proof.
  revert a. induction l as [|b l IH]; intros a; [reflexivity|].
  cbn [fmap list_fmap sum_from]. unfold py_add, arith. cbn [as_num mbind result_bind].
  apply (IH (a + b)%float).
Qed.

(** [sum] over floats is the reference total. *)
Lemma py_sum_floats (l : list float) :
  py_sum (VFloat <$> l) = Ok (float_total l).
Proof.
  unfold py_sum. destruct l as [|a l]; [reflexivity|].
  cbn [fmap list_fmap sum_from]. unfold py_add, arith. cbn [as_num].
  rewrite float_of_int_0. cbn [mbind result_bind].
  rewrite sum_from_floats. reflexivity.
Qed.

Lemma py_sub_totals (inc exp : list float) :
  py_sub (float_total inc) (float_total exp) = Ok (net_total inc exp).
Proof.
  unfold py_sub, arith, float_total, net_total.
  destruct inc, exp; cbn [as_num]; rewrite ?float_of_int_0; reflexivity.
Qed.

(** C2, as the code has it: when the amounts of the active income records
    are the floats [inc] and those of the active expense records are the
    floats [exp], [calculate_balance] returns [income] = the binary64
    accumulation [((0 + a1) + a2) + ...] over [inc], [expenses] = the same
    over [exp], and [net_balance] = [income - expenses]; the trash takes
    no part, and the state is left as it was.  The sums are ordinary
    floating-point sums. *)
Theorem calculate_balance_floats (s : state) (inc exp : list float) :
  FinancialRecord.amount <$> List.filter is_income (plans (self s)) = VFloat <$> inc ->
  FinancialRecord.amount <$> List.filter is_expense (plans (self s)) = VFloat <$> exp ->
  calculate_balance s =
    (Ok {| income := float_total inc;
           expenses := float_total exp;
           net_balance := net_total inc exp |}, s).
Proof.
  intros Hi He. unfold calculate_balance.
  rewrite bind_unfold. cbn [get_self].
  rewrite Hi, He.
  rewrite lift_bind, py_sum_floats. cbv beta iota.
  rewrite lift_bind, py_sum_floats. cbv beta iota.
  rewrite lift_bind, py_sub_totals. reflexivity.
Qed.

Lemma calculate_balance_floats_witness :
  calculate_balance (Samples.state_of [Samples.rent; Samples.salary] [Samples.dime]
                       Samples.read_write)
  = (Ok {| income := VFloat 2000; expenses := VFloat 500; net_balance := VFloat 1500 |},
     Samples.state_of [Samples.rent; Samples.salary] [Samples.dime] Samples.read_write).
Proof.
  apply (calculate_balance_floats
           (Samples.state_of [Samples.rent; Samples.salary] [Samples.dime]
              Samples.read_write) [2000%float] [500%float]); reflexivity.
Defined.

(** The scenario of the specification, after [Rent] went to the trash:
    no expense is left, and the expenses are the integer 0. *)
Example calculate_balance_after_delete :
  fst (calculate_balance
         (snd (delete_plan Samples.int_of_digits ["1"] Samples.rent_and_salary)))
  = Ok {| income := VFloat 2000; expenses := VInt 0; net_balance := VFloat 2000 |}.
Proof. vm_compute. reflexivity. Qed.

(** C2, as stated, fails: three incomes of 0.1 add up to
    0.30000000000000004, which is not the float 0.3. *)
Lemma calculate_balance_drift :
  fst (calculate_balance Samples.three_dimes)
  = Ok {| income := VFloat 0.30000000000000004;
          expenses := VInt 0;
          net_balance := VFloat 0.30000000000000004 |}
  /\ PrimFloat.eqb 0.30000000000000004 0.3 = false
  /\ VFloat 0.30000000000000004 <> VFloat 0.3.
Proof.
  split; [vm_compute; reflexivity|].
  split; [vm_compute; reflexivity|].
  intros H.
  apply (f_equal (fun v => match v with
                           | VFloat f => PrimFloat.eqb f 0.3
                           | _ => false
                           end)) in H.
  vm_compute in H. discriminate.
Qed.

(** *** Upcoming due dates *)

Lemma print_due_ok (l : list FinancialRecord.t) (s : state) :
  Forall (fun r => format_2f (FinancialRecord.amount r) = Ok tt) l ->
  print_due l s = (Ok tt, printed s (DueLine <$> l)).
Proof.
  intros Hl. revert s. induction Hl as [|r l Hr Hl IH]; intros s.
  - cbn. unfold printed. rewrite app_nil_r, state_eta. reflexivity.
  - cbn [print_due]. rewrite lift_bind, Hr, bind_unfold. cbn [print].
    pose proof (IH (printed s [DueLine r])) as H.
    unfold printed in *. cbn [self fs stdout] in H. rewrite H.
    cbn. rewrite <- app_assoc. reflexivity.
Qed.

(** Among records whose due date is a string or [None], the test of
    [view_upcoming_due_dates] picks the expenses with a due date that is
    a string and not the empty one. *)
Lemma has_due_text (r : FinancialRecord.t) :
  str_or_none (FinancialRecord.due_date r) = true ->
  has_due r = true <->
  FinancialRecord.record_type r = VStr "expense"
  /\ FinancialRecord.due_date r = VStr (due_text r) /\ due_text r <> "".
Proof.
  unfold has_due, is_expense, eq_str, due_text. intros Ht.
  rewrite andb_true_iff. split.
  - intros [He Hd]. split.
    + destruct (FinancialRecord.record_type r); try discriminate.
      apply String.eqb_eq in He. congruence.
    + destruct (FinancialRecord.due_date r); try discriminate.
      split; [reflexivity|]. intros ->. discriminate.
  - intros (-> & Hd & Hn). split; [reflexivity|].
    rewrite Hd. cbn. apply negb_true_iff, String.eqb_neq, Hn.
Qed.

(** C8, as the code has it: when the due dates of the active records are
    strings or [None] and their amounts are numbers,
    [view_upcoming_due_dates] prints, after the header, one line for each
    active record whose kind is ["expense"] and whose due date is a string
    other than the empty one (an empty due date counts as none), in
    ascending order of the due dates compared as strings, records with the
    same due date in the order they have in [plans]; it prints
    [No upcoming due dates.] when there is no such record. *)
Theorem view_upcoming_due_dates_sorted (s : state) :
  Forall (fun r => str_or_none (FinancialRecord.due_date r) = true
                   /\ format_2f (FinancialRecord.amount r) = Ok tt)
         (plans (self s)) ->
  exists ordered,
    view_upcoming_due_dates s =
      (Ok tt, printed s match ordered with
                        | [] => [NoUpcoming]
                        | _ => UpcomingHeader :: (DueLine <$> ordered)
                        end)
    /\ Permutation ordered (List.filter has_due (plans (self s)))
    /\ (forall r, In r ordered <->
          In r (plans (self s))
          /\ FinancialRecord.record_type r = VStr "expense"
          /\ FinancialRecord.due_date r = VStr (due_text r) /\ due_text r <> "")
    /\ StronglySorted (fun a b => String.leb (due_text a) (due_text b) = true) ordered
    /\ (forall t, List.filter (fun r => String.eqb (due_text r) t) ordered =
                  List.filter (fun r => String.eqb (due_text r) t)
                    (List.filter has_due (plans (self s)))).
Proof.
  intros Hty.
  assert (Hfil : Forall (fun r => str_or_none (FinancialRecord.due_date r) = true
                                  /\ format_2f (FinancialRecord.amount r) = Ok tt)
                   (List.filter has_due (plans (self s)))).
  { apply List.Forall_forall. intros r Hr. apply List.filter_In in Hr.
    exact (proj1 (List.Forall_forall _ _) Hty r (proj1 Hr)). }
  assert (Hkey : Forall (fun r => FinancialRecord.due_date r = VStr (due_text r))
                   (List.filter has_due (plans (self s)))).
  { apply List.Forall_forall. intros r Hr.
    pose proof (proj1 (List.Forall_forall _ _) Hfil r Hr) as [Ht _].
    apply List.filter_In in Hr. destruct Hr as [_ Hr].
    apply (has_due_text r Ht) in Hr. tauto. }
  destruct (py_sorted_text FinancialRecord.due_date due_text _ Hkey)
    as (ordered & Hsort & Hperm & Hss & Hst).
  exists ordered. split; [|split; [exact Hperm|split; [|split; assumption]]].
  - unfold view_upcoming_due_dates. rewrite bind_unfold. cbn [get_self].
    destruct (List.filter has_due (plans (self s))) as [|r l] eqn:Ef.
    + apply Permutation_nil_r in Hperm. subst ordered. reflexivity.
    + rewrite bind_unfold. cbn [print]. rewrite lift_bind, Hsort.
      rewrite print_due_ok.
      * destruct ordered as [|o ordered'].
        -- apply Permutation_nil in Hperm. discriminate.
        -- unfold printed. cbn. rewrite <- app_assoc. reflexivity.
      * rewrite Hperm. eapply Forall_impl; [exact Hfil|]. cbn. tauto.
  - intros r. split.
    + intros Hr. apply (Permutation_in _ Hperm) in Hr.
      pose proof (proj1 (List.Forall_forall _ _) Hfil r Hr) as [Ht _].
      apply List.filter_In in Hr. destruct Hr as [Hin Hr].
      apply (has_due_text r Ht) in Hr. tauto.
    + intros (Hin & Hr).
      pose proof (proj1 (List.Forall_forall _ _) Hty r Hin) as [Ht _].
      apply (Permutation_in _ (Permutation_sym Hperm)).
      apply List.filter_In. split; [exact Hin|].
      apply (has_due_text r Ht). exact Hr.
Qed.

Lemma view_upcoming_due_dates_sorted_witness :
  exists ordered,
    view_upcoming_due_dates
      (Samples.state_of [Samples.bill "Water" "2024-03-01"; Samples.salary;
                         Samples.bill "Power" "2024-01-15";
                         Samples.bill "Phone" "2024-02-10"] [] Samples.read_write)
    = (Ok tt, printed
                (Samples.state_of [Samples.bill "Water" "2024-03-01"; Samples.salary;
                                   Samples.bill "Power" "2024-01-15";
                                   Samples.bill "Phone" "2024-02-10"] []
                   Samples.read_write)
                match ordered with
                | [] => [NoUpcoming]
                | _ => UpcomingHeader :: (DueLine <$> ordered)
                end)
    /\ StronglySorted (fun a b => String.leb (due_text a) (due_text b) = true) ordered.
Proof.
  destruct (view_upcoming_due_dates_sorted
              (Samples.state_of [Samples.bill "Water" "2024-03-01"; Samples.salary;
                                 Samples.bill "Power" "2024-01-15";
                                 Samples.bill "Phone" "2024-02-10"] []
                 Samples.read_write)) as (ordered & H1 & _ & _ & H2 & _).
  - repeat constructor.
  - exists ordered. split; assumption.
Defined.

(** The due dates 2024-03-01, 2024-01-15, 2024-02-10 come out as
    2024-01-15, 2024-02-10, 2024-03-01. *)
Example view_upcoming_due_dates_example :
  stdout (snd (view_upcoming_due_dates
                 (Samples.state_of [Samples.bill "Water" "2024-03-01"; Samples.salary;
                                    Samples.bill "Power" "2024-01-15";
                                    Samples.bill "Phone" "2024-02-10"] []
                    Samples.read_write)))
  = [UpcomingHeader;
     DueLine (Samples.bill "Power" "2024-01-15");
     DueLine (Samples.bill "Phone" "2024-02-10");
     DueLine (Samples.bill "Water" "2024-03-01")].
Proof. vm_compute. reflexivity. Qed.

(** C8, as stated, fails: an active expense whose due date is the empty
    string has a due date that is not [None], and is not listed. *)
Lemma view_upcoming_due_dates_skips_empty :
  is_expense (Samples.bill "Water" "") = true
  /\ FinancialRecord.due_date (Samples.bill "Water" "") <> VNone
  /\ view_upcoming_due_dates
       (Samples.state_of [Samples.bill "Water" ""] [] Samples.read_write)
     = (Ok tt, printed (Samples.state_of [Samples.bill "Water" ""] []
                          Samples.read_write) [NoUpcoming]).
Proof.
  split; [reflexivity|]. split; [discriminate|]. vm_compute. reflexivity.
Qed.

(** *** Methods that only read *)

Lemma print_due_frame (l : list FinancialRecord.t) (s : state) :
  exists ls, snd (print_due l s) = printed s ls.
Proof.
  revert s. induction l as [|r l IH]; intros s.
  - exists []. cbn. unfold printed. rewrite app_nil_r. symmetry. apply state_eta.
  - cbn [print_due]. rewrite lift_bind.
    destruct (format_2f (FinancialRecord.amount r)).
    + rewrite bind_unfold. cbn [print].
      destruct (IH (printed s [DueLine r])) as [ls Hls].
      exists (DueLine r :: ls). unfold printed in *. cbn in *.
      rewrite Hls. rewrite <- app_assoc. reflexivity.
    + exists []. cbn. unfold printed. rewrite app_nil_r. symmetry. apply state_eta.
Qed.

Lemma view_upcoming_due_dates_frame (s : state) :
  exists ls, snd (view_upcoming_due_dates s) = printed s ls.
Proof.
  unfold view_upcoming_due_dates. rewrite bind_unfold. cbn [get_self].
  destruct (List.filter has_due (plans (self s))) as [|r l].
  - exists [NoUpcoming]. reflexivity.
  - rewrite bind_unfold. cbn [print]. rewrite lift_bind.
    destruct (py_sorted FinancialRecord.due_date (r :: l)) as [ordered|e].
    + destruct (print_due_frame ordered (printed s [UpcomingHeader])) as [ls Hls].
      exists (UpcomingHeader :: ls). unfold printed in *. cbn in *.
      rewrite Hls. rewrite <- app_assoc. reflexivity.
    + exists [UpcomingHeader]. reflexivity.
Qed.

(** C10: [calculate_balance] leaves the whole state as it was, and
    [view_upcoming_due_dates] only prints: after either call the tracker,
    that is the lists [plans] and [trash_bin], and the files are the ones
    before the call, whatever the outcome of the call. *)
Theorem reading_methods_frame (s : state) :
  snd (calculate_balance s) = s
  /\ plans (self (snd (view_upcoming_due_dates s))) = plans (self s)
  /\ trash_bin (self (snd (view_upcoming_due_dates s))) = trash_bin (self s)
  /\ fs (snd (view_upcoming_due_dates s)) = fs s.
Proof.
  split.
  - unfold calculate_balance. rewrite bind_unfold. cbn [get_self].
    rewrite lift_bind.
    destruct (py_sum (FinancialRecord.amount <$> List.filter is_income (plans (self s))));
      [|reflexivity].
    rewrite lift_bind.
    destruct (py_sum (FinancialRecord.amount <$> List.filter is_expense (plans (self s))));
      [|reflexivity].
    rewrite lift_bind. destruct (py_sub a a0); reflexivity.
  - destruct (view_upcoming_due_dates_frame s) as [ls ->]. auto.
Qed.

End LedgerProperties.

(** ** Adding and deleting, call after call *)

Section Mutations.

Import FinanceTracker.

(** [add_record] is [save_data] on the tracker with the record appended. *)
Lemma add_record_unfold (r : FinancialRecord.t) (s : state) :
  add_record r s =
    save_data {| self := with_plan (self s) r; fs := fs s; stdout := stdout s |}.
Proof.
  unfold add_record. rewrite bind_unfold. cbn [get_self].
  rewrite bind_unfold. reflexivity.
Qed.

(** What [save_data] leaves behind: the tracker and the table of writable
    paths as they were, and the data file in step with the tracker when it
    can be written. *)
Lemma save_data_effect (s : state) :
  fst (save_data s) = Ok tt
  /\ self (snd (save_data s)) = self s
  /\ writable (fs (snd (save_data s))) = writable (fs s)
  /\ (writable (fs s) (data_file (self s)) = true -> in_sync (snd (save_data s)))
  /\ (writable (fs s) (data_file (self s)) = false ->
      snd (save_data s) = printed s [ErrorSaving OSError]).
Proof.
  rewrite save_data_cases. unfold in_sync, document_of.
  destruct (writable (fs s) (data_file (self s))) eqn:Hw; cbn [fst snd self fs printed writable files].
  - repeat split; try discriminate. intros _. apply lookup_insert_eq.
  - repeat split; try discriminate.
Qed.

(** Printing does not disturb the step of file and tracker. *)
Lemma in_sync_printed (s : state) (ls : list line) :
  in_sync (printed s ls) <-> in_sync s.
Proof. reflexivity. Qed.

(** X1: records added one after another end up at the end of [plans] in
    the order of the calls, behind the records that were there; the trash
    is not touched, no call fails, and when the data file can be written
    it holds the two lists after the last call. *)
Theorem add_records_in_order (records : list FinancialRecord.t) (s : state) :
  fst (add_records records s) = Ok tt
  /\ plans (self (snd (add_records records s))) = (plans (self s) ++ records)%list
  /\ trash_bin (self (snd (add_records records s))) = trash_bin (self s)
  /\ data_file (self (snd (add_records records s))) = data_file (self s)
  /\ (records <> [] -> writable (fs s) (data_file (self s)) = true ->
      in_sync (snd (add_records records s))).
Proof.
  revert s. induction records as [|r records IH]; intros s.
  - cbn. rewrite app_nil_r. repeat split. congruence.
  - cbn [add_records]. rewrite bind_unfold, add_record_unfold.
    set (s0 := {| self := with_plan (self s) r; fs := fs s; stdout := stdout s |}).
    destruct (save_data_effect s0) as (Hok & Hself & Hwr & Hsync & _).
    destruct (save_data s0) as [o s1]. cbn [fst snd] in *. subst o.
    destruct (IH s1) as (IH1 & IH2 & IH3 & IH4 & IH5).
    rewrite IH2, IH3, IH4, Hself. cbn [s0 self with_plan plans trash_bin data_file].
    split; [exact IH1|]. split; [rewrite <- app_assoc; reflexivity|].
    split; [reflexivity|]. split; [reflexivity|].
    intros _ Hw.
    destruct records as [|r' records'].
    + cbn. apply Hsync. exact Hw.
    + apply IH5; [discriminate|]. rewrite Hwr, Hself. exact Hw.
Qed.

(** When [view_rows] gets through, every record could be shown. *)
Lemma view_rows_Ok_inv (l : list FinancialRecord.t) (i : Z) (s : state) :
  fst (view_rows i l s) = Ok tt -> Forall displayable l.
Proof.
  revert i s. induction l as [|r l IH]; intros i s H; [constructor|].
  cbn [view_rows] in H. rewrite lift_bind in H.
  destruct (format_2f (FinancialRecord.amount r)) as [[]|e] eqn:Ha; [|discriminate H].
  rewrite lift_bind in H.
  destruct (format_pad (FinancialRecord.description r)) as [[]|e] eqn:Hd; [|discriminate H].
  rewrite bind_unfold in H. cbn [print] in H.
  constructor; [split; assumption|]. eapply IH. exact H.
Qed.

Lemma view_plans_Ok_inv (s : state) :
  fst (view_plans s) = Ok tt -> Forall displayable (plans (self s)).
Proof.
  unfold view_plans, view_plans_of. rewrite bind_unfold. cbn [get_self].
  destruct (plans (self s)) as [|r l]; [constructor|].
  cbv beta iota. remember (r :: l) as pl eqn:Epl. clear Epl.
  do 2 (rewrite bind_unfold; cbn [print]). apply view_rows_Ok_inv.
Qed.

(** The two ways the loop of [delete_plan] can leave the state: only
    lines were printed, or one plan went to the trash, the data was saved
    and the confirmation was printed. *)
Lemma delete_loop_shape (int_of_str : string -> option Z) (ins : list string) (s : state) :
  Forall displayable (plans (self s)) ->
  (exists ls, snd (delete_loop int_of_str ins s) = printed s ls)
  \/ (exists i r ls,
        plans (self s) !! i = Some r
        /\ snd (delete_loop int_of_str ins s) =
             printed (snd (save_data {| self := moved_to_trash (self s) i r;
                                        fs := fs s;
                                        stdout := stdout s ++ ls |}))
               [Deleted r]).
Proof.
  intros Hshow. revert s Hshow. induction ins as [|l ins IH]; intros s Hshow.
  - left. exists []. cbn. rewrite printed_nil. reflexivity.
  - assert (Hnext : forall x,
             (exists ls, snd (delete_loop int_of_str ins (printed s [x])) = printed s ls)
             \/ (exists i r ls,
                   plans (self s) !! i = Some r
                   /\ snd (delete_loop int_of_str ins (printed s [x])) =
                        printed (snd (save_data {| self := moved_to_trash (self s) i r;
                                                   fs := fs s;
                                                   stdout := stdout s ++ ls |}))
                          [Deleted r])).
    { intros x. destruct (IH (printed s [x]) Hshow) as [[ls H]|(i & r & ls & Hr & H)].
      - left. exists (x :: ls). rewrite H, printed_printed. reflexivity.
      - right. exists i, r, (x :: ls). split; [exact Hr|]. rewrite H.
        cbn [printed self fs stdout]. rewrite <- app_assoc. reflexivity. }
    cbn [delete_loop]. destruct (int_of_str l) as [n|] eqn:En.
    + destruct (n - 1 =? -1) eqn:E.
      * left. exists [DeletionCancelled]. reflexivity.
      * rewrite bind_unfold. cbn [get_self].
        destruct ((0 <=? n - 1) && (n - 1 <? Z.of_nat (length (plans (self s))))) eqn:Er.
        -- apply andb_true_iff in Er. destruct Er as [E0 E1].
           apply Z.leb_le in E0. apply Z.ltb_lt in E1.
           destruct (lookup_lt_is_Some_2 (plans (self s)) (Z.to_nat (n - 1))) as [r Hr];
             [lia|].
           rewrite lift_bind, (list_pop_in_range _ _ r E0 Hr).
           rewrite bind_unfold. cbn [set_self]. rewrite bind_unfold.
           match goal with |- context [save_data ?s0] =>
             pose proof (save_data_frame s0) as [Hok _]; destruct (save_data s0) as [o s1] eqn:Es
           end.
           cbn in Hok. subst o.
           assert (Hfmt : format_2f (FinancialRecord.amount r) = Ok tt).
           { apply list_elem_of_lookup_2 in Hr.
             exact (proj1 (proj1 (Forall_forall _ _) Hshow r Hr)). }
           rewrite Hfmt, bind_unfold.
           right. exists (Z.to_nat (n - 1)), r, []. split; [exact Hr|].
           rewrite app_nil_r. unfold moved_to_trash. rewrite Es. reflexivity.
        -- rewrite bind_unfold. cbn [print]. apply (Hnext InvalidPlanNumber).
    + rewrite bind_unfold. cbn [print]. apply (Hnext InvalidInput).
Qed.

Lemma delete_plan_shape (int_of_str : string -> option Z) (ins : list string) (s : state) :
  (exists ls, snd (delete_plan int_of_str ins s) = printed s ls)
  \/ (exists i r ls,
        plans (self s) !! i = Some r
        /\ snd (delete_plan int_of_str ins s) =
             printed (snd (save_data {| self := moved_to_trash (self s) i r;
                                        fs := fs s;
                                        stdout := stdout s ++ ls |}))
               [Deleted r]).
Proof.
  unfold delete_plan. rewrite bind_unfold.
  destruct (view_plans_frame s) as [ls Hls].
  pose proof (view_plans_Ok_inv s) as Hshow.
  destruct (view_plans s) as [[[]|e] s1]; cbn [fst snd] in Hls, Hshow; subst s1;
    [|left; exists ls; reflexivity].
  specialize (Hshow eq_refl).
  rewrite bind_unfold. cbn [get_self printed self].
  destruct (plans (self s)) eqn:Ep; [left; exists ls; reflexivity|].
  rewrite <- Ep in *.
  destruct (delete_loop_shape int_of_str ins (printed s ls) Hshow)
    as [[ls' H]|(i & r & ls' & Hr & H)].
  - left. exists (ls ++ ls')%list. rewrite H, printed_printed. reflexivity.
  - right. exists i, r, (ls ++ ls')%list. split; [exact Hr|]. rewrite H.
    cbn [printed self fs stdout]. rewrite <- app_assoc. reflexivity.
Qed.

(** X2: whatever is typed, [delete_plan] loses no record and moves at
    most one: afterwards either the tracker is as before, or exactly one
    record of [plans] has gone from its place to the end of [trash_bin];
    in both cases the records of the two lists together are the same as
    before. *)
Theorem delete_plan_conserves (int_of_str : string -> option Z)
  (ins : list string) (s : state) :
  (self (snd (delete_plan int_of_str ins s)) = self s
   \/ exists i r, plans (self s) !! i = Some r
                  /\ self (snd (delete_plan int_of_str ins s))
                     = moved_to_trash (self s) i r)
  /\ Permutation
       (plans (self (snd (delete_plan int_of_str ins s)))
        ++ trash_bin (self (snd (delete_plan int_of_str ins s))))%list
       (plans (self s) ++ trash_bin (self s))%list.
Proof.
  destruct (delete_plan_shape int_of_str ins s) as [[ls H]|(i & r & ls & Hr & H)];
    rewrite H.
  - split; [left; reflexivity|reflexivity].
  - cbn [printed self].
    match goal with |- context [save_data ?s0] =>
      destruct (save_data_effect s0) as (_ & Hself & _)
    end.
    rewrite Hself. cbn [self]. split; [right; exists i, r; auto|].
    cbn [moved_to_trash plans trash_bin].
    rewrite (delete_Permutation _ _ _ Hr) at 2.
    rewrite app_assoc. rewrite (Permutation_app_comm _ [r]). reflexivity.
Qed.

Lemma delete_loop_end_of_input (int_of_str : string -> option Z)
  (ins : list string) (s : state) :
  Forall (fun l => forall j, int_of_str l = Some j ->
                             j <> 0 /\ ~ (1 <= j <= Z.of_nat (length (plans (self s))))) ins ->
  delete_loop int_of_str ins s =
    (Raise EOFError,
     printed s ((fun l => match int_of_str l with
                          | None => InvalidInput
                          | Some _ => InvalidPlanNumber
                          end) <$> ins)).
Proof.
  intros Hins. revert s Hins. induction ins as [|l ins IH]; intros s Hins.
  - cbn. rewrite printed_nil. reflexivity.
  - apply Forall_cons in Hins. destruct Hins as [Hl Hins].
    cbn [delete_loop fmap list_fmap]. destruct (int_of_str l) as [n|] eqn:En.
    + destruct (Hl n eq_refl) as [Hn0 Hout].
      destruct (n - 1 =? -1) eqn:E; [apply Z.eqb_eq in E; lia|].
      rewrite bind_unfold. cbn [get_self].
      replace ((0 <=? n - 1) && (n - 1 <? Z.of_nat (length (plans (self s)))))
        with false.
      2:{ symmetry. apply andb_false_iff.
          destruct (Z.leb_spec 0 (n - 1)); [right|left; reflexivity].
          apply Z.ltb_ge. lia. }
      rewrite bind_unfold. cbn [print]. fold (printed s [InvalidPlanNumber]).
      rewrite (IH (printed s [InvalidPlanNumber]) Hins), printed_printed. reflexivity.
    + rewrite bind_unfold. cbn [print]. fold (printed s [InvalidInput]).
      rewrite (IH (printed s [InvalidInput]) Hins), printed_printed. reflexivity.
Qed.

(** X3: when the input ends before a number within the range or a 0 was
    read, [delete_plan] on a tracker with plans, all of which can be
    shown, ends in [EOFError], which its [except ValueError] does not
    catch.  Before that it has shown the table and answered every line:
    [Invalid input] for a line that is no number, [Invalid plan number]
    for a number out of range.  The tracker is unchanged. *)
Theorem delete_plan_end_of_input (int_of_str : string -> option Z)
  (ins : list string) (s : state) :
  plans (self s) <> [] ->
  Forall displayable (plans (self s)) ->
  Forall (fun l => forall j, int_of_str l = Some j ->
                             j <> 0 /\ ~ (1 <= j <= Z.of_nat (length (plans (self s))))) ins ->
  exists table,
    view_plans s = (Ok tt, printed s table)
    /\ delete_plan int_of_str ins s =
         (Raise EOFError,
          printed s (table ++ ((fun l => match int_of_str l with
                                         | None => InvalidInput
                                         | Some _ => InvalidPlanNumber
                                         end) <$> ins))%list).
Proof.
  intros Hne Hshow Hins.
  destruct (view_plans_ok s Hshow) as [table Hview].
  exists table. split; [exact Hview|].
  unfold delete_plan. rewrite bind_unfold, Hview, bind_unfold.
  cbn [get_self printed self].
  destruct (plans (self s)) eqn:Ep; [congruence|]. rewrite <- Ep in *.
  fold (printed s table).
  rewrite (delete_loop_end_of_input int_of_str ins (printed s table) Hins), printed_printed.
  reflexivity.
Qed.

Lemma delete_plan_end_of_input_witness :
  exists table,
    view_plans Samples.rent_and_salary = (Ok tt, printed Samples.rent_and_salary table)
    /\ delete_plan Samples.int_of_digits ["x"; "7"] Samples.rent_and_salary =
         (Raise EOFError,
          printed Samples.rent_and_salary
            (table ++ ((fun l => match Samples.int_of_digits l with
                                 | None => InvalidInput
                                 | Some _ => InvalidPlanNumber
                                 end) <$> ["x"; "7"]))%list).
Proof.
  apply (delete_plan_end_of_input Samples.int_of_digits ["x"; "7"] Samples.rent_and_salary).
  - discriminate.
  - repeat constructor.
  - constructor; [|constructor; [|constructor]]; intros j H; vm_compute in H.
    + discriminate.
    + injection H as <-. cbn. lia.
Defined.

(** X4: deleting the record that was just added undoes the addition in
    [plans]: after [add_record r], when every record can be shown and the
    number typed is that of the last row, [delete_plan] leaves [plans] as
    it was before the addition, and [r] is the last record of the
    trash. *)
Theorem add_then_delete_last (int_of_str : string -> option Z)
  (r : FinancialRecord.t) (s : state) (l : string) (rest : list string) :
  Forall displayable (plans (self s)) ->
  displayable r ->
  int_of_str l = Some (Z.of_nat (length (plans (self s))) + 1) ->
  fst (delete_plan int_of_str (l :: rest) (snd (add_record r s))) = Ok rest
  /\ plans (self (snd (delete_plan int_of_str (l :: rest) (snd (add_record r s)))))
     = plans (self s)
  /\ trash_bin (self (snd (delete_plan int_of_str (l :: rest) (snd (add_record r s)))))
     = (trash_bin (self s) ++ [r])%list.
Proof.
  intros Hshow Hr Hl. rewrite add_record_unfold.
  set (s0 := {| self := with_plan (self s) r; fs := fs s; stdout := stdout s |}).
  destruct (save_data_effect s0) as (_ & Hself & _).
  set (s1 := snd (save_data s0)) in *.
  assert (Hplans : plans (self s1) = (plans (self s) ++ [r])%list)
    by (rewrite Hself; reflexivity).
  assert (Hshow1 : Forall displayable (plans (self s1))).
  { rewrite Hplans. apply Forall_app. split; [exact Hshow|]. constructor; [exact Hr|constructor]. }
  destruct (view_plans_ok s1 Hshow1) as [table Hview].
  set (n := Z.of_nat (length (plans (self s))) + 1) in *.
  assert (Hidx : Z.to_nat (n - 1) = length (plans (self s))) by (unfold n; lia).
  assert (Hlook : plans (self (printed s1 table)) !! Z.to_nat (n - 1) = Some r).
  { cbn [printed self]. rewrite Hplans, Hidx. apply list_lookup_middle. reflexivity. }
  pose proof (delete_loop_in_range int_of_str (printed s1 table) l rest n r Hl
                ltac:(unfold n; lia) Hlook (proj1 Hr)) as Hloop.
  assert (Hrun : delete_plan int_of_str (l :: rest) s1 = delete_loop int_of_str (l :: rest)
                                                           (printed s1 table)).
  { unfold delete_plan. rewrite bind_unfold, Hview, bind_unfold.
    cbn [get_self printed self]. rewrite Hplans.
    destruct (plans (self s)); reflexivity. }
  rewrite Hrun, Hloop. cbn [fst snd printed self].
  match goal with |- context [save_data ?s2] =>
    destruct (save_data_effect s2) as (_ & Hself2 & _)
  end.
  rewrite Hself2. cbn [self plans trash_bin printed]. rewrite Hplans, Hidx, Hself.
  cbn [s0 self with_plan trash_bin].
  split; [reflexivity|]. split; [|reflexivity].
  rewrite (delete_middle (plans (self s)) [] r). apply app_nil_r.
Qed.

Lemma add_then_delete_last_witness :
  fst (delete_plan Samples.int_of_digits ["2"]
         (snd (add_record Samples.salary
                 (Samples.state_of [Samples.rent] [] Samples.read_write)))) = Ok []
  /\ plans (self (snd (delete_plan Samples.int_of_digits ["2"]
                         (snd (add_record Samples.salary
                                 (Samples.state_of [Samples.rent] [] Samples.read_write))))))
     = plans (self (Samples.state_of [Samples.rent] [] Samples.read_write))
  /\ trash_bin (self (snd (delete_plan Samples.int_of_digits ["2"]
                             (snd (add_record Samples.salary
                                     (Samples.state_of [Samples.rent] []
                                        Samples.read_write))))))
     = (trash_bin (self (Samples.state_of [Samples.rent] [] Samples.read_write))
        ++ [Samples.salary])%list.
Proof.
  apply (add_then_delete_last Samples.int_of_digits Samples.salary
           (Samples.state_of [Samples.rent] [] Samples.read_write) "2" []).
  - repeat constructor.
  - split; reflexivity.
  - reflexivity.
Defined.

(** The two ways [add_plan_interactive] can leave the state: only lines
    were printed, or one record was appended to [plans], the data was
    saved and the success line was printed. *)
Lemma add_plan_interactive_shape
  (float_of_str : string -> option float) (strptime_mdY : string -> option Date.t)
  (str_strip str_lower : string -> string) (ins : list string) (s : state) :
  (exists ls,
      snd (add_plan_interactive float_of_str strptime_mdY str_strip str_lower ins s)
      = printed s ls)
  \/ (exists r kind ls,
        snd (add_plan_interactive float_of_str strptime_mdY str_strip str_lower ins s)
        = printed (snd (save_data {| self := with_plan (self s) r;
                                     fs := fs s;
                                     stdout := stdout s ++ ls |}))
            [Added kind]).
Proof.
  unfold add_plan_interactive. rewrite bind_unfold. cbn [print].
  fold (printed s [AddHeader]).
  rewrite bind_unfold.
  destruct (read_record_type_spec str_strip str_lower ins (printed s [AddHeader]))
    as (ls1 & Hs1 & _).
  destruct (read_record_type str_strip str_lower ins (printed s [AddHeader]))
    as [[[kind ins1]|e] s1]; cbn [snd] in Hs1; subst s1; rewrite printed_printed;
    [|left; eexists; reflexivity].
  rewrite bind_unfold.
  match goal with |- context [read_date strptime_mdY str_strip ins1 ?st] =>
    destruct (read_date_spec strptime_mdY str_strip ins1 st) as (ls2 & Hs2);
    destruct (read_date strptime_mdY str_strip ins1 st) as [[[date ins2]|e] s2]
  end; cbn [snd] in Hs2; subst s2; rewrite printed_printed;
    [|left; eexists; reflexivity].
  destruct ins2 as [|l ins3]; [left; eexists; reflexivity|].
  destruct (String.eqb (str_strip l) "") eqn:Ed.
  { left. rewrite bind_unfold. cbn [print].
    match goal with |- context [printed s ?ls] => fold (printed (printed s ls) [EmptyDescription]) end.
    rewrite printed_printed. eexists; reflexivity. }
  rewrite bind_unfold.
  match goal with |- context [read_amount float_of_str ins3 ?st] =>
    destruct (read_amount_spec float_of_str ins3 st) as (ls3 & Hs3 & _);
    destruct (read_amount float_of_str ins3 st) as [[[amount ins4]|e] s3]
  end; cbn [snd] in Hs3; subst s3; rewrite printed_printed;
    [|left; eexists; reflexivity].
  rewrite bind_unfold.
  match goal with |- context [read_due_date str_strip kind ins4 ?st] =>
    destruct (read_due_date_spec str_strip kind ins4 st) as (Hs4 & _);
    destruct (read_due_date str_strip kind ins4 st) as [[[due ins5]|e] s4]
  end; cbn [snd] in Hs4; subst s4; [|left; eexists; reflexivity].
  rewrite lift_bind. cbn [FinancialRecord.__init__].
  rewrite bind_unfold, add_record_unfold.
  match goal with |- context [save_data ?s0] =>
    destruct (save_data_effect s0) as (Hok & _); destruct (save_data s0) as [o s5] eqn:Es
  end.
  cbn [fst] in Hok. subst o. rewrite bind_unfold. cbn [print].
  unfold mret, M_ret. cbn [snd]. fold (printed s5 [Added kind]).
  right. eexists _, kind, _. cbn [printed self fs stdout] in Es. rewrite Es. reflexivity.
Qed.

(** X5: [add_plan_interactive] never removes or alters what is there:
    afterwards [trash_bin] is the same list, and [plans] is the list it
    was, with at most one record added at the end, whatever was typed
    and however the method ended. *)
Theorem add_plan_interactive_keeps
  (float_of_str : string -> option float) (strptime_mdY : string -> option Date.t)
  (str_strip str_lower : string -> string) (ins : list string) (s : state) :
  trash_bin (self (snd (add_plan_interactive float_of_str strptime_mdY str_strip
                          str_lower ins s))) = trash_bin (self s)
  /\ (plans (self (snd (add_plan_interactive float_of_str strptime_mdY str_strip
                          str_lower ins s))) = plans (self s)
      \/ exists r,
           plans (self (snd (add_plan_interactive float_of_str strptime_mdY str_strip
                               str_lower ins s))) = (plans (self s) ++ [r])%list).
Proof.
  destruct (add_plan_interactive_shape float_of_str strptime_mdY str_strip str_lower ins s)
    as [[ls H]|(r & kind & ls & H)]; rewrite H.
  - split; [reflexivity|left; reflexivity].
  - cbn [printed self].
    match goal with |- context [save_data ?s0] =>
      destruct (save_data_effect s0) as (_ & Hself & _)
    end.
    rewrite Hself. cbn [self with_plan plans trash_bin].
    split; [reflexivity|right; exists r; reflexivity].
Qed.

(** X6: with a data file that can be written, file and tracker stay in
    step.  [add_record] leaves the data file holding the two lists as they
    are after the call; [delete_plan] and [add_plan_interactive], started
    with the file in step, leave it in step, whatever was typed and
    however they ended (every change of the lists is followed by
    [save_data] before anything else can fail). *)
Theorem data_file_in_step
  (int_of_str : string -> option Z)
  (float_of_str : string -> option float) (strptime_mdY : string -> option Date.t)
  (str_strip str_lower : string -> string) (s : state) :
  writable (fs s) (data_file (self s)) = true ->
  (forall r, in_sync (snd (add_record r s)))
  /\ (in_sync s ->
      forall ins,
        in_sync (snd (delete_plan int_of_str ins s))
        /\ in_sync (snd (add_plan_interactive float_of_str strptime_mdY str_strip
                           str_lower ins s))).
Proof.
  intros Hw. split.
  - intros r. rewrite add_record_unfold.
    match goal with |- context [save_data ?s0] =>
      destruct (save_data_effect s0) as (_ & _ & _ & Hsync & _)
    end.
    apply Hsync. exact Hw.
  - intros Hs ins. split.
    + destruct (delete_plan_shape int_of_str ins s) as [[ls H]|(i & r & ls & Hr & H)];
        rewrite H; apply in_sync_printed; [exact Hs|].
      match goal with |- context [save_data ?s0] =>
        destruct (save_data_effect s0) as (_ & _ & _ & Hsync & _)
      end.
      apply Hsync. exact Hw.
    + destruct (add_plan_interactive_shape float_of_str strptime_mdY str_strip str_lower
                  ins s) as [[ls H]|(r & kind & ls & H)];
        rewrite H; apply in_sync_printed; [exact Hs|].
      match goal with |- context [save_data ?s0] =>
        destruct (save_data_effect s0) as (_ & _ & _ & Hsync & _)
      end.
      apply Hsync. exact Hw.
Qed.

Lemma data_file_in_step_witness :
  in_sync Cases.in_step
  /\ in_sync (snd (add_record Samples.salary Cases.in_step))
  /\ (in_sync (snd (delete_plan Samples.int_of_digits ["1"] Cases.in_step))
      /\ self (snd (delete_plan Samples.int_of_digits ["1"] Cases.in_step))
         = Samples.tracker_of [] [Samples.rent])
  /\ (in_sync (snd (add_plan_interactive Samples.float_of_sample
                      Samples.date_of_sample Samples.as_it_is Samples.as_it_is
                      ["allowance"; "01-02-2024"; "Salary"; "2000"] Cases.in_step))
      /\ self (snd (add_plan_interactive Samples.float_of_sample
                      Samples.date_of_sample Samples.as_it_is Samples.as_it_is
                      ["allowance"; "01-02-2024"; "Salary"; "2000"] Cases.in_step))
         = Samples.tracker_of [Samples.rent; Samples.salary] []).
Proof.
  assert (Hs : in_sync Cases.in_step) by (vm_compute; reflexivity).
  destruct (data_file_in_step Samples.int_of_digits Samples.float_of_sample
              Samples.date_of_sample Samples.as_it_is Samples.as_it_is Cases.in_step
              eq_refl) as [H1 H2].
  split; [exact Hs|]. split; [apply H1|].
  split.
  - split; [apply (H2 Hs ["1"])|vm_compute; reflexivity].
  - split; [apply (H2 Hs ["allowance"; "01-02-2024"; "Salary"; "2000"])
           |vm_compute; reflexivity].
Defined.

End Mutations.

(** ** Showing the table *)

Section Table.

Import FinanceTracker.

Lemma view_rows_rows (l : list FinancialRecord.t) (k : Z) (s : state) :
  Forall displayable l ->
  view_rows k l s =
    (Ok tt, printed s (imap (fun i r => TableRow (k + Z.of_nat i + 1) r) l)).
Proof.
  intros Hl. revert k s. induction Hl as [|r l [Ha Hd] Hl IH]; intros k s.
  - cbn. rewrite printed_nil. reflexivity.
  - cbn [view_rows]. rewrite lift_bind, Ha, lift_bind, Hd, bind_unfold. cbn [print].
    fold (printed s [TableRow (k + 1) r]).
    rewrite (IH (k + 1) (printed s [TableRow (k + 1) r])), printed_printed.
    do 2 f_equal. rewrite imap_cons. cbn [app].
    f_equal; [f_equal; lia|].
    apply imap_ext. intros i x _. cbn. f_equal. lia.
Qed.

(** X7: on a tracker whose records can all be shown, [view_plans] prints
    [No records to display.] when there is no plan, and otherwise the
    header, the rule and one row for every plan, in the order of the list
    and numbered from 1, the numbers a later [delete_plan] takes; it
    changes nothing else. *)
Theorem view_plans_rows (s : state) :
  Forall displayable (plans (self s)) ->
  view_plans s =
    (Ok tt,
     printed s match plans (self s) with
               | [] => [NoRecords]
               | _ => TableHeader :: TableRule
                      :: imap (fun i r => TableRow (Z.of_nat i + 1) r) (plans (self s))
               end).
Proof.
  intros Hl. unfold view_plans, view_plans_of. rewrite bind_unfold. cbn [get_self].
  destruct (plans (self s)) as [|r l] eqn:Ep; [reflexivity|].
  cbv beta iota. remember (r :: l) as pl eqn:Epl.
  do 2 (rewrite bind_unfold; cbn [print]).
  fold (printed s [TableHeader]). fold (printed (printed s [TableHeader]) [TableRule]).
  rewrite (view_rows_rows pl 0 _ Hl), !printed_printed. subst pl. reflexivity.
Qed.

Lemma view_plans_rows_witness :
  view_plans Samples.rent_and_salary =
    (Ok tt,
     printed Samples.rent_and_salary
       match plans (self Samples.rent_and_salary) with
       | [] => [NoRecords]
       | _ => TableHeader :: TableRule
              :: imap (fun i r => TableRow (Z.of_nat i + 1) r)
                   (plans (self Samples.rent_and_salary))
       end).
Proof.
  apply (view_plans_rows Samples.rent_and_salary). repeat constructor.
Defined.

Lemma view_rows_stops (good rest : list FinancialRecord.t) (bad : FinancialRecord.t)
  (e : exn) (k : Z) (s : state) :
  Forall displayable good ->
  format_2f (FinancialRecord.amount bad) = Raise e
  \/ (format_2f (FinancialRecord.amount bad) = Ok tt
      /\ format_pad (FinancialRecord.description bad) = Raise e) ->
  view_rows k (good ++ bad :: rest) s =
    (Raise e, printed s (imap (fun i r => TableRow (k + Z.of_nat i + 1) r) good)).
Proof.
  intros Hl Hbad. revert k s. induction Hl as [|r l [Ha Hd] Hl IH]; intros k s.
  - cbn [app view_rows imap]. rewrite lift_bind, printed_nil.
    destruct Hbad as [-> | [-> Hp]]; [reflexivity|].
    rewrite lift_bind, Hp. reflexivity.
  - cbn [app view_rows]. rewrite lift_bind, Ha, lift_bind, Hd, bind_unfold. cbn [print].
    fold (printed s [TableRow (k + 1) r]).
    rewrite (IH (k + 1) (printed s [TableRow (k + 1) r])), printed_printed.
    do 2 f_equal. rewrite imap_cons. cbn [app].
    f_equal; [f_equal; lia|].
    apply imap_ext. intros i x _. cbn. f_equal. lia.
Qed.

(** X8: [view_plans] stops at the first plan it cannot show.  When the
    plans before it can be shown and its amount does not take the format
    [.2f] (a text, [None], an integer too large for a float) or, the
    amount being fine, its description is [None], the header, the rule
    and the rows of the plans before it are printed and the exception of
    that formatting is raised; the tracker is unchanged. *)
Theorem view_plans_stops (good rest : list FinancialRecord.t) (bad : FinancialRecord.t)
  (e : exn) (s : state) :
  plans (self s) = (good ++ bad :: rest)%list ->
  Forall displayable good ->
  format_2f (FinancialRecord.amount bad) = Raise e
  \/ (format_2f (FinancialRecord.amount bad) = Ok tt
      /\ format_pad (FinancialRecord.description bad) = Raise e) ->
  view_plans s =
    (Raise e,
     printed s (TableHeader :: TableRule
                :: imap (fun i r => TableRow (Z.of_nat i + 1) r) good)).
Proof.
  intros Hp Hl Hbad. unfold view_plans, view_plans_of. rewrite bind_unfold. cbn [get_self].
  rewrite Hp.
  assert (Hne : forall (X : Type) (a b : X),
            match (good ++ bad :: rest)%list with [] => a | _ :: _ => b end = b)
    by (intros; destruct good; reflexivity).
  rewrite Hne.
  do 2 (rewrite bind_unfold; cbn [print]).
  fold (printed s [TableHeader]). fold (printed (printed s [TableHeader]) [TableRule]).
  rewrite (view_rows_stops good rest bad e 0 _ Hl Hbad), !printed_printed. reflexivity.
Qed.

Lemma view_plans_stops_witness :
  view_plans (Samples.state_of
                [Samples.rent;
                 FinancialRecord.mk Samples.new_year (VStr "Rent") (VStr "abc") VNone
                   (VStr "bogus");
                 Samples.salary] [] Samples.read_write) =
    (Raise ValueError,
     printed (Samples.state_of
                [Samples.rent;
                 FinancialRecord.mk Samples.new_year (VStr "Rent") (VStr "abc") VNone
                   (VStr "bogus");
                 Samples.salary] [] Samples.read_write)
       (TableHeader :: TableRule
        :: imap (fun i r => TableRow (Z.of_nat i + 1) r) [Samples.rent])).
Proof.
  apply (view_plans_stops [Samples.rent] [Samples.salary]
           (FinancialRecord.mk Samples.new_year (VStr "Rent") (VStr "abc") VNone
              (VStr "bogus"))).
  - reflexivity.
  - repeat constructor.
  - left. reflexivity.
Defined.

End Table.

(** ** More on the balance *)

Section Balance.

Import FinanceTracker.

(** The outcome of [calculate_balance], read off the two filtered lists. *)
Lemma calculate_balance_fst (s : state) :
  fst (calculate_balance s) =
    (total_income ← py_sum (FinancialRecord.amount <$> List.filter is_income (plans (self s)));
     total_expenses ← py_sum (FinancialRecord.amount <$> List.filter is_expense (plans (self s)));
     net ← py_sub total_income total_expenses;
     Ok {| income := total_income; expenses := total_expenses; net_balance := net |}).
Proof.
  unfold calculate_balance. rewrite bind_unfold. cbn [get_self]. rewrite lift_bind.
  destruct (py_sum (FinancialRecord.amount <$> List.filter is_income (plans (self s))));
    [|reflexivity].
  cbn [mbind result_bind]. rewrite lift_bind.
  destruct (py_sum (FinancialRecord.amount <$> List.filter is_expense (plans (self s))));
    [|reflexivity].
  cbn [mbind result_bind]. rewrite lift_bind.
  destruct (py_sub a a0); reflexivity.
Qed.

Lemma calculate_balance_snd (s : state) : snd (calculate_balance s) = s.
Proof.
  unfold calculate_balance. rewrite bind_unfold. cbn [get_self]. rewrite lift_bind.
  destruct (py_sum (FinancialRecord.amount <$> List.filter is_income (plans (self s))));
    [|reflexivity].
  rewrite lift_bind.
  destruct (py_sum (FinancialRecord.amount <$> List.filter is_expense (plans (self s))));
    [|reflexivity].
  rewrite lift_bind. destruct (py_sub a a0); reflexivity.
Qed.

Lemma filter_without (f : FinancialRecord.t -> bool)
  (before after : list FinancialRecord.t) (r : FinancialRecord.t) :
  f r = false ->
  List.filter f (before ++ r :: after) = List.filter f (before ++ after).
Proof.
  intros Hr. rewrite !List.filter_app. cbn [List.filter]. rewrite Hr. reflexivity.
Qed.

(** X9: a record whose kind is neither ["income"] nor ["expense"] (as
    [from_dict] lets through) counts in neither total: with or without it
    among the plans, and whatever the trash holds, [calculate_balance]
    gives the same outcome. *)
Theorem calculate_balance_other_kind (s s' : state)
  (before after : list FinancialRecord.t) (r : FinancialRecord.t) :
  is_income r = false ->
  is_expense r = false ->
  plans (self s) = (before ++ r :: after)%list ->
  plans (self s') = (before ++ after)%list ->
  fst (calculate_balance s) = fst (calculate_balance s').
Proof.
  intros Hi He Hs Hs'. rewrite !calculate_balance_fst, Hs, Hs'.
  rewrite (filter_without is_income before after r Hi).
  rewrite (filter_without is_expense before after r He). reflexivity.
Qed.

Lemma calculate_balance_other_kind_witness :
  fst (calculate_balance
         (Samples.state_of
            [Samples.rent;
             FinancialRecord.mk Samples.new_year (VStr "Rent") (VStr "abc") VNone
               (VStr "bogus");
             Samples.salary] [Samples.dime] Samples.read_write))
  = fst (calculate_balance Samples.rent_and_salary).
Proof.
  apply (calculate_balance_other_kind _ _ [Samples.rent] [Samples.salary]
           (FinancialRecord.mk Samples.new_year (VStr "Rent") (VStr "abc") VNone
              (VStr "bogus"))); reflexivity.
Defined.

Lemma sum_from_ints (a : Z) (l : list Z) :
  sum_from (VInt a) (VInt <$> l) = Ok (VInt (a + foldr Z.add 0 l)).
Proof.
  revert a. induction l as [|b l IH]; intros a.
  - cbn. rewrite Z.add_0_r. reflexivity.
  - cbn [fmap list_fmap sum_from foldr]. unfold py_add, arith. cbn [as_num mbind result_bind].
    rewrite (IH (a + b)). do 2 f_equal. lia.
Qed.

(** X10: amounts that are integers are added exactly: when the amounts of
    the active income records are the integers [inc] and those of the
    active expense records the integers [exp], [calculate_balance] returns
    their sums and the difference of the sums as integers, with no
    floating point involved. *)
Theorem calculate_balance_integers (s : state) (inc exp : list Z) :
  FinancialRecord.amount <$> List.filter is_income (plans (self s)) = VInt <$> inc ->
  FinancialRecord.amount <$> List.filter is_expense (plans (self s)) = VInt <$> exp ->
  calculate_balance s =
    (Ok {| income := VInt (foldr Z.add 0 inc);
           expenses := VInt (foldr Z.add 0 exp);
           net_balance := VInt (foldr Z.add 0 inc - foldr Z.add 0 exp) |}, s).
Proof.
  intros Hi He.
  pose proof (calculate_balance_fst s) as Hfst.
  pose proof (calculate_balance_snd s) as Hsnd.
  destruct (calculate_balance s) as [o s1]. cbn [fst snd] in *. subst s1.
  rewrite Hfst, Hi, He. unfold py_sum. rewrite !sum_from_ints. reflexivity.
Qed.

Lemma calculate_balance_integers_witness :
  calculate_balance
    (Samples.state_of
       [FinancialRecord.mk Samples.new_year (VStr "Rent") (VInt 50000) VNone (VStr "expense");
        FinancialRecord.mk Samples.new_year (VStr "Salary") (VInt 200010) VNone (VStr "income")]
       [] Samples.read_write)
  = (Ok {| income := VInt (foldr Z.add 0 [200010]);
           expenses := VInt (foldr Z.add 0 [50000]);
           net_balance := VInt (foldr Z.add 0 [200010] - foldr Z.add 0 [50000]) |},
     Samples.state_of
       [FinancialRecord.mk Samples.new_year (VStr "Rent") (VInt 50000) VNone (VStr "expense");
        FinancialRecord.mk Samples.new_year (VStr "Salary") (VInt 200010) VNone (VStr "income")]
       [] Samples.read_write).
Proof.
  apply (calculate_balance_integers _ [200010] [50000]); reflexivity.
Defined.

Lemma py_add_number (acc x v : pyval) :
  as_num acc <> None -> py_add acc x = Ok v -> as_num x <> None /\ as_num v <> None.
Proof.
  intros Hacc H. unfold py_add, arith in H.
  destruct acc; cbn [as_num] in *; try congruence;
    destruct x; cbn [as_num] in H |- *; try discriminate;
    repeat match type of H with
    | context [float_of_int ?z] => destruct (float_of_int z); cbn in H
    end;
    try discriminate; injection H as <-; split; discriminate.
Qed.

Lemma sum_from_numbers (acc : pyval) (l : list pyval) (v : pyval) :
  as_num acc <> None -> sum_from acc l = Ok v -> Forall (fun x => as_num x <> None) l.
Proof.
  revert acc. induction l as [|x l IH]; intros acc Hacc H; [constructor|].
  cbn [sum_from] in H. destruct (py_add acc x) as [acc'|e] eqn:Ea; [|discriminate H].
  cbn [mbind result_bind] in H.
  destruct (py_add_number acc x acc' Hacc Ea) as [Hx Hacc'].
  constructor; [exact Hx|]. exact (IH acc' Hacc' H).
Qed.

(** X11: [calculate_balance] fails as soon as an amount that counts is
    not a number: when an active record of kind ["income"] or ["expense"]
    has a text or [None] for an amount (as [from_dict] lets through), the
    call raises and returns no balance. *)
Theorem calculate_balance_raises (s : state) (r : FinancialRecord.t) :
  In r (plans (self s)) ->
  is_income r = true \/ is_expense r = true ->
  as_num (FinancialRecord.amount r) = None ->
  exists e, fst (calculate_balance s) = Raise e.
Proof.
  intros Hin Hk Hr. rewrite calculate_balance_fst.
  assert (Hsum : forall f, f r = true ->
            exists e, py_sum (FinancialRecord.amount <$> List.filter f (plans (self s)))
                      = Raise e).
  { intros f Hf.
    destruct (py_sum (FinancialRecord.amount <$> List.filter f (plans (self s))))
      as [v|e] eqn:Es; [|eauto].
    exfalso. apply sum_from_numbers in Es; [|discriminate].
    assert (Hm : In (FinancialRecord.amount r)
                   (FinancialRecord.amount <$> List.filter f (plans (self s)))).
    { apply List.in_map. apply List.filter_In. auto. }
    exact (proj1 (List.Forall_forall _ _) Es _ Hm Hr). }
  destruct Hk as [Hk|Hk].
  - destruct (Hsum is_income Hk) as [e ->]. exists e. reflexivity.
  - destruct (Hsum is_expense Hk) as [e ->].
    destruct (py_sum (FinancialRecord.amount <$> List.filter is_income (plans (self s))));
      eexists; reflexivity.
Qed.

Lemma calculate_balance_raises_witness :
  exists e,
    fst (calculate_balance
           (Samples.state_of
              [Samples.salary;
               FinancialRecord.mk Samples.new_year (VStr "Rent") (VStr "abc") VNone
                 (VStr "expense")] [] Samples.read_write)) = Raise e.
Proof.
  apply (calculate_balance_raises _
           (FinancialRecord.mk Samples.new_year (VStr "Rent") (VStr "abc") VNone
              (VStr "expense"))).
  - right. left. reflexivity.
  - right. reflexivity.
  - reflexivity.
Defined.

End Balance.

(** ** Reading entries and writing them again *)

Section Entries.

(** A text of the form that [isoformat] writes, once read, is written
    again as it was. *)
Lemma isoformat_kept (x' x : Date.t) :
  Date.fromisoformat_str (Date.isoformat x') = Ok x ->
  Date.isoformat x = Date.isoformat x'.
Proof.
  destruct x' as [y m d]. unfold Date.isoformat at 1.
  cbn [Date.year Date.month Date.day].
  unfold Date.fromisoformat_str, Date.parse_isoformat_date, Date.digits_at, Date.char_at.
  cbn -[Date.digit Date.digit_val Date.valid_ymd Z.mul Z.add Z.div].
  rewrite !digit_val_digit, (digit_not _ "W" eq_refl).
  cbn -[Date.digit Date.digit_val Date.valid_ymd Z.mul Z.add Z.div Z.modulo].
  match goal with
  | |- (if ?b then _ else _) = _ -> _ => destruct b; [|discriminate]
  end.
  intros H. injection H as <-. unfold Date.isoformat.
  cbn [Date.year Date.month Date.day].
  repeat (apply f_equal2;
          [first [reflexivity | apply digit_ext; Z.div_mod_to_equations; lia]|]).
  reflexivity.
Qed.

(** X12: what [from_dict] reads can be written and read again.  A record
    it returns has a calendar date, the one the ["date"] entry was read
    as; [to_dict] of it writes that date in the form [YYYY-MM-DD], which
    is the entry read when that had this form, and is another text when
    it had not (a date without hyphens, a week date).  The ["description"]
    and ["amount"] entries are those of the dictionary read, the
    ["due_date"] and ["record_type"] entries hold what was there or else
    [None] and ["expense"], and there is no other entry; and [from_dict]
    of that dictionary is the record again. *)
Theorem from_dict_normalises (data : pydict) (r : FinancialRecord.t) :
  FinancialRecord.from_dict data = Ok r ->
  Date.valid (FinancialRecord.date r) = true
  /\ (exists s, data !! "date" = Some (VStr s) /\ Date.reads s (FinancialRecord.date r))
  /\ FinancialRecord.to_dict r !! "date"
     = Some (VStr (Date.isoformat (FinancialRecord.date r)))
  /\ (forall x, data !! "date" = Some (VStr (Date.isoformat x)) ->
        FinancialRecord.to_dict r !! "date" = data !! "date")
  /\ FinancialRecord.to_dict r !! "description" = data !! "description"
  /\ FinancialRecord.to_dict r !! "amount" = data !! "amount"
  /\ FinancialRecord.to_dict r !! "due_date" = Some (dict_get data "due_date" VNone)
  /\ FinancialRecord.to_dict r !! "record_type"
     = Some (dict_get data "record_type" (VStr "expense"))
  /\ dom (FinancialRecord.to_dict r)
     = ({["date"; "description"; "amount"; "due_date"; "record_type"]} : gset string)
  /\ FinancialRecord.from_dict (FinancialRecord.to_dict r) = Ok r.
Proof.
  rewrite from_dict_cases. intros H.
  destruct (data !! "date") as [dv|] eqn:Ed; [|discriminate].
  destruct (Date.fromisoformat dv) as [x|] eqn:Ex; [|discriminate].
  destruct (data !! "description") as [de|] eqn:Ede; [|discriminate].
  destruct (data !! "amount") as [am|] eqn:Eam; [|discriminate].
  injection H as <-.
  destruct dv as [| | | |s]; try discriminate Ex. unfold Date.fromisoformat in Ex.
  pose proof (fromisoformat_valid _ _ Ex) as Hv.
  set (r := FinancialRecord.mk x de am (dict_get data "due_date" VNone)
              (dict_get data "record_type" (VStr "expense"))).
  destruct (to_dict_lookup r) as (H1 & H2 & H3 & H4 & H5).
  split; [exact Hv|].
  split; [exists s; split; [reflexivity|apply fromisoformat_str_iff, Ex]|].
  split; [exact H1|].
  split.
  { intros x' Hx'. injection Hx' as ->. rewrite H1. cbn [r FinancialRecord.date].
    rewrite (isoformat_kept _ _ Ex). reflexivity. }
  split; [exact H2|]. split; [exact H3|].
  split; [exact H4|]. split; [exact H5|]. split.
  - unfold FinancialRecord.to_dict. rewrite !dom_insert_L, dom_empty_L.
    apply set_eq. intros k. rewrite !elem_of_union, !elem_of_singleton, elem_of_empty.
    tauto.
  - rewrite from_dict_cases, H1, H2, H3. unfold dict_get at 1 2. rewrite H4, H5.
    unfold Date.fromisoformat. cbn [r FinancialRecord.date].
    rewrite (fromisoformat_isoformat _ Hv). reflexivity.
Qed.

Lemma from_dict_normalises_witness :
  FinancialRecord.to_dict
    (FinancialRecord.mk Samples.new_year (VStr "Rent") (VFloat 500)
       VNone (VStr "expense")) !! "date" = Some (VStr "2024-01-01")
  /\ Cases.basic_entry !! "date" = Some (VStr "20240101")
  /\ FinancialRecord.from_dict
       (FinancialRecord.to_dict
          (FinancialRecord.mk Samples.new_year (VStr "Rent") (VFloat 500)
             VNone (VStr "expense")))
     = Ok (FinancialRecord.mk Samples.new_year (VStr "Rent") (VFloat 500)
             VNone (VStr "expense")).
Proof.
  destruct (from_dict_normalises Cases.basic_entry
              (FinancialRecord.mk Samples.new_year (VStr "Rent") (VFloat 500)
                 VNone (VStr "expense")))
    as (_ & _ & H1 & _ & _ & _ & _ & _ & _ & H2).
  - vm_compute. reflexivity.
  - split; [exact H1|]. split; [reflexivity|exact H2].
Defined.

End Entries.

(** ** Loading *)

Section Loading.

Import FinanceTracker.

Lemma cbind_unfold {A B : Type} (m : Console.C A) (k : A -> Console.C B) (c : Console.t) :
  (m ≫= k) c =
    match m c with
    | (Console.Done a, c') => k a c'
    | (Console.Failed f, c') => (Console.Failed f, c')
    end.
Proof. reflexivity. Qed.

Lemma clift_bind {A B : Type} (r : result A) (k : A -> Console.C B) (c : Console.t) :
  (Console.clift r ≫= k) c =
    match r with
    | Ok a => k a c
    | Raise e => (Console.Failed (Console.Exn e), c)
    end.
Proof. rewrite cbind_unfold. unfold Console.clift. destruct r; reflexivity. Qed.

Lemma console_eta (c : Console.t) :
  {| Console.tracker := Console.tracker c;
     Console.disk := Console.disk c;
     Console.screen := Console.screen c |} = c.
Proof. destruct c; reflexivity. Qed.

Lemma shown_nil (c : Console.t) : Console.shown c [] = c.
Proof. unfold Console.shown. rewrite app_nil_r. apply console_eta. Qed.

Lemma shown_shown (c : Console.t) (ls ls' : list Console.cline) :
  Console.shown (Console.shown c ls) ls' = Console.shown c (ls ++ ls')%list.
Proof. unfold Console.shown. cbn. rewrite app_assoc. reflexivity. Qed.

(** A record with a calendar date is read back from its dictionary. *)
Lemma from_dict_to_dict_valid (r : FinancialRecord.t) :
  Date.valid (FinancialRecord.date r) = true ->
  FinancialRecord.from_dict (FinancialRecord.to_dict r) = Ok r.
Proof.
  intros Hv. rewrite from_dict_cases.
  destruct (to_dict_lookup r) as (-> & -> & -> & Hdue & Hkind).
  unfold dict_get. rewrite Hdue, Hkind.
  unfold Date.fromisoformat. rewrite (fromisoformat_isoformat _ Hv).
  destruct r; reflexivity.
Qed.

Lemma from_dict_all_to_dict (l : list FinancialRecord.t) :
  Forall (fun r => Date.valid (FinancialRecord.date r) = true) l ->
  Console.from_dict_all (FinancialRecord.to_dict <$> l) = Ok l.
Proof.
  induction 1 as [|r l Hr Hl IH]; [reflexivity|].
  cbn [fmap list_fmap Console.from_dict_all].
  rewrite (from_dict_to_dict_valid r Hr). cbn [mbind result_bind].
  rewrite IH. reflexivity.
Qed.

(** The console after [__init__], case by case. *)
Lemma init_cases (path : string) (c : Console.t) :
  Console.__init__ path c =
    (Console.Done tt,
     match files (Console.disk c) !! path with
     | None =>
         {| Console.tracker := FinanceTracker.mk [] [] path;
            Console.disk := Console.disk c;
            Console.screen := Console.screen c |}
     | Some data =>
         match Console.from_dict_all (doc_plans data) with
         | Raise e =>
             {| Console.tracker := FinanceTracker.mk [] [] path;
                Console.disk := Console.disk c;
                Console.screen := Console.screen c
                                  ++ [Console.ErrorLoading (Console.Exn e)] |}
         | Ok ps =>
             match Console.from_dict_all (doc_trash_bin data) with
             | Raise e =>
                 {| Console.tracker := FinanceTracker.mk ps [] path;
                    Console.disk := Console.disk c;
                    Console.screen := Console.screen c
                                      ++ [Console.ErrorLoading (Console.Exn e)] |}
             | Ok ts =>
                 {| Console.tracker := FinanceTracker.mk ps ts path;
                    Console.disk := Console.disk c;
                    Console.screen := Console.screen c |}
             end
         end
     end).
Proof.
  unfold Console.__init__. rewrite cbind_unfold. cbn [Console.set_tracker].
  unfold Console.load_data, Console.try_except.
  rewrite cbind_unfold. cbn [Console.get_tracker].
  rewrite cbind_unfold. cbn [Console.get_disk Console.disk Console.tracker data_file].
  destruct (files (Console.disk c) !! path) as [data|]; [|reflexivity].
  rewrite clift_bind.
  destruct (Console.from_dict_all (doc_plans data)) as [ps|e]; [|reflexivity].
  rewrite cbind_unfold. cbn [Console.set_tracker]. rewrite clift_bind.
  destruct (Console.from_dict_all (doc_trash_bin data)) as [ts|e]; reflexivity.
Qed.

(** X13: what is saved is what the next start loads.  After [save_data]
    on a data file that can be written, for a tracker whose records all
    have calendar dates, [FinanceTracker(data_file)] on the file system
    left behind has the same [plans] and the same [trash_bin], and prints
    nothing. *)
Theorem save_then_start (s : state) (c : Console.t) :
  writable (fs s) (data_file (self s)) = true ->
  Forall (fun r => Date.valid (FinancialRecord.date r) = true) (plans (self s)) ->
  Forall (fun r => Date.valid (FinancialRecord.date r) = true) (trash_bin (self s)) ->
  Console.disk c = fs (snd (save_data s)) ->
  Console.__init__ (data_file (self s)) c =
    (Console.Done tt,
     {| Console.tracker := self s;
        Console.disk := Console.disk c;
        Console.screen := Console.screen c |}).
Proof.
  intros Hw Hp Ht Hd. rewrite init_cases, Hd.
  destruct (save_data_effect s) as (_ & _ & _ & Hsync & _).
  specialize (Hsync Hw). unfold in_sync in Hsync.
  destruct (save_data_effect s) as (_ & Hself & _). rewrite Hself in Hsync.
  rewrite Hsync. unfold document_of. cbn [doc_plans doc_trash_bin].
  rewrite (from_dict_all_to_dict _ Hp), (from_dict_all_to_dict _ Ht).
  destruct (self s); reflexivity.
Qed.

Lemma save_then_start_witness :
  Console.__init__ (data_file (self Samples.rent_and_salary))
    (Cases.console_on (fs (snd (save_data Samples.rent_and_salary)))) =
    (Console.Done tt,
     {| Console.tracker := self Samples.rent_and_salary;
        Console.disk := Console.disk
                          (Cases.console_on (fs (snd (save_data Samples.rent_and_salary))));
        Console.screen := Console.screen
                            (Cases.console_on
                               (fs (snd (save_data Samples.rent_and_salary)))) |}).
Proof.
  apply (save_then_start Samples.rent_and_salary).
  - reflexivity.
  - repeat constructor.
  - constructor.
  - reflexivity.
Defined.

Lemma from_dict_all_raises (items : list pydict) :
  Exists (fun item => exists e, FinancialRecord.from_dict item = Raise e) items ->
  exists e, Console.from_dict_all items = Raise e.
Proof.
  induction 1 as [item items [e He]|item items _ [e IH]]; cbn [Console.from_dict_all].
  - rewrite He. eauto.
  - destruct (FinancialRecord.from_dict item); [|eauto].
    cbn [mbind result_bind]. rewrite IH. eauto.
Qed.

(** X14: a data file with an entry that [from_dict] refuses is loaded in
    part or not at all, and the start goes on.  When the refused entry is
    among the plans, the tracker starts with both lists empty, also when
    every entry of the trash is good; when the plans are all good and the
    refused entry is in the trash, the tracker starts with the plans and
    an empty trash.  In both cases one line [Error loading data: ...] is
    printed, nothing is raised and the file is left as it is. *)
Theorem start_on_refused_entry (path : string) (data : document) (c : Console.t) :
  files (Console.disk c) !! path = Some data ->
  (Exists (fun item => exists e, FinancialRecord.from_dict item = Raise e)
     (doc_plans data) ->
   exists e,
     Console.__init__ path c =
       (Console.Done tt,
        {| Console.tracker := FinanceTracker.mk [] [] path;
           Console.disk := Console.disk c;
           Console.screen := Console.screen c
                             ++ [Console.ErrorLoading (Console.Exn e)] |}))
  /\ (forall ps,
        Console.from_dict_all (doc_plans data) = Ok ps ->
        Exists (fun item => exists e, FinancialRecord.from_dict item = Raise e)
          (doc_trash_bin data) ->
        exists e,
          Console.__init__ path c =
            (Console.Done tt,
             {| Console.tracker := FinanceTracker.mk ps [] path;
                Console.disk := Console.disk c;
                Console.screen := Console.screen c
                                  ++ [Console.ErrorLoading (Console.Exn e)] |})).
Proof.
  intros Hf. rewrite init_cases, Hf. split.
  - intros Hbad. destruct (from_dict_all_raises _ Hbad) as [e ->]. eauto.
  - intros ps -> Hbad. destruct (from_dict_all_raises _ Hbad) as [e ->]. eauto.
Qed.

Lemma start_on_refused_entry_witness :
  exists e,
    Console.__init__ "financial_data.json"
      (Cases.console_on (Cases.disk_with Cases.spoilt_trash)) =
      (Console.Done tt,
       {| Console.tracker := FinanceTracker.mk [Samples.rent] [] "financial_data.json";
          Console.disk := Cases.disk_with Cases.spoilt_trash;
          Console.screen := [Console.ErrorLoading (Console.Exn e)] |}).
Proof.
  destruct (start_on_refused_entry "financial_data.json" Cases.spoilt_trash
              (Cases.console_on (Cases.disk_with Cases.spoilt_trash))) as [_ H].
  - vm_compute. reflexivity.
  - apply (H [Samples.rent]).
    + vm_compute. reflexivity.
    + right. left. exists ValueError. vm_compute. reflexivity.
Defined.

(** X15: a refused entry among the plans costs the file its records at
    the next change.  When the data file holds such an entry and can be
    written, then after the start and one [add_record r] the file holds
    [r] as its only plan and an empty trash: what it held before,
    good entries and trash included, is overwritten. *)
Theorem refused_entry_then_add (path : string) (data : document) (c : Console.t)
  (r : FinancialRecord.t) :
  files (Console.disk c) !! path = Some data ->
  Exists (fun item => exists e, FinancialRecord.from_dict item = Raise e)
    (doc_plans data) ->
  writable (Console.disk c) path = true ->
  fst (Console.run (add_record r) (snd (Console.__init__ path c))) = Console.Done tt
  /\ files (Console.disk (snd (Console.run (add_record r)
                                 (snd (Console.__init__ path c))))) !! path
     = Some {| doc_plans := [FinancialRecord.to_dict r]; doc_trash_bin := [] |}.
Proof.
  intros Hf Hbad Hw. rewrite init_cases, Hf.
  destruct (from_dict_all_raises _ Hbad) as [e ->]. cbn [snd].
  unfold Console.run, Console.core. cbn [Console.tracker Console.disk Console.screen].
  rewrite add_record_unfold.
  match goal with |- context [save_data ?s0] =>
    destruct (save_data_effect s0) as (Hok & Hself & _ & Hsync & _);
    destruct (save_data s0) as [o s1]
  end.
  cbn [fst snd self fs with_plan data_file] in *. subst o.
  split; [reflexivity|].
  specialize (Hsync Hw). unfold in_sync in Hsync. rewrite Hself in Hsync.
  cbn [Console.disk]. exact Hsync.
Qed.

Lemma refused_entry_then_add_witness :
  fst (Console.run (add_record Samples.dime)
         (snd (Console.__init__ "financial_data.json"
                 (Cases.console_on (Cases.disk_with Cases.spoilt))))) = Console.Done tt
  /\ files (Console.disk
              (snd (Console.run (add_record Samples.dime)
                      (snd (Console.__init__ "financial_data.json"
                              (Cases.console_on (Cases.disk_with Cases.spoilt)))))))
       !! "financial_data.json"
     = Some {| doc_plans := [FinancialRecord.to_dict Samples.dime]; doc_trash_bin := [] |}.
Proof.
  apply (refused_entry_then_add "financial_data.json" Cases.spoilt
           (Cases.console_on (Cases.disk_with Cases.spoilt)) Samples.dime).
  - vm_compute. reflexivity.
  - right. left. exists ValueError. vm_compute. reflexivity.
  - reflexivity.
Defined.

End Loading.

(** ** The menu *)

Section MenuProperties.

Import FinanceTracker.

Variable float_of_str : string -> option float.
Variable strptime_mdY : string -> option Date.t.
Variable str_strip : string -> string.
Variable str_lower : string -> string.

Lemma read_record_type_rest (ins : list string) (s : state) kind rest :
  fst (read_record_type str_strip str_lower ins s) = Ok (kind, rest) ->
  (length rest <= length ins)%nat.
Proof.
  revert s. induction ins as [|l ins IH]; intros s; [discriminate|].
  cbn [read_record_type].
  destruct (String.eqb (str_lower (str_strip l)) "plan"
            || String.eqb (str_lower (str_strip l)) "allowance").
  - intros H. cbn in H. injection H as _ <-. cbn. lia.
  - rewrite bind_unfold. cbn [print]. intros H. apply IH in H. cbn. lia.
Qed.

Lemma read_date_rest (ins : list string) (s : state) date rest :
  fst (read_date strptime_mdY str_strip ins s) = Ok (date, rest) ->
  (length rest <= length ins)%nat.
Proof.
  revert s. induction ins as [|l ins IH]; intros s; [discriminate|].
  cbn [read_date]. destruct (strptime_mdY (str_strip l)).
  - intros H. cbn in H. injection H as _ <-. cbn. lia.
  - rewrite bind_unfold. cbn [print]. intros H. apply IH in H. cbn. lia.
Qed.

Lemma read_amount_rest (ins : list string) (s : state) amount rest :
  fst (read_amount float_of_str ins s) = Ok (amount, rest) ->
  (length rest <= length ins)%nat.
Proof.
  revert s. induction ins as [|l ins IH]; intros s; [discriminate|].
  cbn [read_amount]. destruct (float_of_str l) as [a|].
  - destruct (PrimFloat.leb a 0).
    + rewrite bind_unfold. cbn [print]. intros H. apply IH in H. cbn. lia.
    + intros H. cbn in H. injection H as _ <-. cbn. lia.
  - rewrite bind_unfold. cbn [print]. intros H. apply IH in H. cbn. lia.
Qed.

Lemma read_due_date_rest (kind : string) (ins : list string) (s : state) due rest :
  fst (read_due_date str_strip kind ins s) = Ok (due, rest) ->
  (length rest <= length ins)%nat.
Proof.
  unfold read_due_date. destruct (String.eqb kind "expense").
  - destruct ins as [|l ins]; [discriminate|].
    intros H. cbn in H. injection H as _ <-. cbn. lia.
  - intros H. cbn in H. injection H as _ <-. lia.
Qed.

(** [add_plan_interactive] hands back lines it was given, none more. *)
Lemma add_plan_interactive_rest (ins : list string) (s : state) (rest : list string) :
  fst (add_plan_interactive float_of_str strptime_mdY str_strip str_lower ins s) = Ok rest ->
  (length rest <= length ins)%nat.
Proof.
  unfold add_plan_interactive. rewrite bind_unfold. cbn [print]. rewrite bind_unfold.
  match goal with |- context [read_record_type str_strip str_lower ins ?st] =>
    pose proof (read_record_type_rest ins st) as H1;
    destruct (read_record_type str_strip str_lower ins st) as [[[kind ins1]|e] s1]
  end; [|discriminate].
  specialize (H1 kind ins1 eq_refl). rewrite bind_unfold.
  pose proof (read_date_rest ins1 s1) as H2.
  destruct (read_date strptime_mdY str_strip ins1 s1) as [[[date ins2]|e] s2];
    [|discriminate].
  specialize (H2 date ins2 eq_refl).
  destruct ins2 as [|l ins3]; [discriminate|]. cbn [length] in H2.
  destruct (String.eqb (str_strip l) "").
  { rewrite bind_unfold. cbn [print]. intros H. cbn in H. injection H as <-. lia. }
  rewrite bind_unfold.
  pose proof (read_amount_rest ins3 s2) as H3.
  destruct (read_amount float_of_str ins3 s2) as [[[amount ins4]|e] s3]; [|discriminate].
  specialize (H3 amount ins4 eq_refl). rewrite bind_unfold.
  pose proof (read_due_date_rest kind ins4 s3) as H4.
  destruct (read_due_date str_strip kind ins4 s3) as [[[due ins5]|e] s4]; [|discriminate].
  specialize (H4 due ins5 eq_refl).
  rewrite lift_bind. cbn [FinancialRecord.__init__]. rewrite bind_unfold.
  match goal with |- context [add_record ?r ?st] =>
    destruct (add_record r st) as [[[]|e] s5]
  end; [|discriminate].
  rewrite bind_unfold. cbn [print]. intros H. cbn in H. injection H as <-. lia.
Qed.

(** What a method of [FinanceTracker] leaves on the console. *)
Lemma run_snd {A : Type} (m : M A) (c : Console.t) :
  snd (Console.run m c) =
    {| Console.tracker := self (snd (m (Console.core c)));
       Console.disk := fs (snd (m (Console.core c)));
       Console.screen := Console.screen c ++ (Console.Core <$> stdout (snd (m (Console.core c)))) |}.
Proof. unfold Console.run. destruct (m (Console.core c)); reflexivity. Qed.

Lemma run_fst {A : Type} (m : M A) (c : Console.t) :
  fst (Console.run m c) =
    match fst (m (Console.core c)) with
    | Ok a => Console.Done a
    | Raise e => Console.Failed (Console.Exn e)
    end.
Proof. unfold Console.run. destruct (m (Console.core c)); reflexivity. Qed.

Lemma kept_refl (t : FinanceTracker.t) : kept t t.
Proof. split; [reflexivity|]. split; reflexivity. Qed.

Lemma kept_trans (t1 t2 t3 : FinanceTracker.t) : kept t1 t2 -> kept t2 t3 -> kept t1 t3.
Proof.
  intros (H1 & H2 & H3) (H4 & H5 & H6). repeat split; try congruence.
  etransitivity; eassumption.
Qed.

Lemma display_balance_report_tracker (c : Console.t) :
  Console.tracker (snd (Console.display_balance_report c)) = Console.tracker c.
Proof.
  unfold Console.display_balance_report. rewrite cbind_unfold.
  pose proof (run_snd calculate_balance c) as Hs.
  rewrite calculate_balance_snd in Hs.
  destruct (Console.run calculate_balance c) as [[b|f] c1]; cbn [snd] in Hs; subst c1;
    [|reflexivity].
  rewrite cbind_unfold. cbn [Console.cprint].
  repeat (rewrite clift_bind;
          match goal with |- context [match ?r with Ok _ => _ | Raise _ => _ end] =>
            destruct r; [|reflexivity]
          end;
          try (rewrite cbind_unfold; cbn [Console.cprint])).
  repeat match goal with |- context [if ?b then _ else _] => destruct b end;
    try reflexivity;
    rewrite clift_bind;
    match goal with |- context [match ?r with Ok _ => _ | Raise _ => _ end] =>
      destruct r; [|reflexivity]
    end;
    repeat match goal with |- context [if ?b then _ else _] => destruct b end;
    reflexivity.
Qed.

Lemma display_balance_report_not_stuck (c : Console.t) :
  fst (Console.display_balance_report c) <> Console.Failed Console.Stuck.
Proof.
  unfold Console.display_balance_report. rewrite cbind_unfold.
  pose proof (run_fst calculate_balance c) as Hf.
  destruct (Console.run calculate_balance c) as [[b|f] c1]; cbn [fst] in Hf.
  2:{ cbn [fst]. destruct (fst (calculate_balance (Console.core c))); [discriminate|].
      injection Hf as ->. discriminate. }
  rewrite cbind_unfold. cbn [Console.cprint].
  repeat (rewrite clift_bind;
          match goal with |- context [match ?r with Ok _ => _ | Raise _ => _ end] =>
            destruct r; [|discriminate]
          end;
          try (rewrite cbind_unfold; cbn [Console.cprint])).
  repeat match goal with |- context [if ?b then _ else _] => destruct b end;
    try discriminate;
    rewrite clift_bind;
    match goal with |- context [match ?r with Ok _ => _ | Raise _ => _ end] =>
      destruct r; [|discriminate]
    end;
    repeat match goal with |- context [if ?b then _ else _] => destruct b end;
    discriminate.
Qed.

Lemma add_plan_interactive_kept (ins : list string) (s : state) :
  kept (self s)
    (self (snd (add_plan_interactive float_of_str strptime_mdY str_strip str_lower ins s))).
Proof.
  destruct (add_plan_interactive_shape float_of_str strptime_mdY str_strip str_lower ins s)
    as [[ls H]|(r & kind & ls & H)]; rewrite H.
  - apply kept_refl.
  - cbn [printed self].
    match goal with |- context [save_data ?s0] =>
      destruct (save_data_effect s0) as (_ & Hself & _)
    end.
    rewrite Hself. cbn [self]. split; [reflexivity|]. split; [|reflexivity].
    exists [r]. reflexivity.
Qed.

(** The loop of the menu, given its measure: it is never stuck, and the
    tracker keeps what it had. *)
Lemma menu_loop_keeps (fuel : nat) (ins : list string) (c : Console.t) :
  (length ins <= fuel)%nat ->
  fst (Console.menu_loop float_of_str strptime_mdY str_strip str_lower fuel ins c)
    <> Console.Failed Console.Stuck
  /\ kept (Console.tracker c)
       (Console.tracker
          (snd (Console.menu_loop float_of_str strptime_mdY str_strip str_lower fuel ins c))).
Proof.
  revert ins c. induction fuel as [|fuel IH]; intros ins c Hlen.
  - destruct ins as [|l ins]; [|cbn in Hlen; lia].
    cbn. split; [discriminate|apply kept_refl].
  - cbn [Console.menu_loop]. rewrite cbind_unfold. cbn [Console.cprint].
    set (c0 := Console.shown c [Console.Menu]).
    assert (H0 : Console.tracker c0 = Console.tracker c) by reflexivity.
    rewrite <- H0. clearbody c0. clear H0.
    destruct ins as [|l ins]; [cbn; split; [discriminate|apply kept_refl]|].
    cbn [length] in Hlen.
    assert (Hstep : forall (c1 : Console.t),
              kept (Console.tracker c0) (Console.tracker c1) ->
              forall ins1, (length ins1 <= length ins)%nat ->
              fst (Console.menu_loop float_of_str strptime_mdY str_strip str_lower
                     fuel ins1 c1) <> Console.Failed Console.Stuck
              /\ kept (Console.tracker c0)
                   (Console.tracker
                      (snd (Console.menu_loop float_of_str strptime_mdY str_strip
                              str_lower fuel ins1 c1)))).
    { intros c1 Hk ins1 Hl1. destruct (IH ins1 c1 ltac:(lia)) as [Hs Hk1].
      split; [exact Hs|]. eapply kept_trans; eassumption. }
    destruct (String.eqb (str_strip l) "1").
    { rewrite cbind_unfold.
      pose proof (run_fst (add_plan_interactive float_of_str strptime_mdY str_strip
                             str_lower ins) c0) as Hf.
      pose proof (run_snd (add_plan_interactive float_of_str strptime_mdY str_strip
                             str_lower ins) c0) as Hsn.
      pose proof (add_plan_interactive_kept ins (Console.core c0)) as Hk.
      pose proof (add_plan_interactive_rest ins (Console.core c0)) as Hr.
      destruct (Console.run _ c0) as [[ins1|f] c1]; cbn [fst snd] in Hf, Hsn.
      - apply Hstep.
        + rewrite Hsn. exact Hk.
        + apply Hr.
          destruct (fst (add_plan_interactive float_of_str strptime_mdY str_strip
                           str_lower ins (Console.core c0))); [congruence|discriminate].
      - cbn [fst snd]. split.
        + destruct (fst (add_plan_interactive float_of_str strptime_mdY str_strip
                           str_lower ins (Console.core c0))); [discriminate|].
          injection Hf as ->. discriminate.
        + rewrite Hsn. exact Hk. }
    destruct (String.eqb (str_strip l) "2").
    { rewrite cbind_unfold.
      pose proof (run_fst view_plans c0) as Hf.
      pose proof (run_snd view_plans c0) as Hsn.
      destruct (view_plans_frame (Console.core c0)) as [ls Hls].
      rewrite Hls in Hsn.
      destruct (Console.run view_plans c0) as [[[]|f] c1]; cbn [fst snd] in Hf, Hsn.
      - apply Hstep; [rewrite Hsn; apply kept_refl|lia].
      - cbn [fst snd]. split.
        + destruct (fst (view_plans (Console.core c0))); [discriminate|].
          injection Hf as ->. discriminate.
        + rewrite Hsn. apply kept_refl. }
    destruct (String.eqb (str_strip l) "3").
    { rewrite cbind_unfold.
      pose proof (display_balance_report_tracker c0) as Ht.
      pose proof (display_balance_report_not_stuck c0) as Hns.
      destruct (Console.display_balance_report c0) as [[[]|f] c1]; cbn [fst snd] in Ht, Hns.
      - apply Hstep; [rewrite Ht; apply kept_refl|lia].
      - cbn [fst snd]. split; [intros E; apply Hns; injection E as ->; reflexivity|
                               rewrite Ht; apply kept_refl]. }
    destruct (String.eqb (str_strip l) "4").
    { rewrite cbind_unfold.
      pose proof (run_fst view_upcoming_due_dates c0) as Hf.
      pose proof (run_snd view_upcoming_due_dates c0) as Hsn.
      destruct (view_upcoming_due_dates_frame (Console.core c0)) as [ls Hls].
      rewrite Hls in Hsn.
      destruct (Console.run view_upcoming_due_dates c0) as [[[]|f] c1];
        cbn [fst snd] in Hf, Hsn.
      - apply Hstep; [rewrite Hsn; apply kept_refl|lia].
      - cbn [fst snd]. split.
        + destruct (fst (view_upcoming_due_dates (Console.core c0))); [discriminate|].
          injection Hf as ->. discriminate.
        + rewrite Hsn. apply kept_refl. }
    destruct (String.eqb (str_strip l) "5").
    { cbn. split; [discriminate|apply kept_refl]. }
    destruct (String.eqb (str_strip l) "6").
    { cbn. split; [discriminate|apply kept_refl]. }
    rewrite cbind_unfold. cbn [Console.cprint].
    apply Hstep; [apply kept_refl|lia].
Qed.

(** X16: no session of the menu removes or changes a record.  Whatever
    lines are typed, the loop of [main] comes to an end (by choice 6 or
    by an exception, the end of the input among them), and at that end
    [trash_bin] is what the start loaded and the plans loaded are still
    the first plans, in their order: plans can only have been added
    behind them.  ([delete_plan] and [view_trash_bin] are not on the
    menu.) *)
Theorem menu_session_keeps (ins : list string) (c : Console.t) :
  fst (Console.main float_of_str strptime_mdY str_strip str_lower ins c)
    <> Console.Failed Console.Stuck
  /\ kept (Console.tracker (snd (Console.__init__ "financial_data.json" c)))
       (Console.tracker
          (snd (Console.main float_of_str strptime_mdY str_strip str_lower ins c))).
Proof.
  unfold Console.main. rewrite cbind_unfold.
  rewrite init_cases. cbv beta iota.
  match goal with |- context [Console.menu_loop _ _ _ _ _ ins ?c1] =>
    destruct (menu_loop_keeps (length ins) ins c1 (le_n _)) as [H1 H2]
  end.
  cbn [snd]. split; assumption.
Qed.

(** X17: choice 5 of the menu ends the program with an [AttributeError]:
    [main] calls [tracker.export_data_to_file()], and the class has no
    such method.  When the first line typed is 5, [main] fails with that
    error right after the start and the first showing of the menu;
    nothing is exported and the lines after it are not read. *)
Theorem menu_choice_5 (l : string) (rest : list string) (c : Console.t) :
  str_strip l = "5" ->
  Console.main float_of_str strptime_mdY str_strip str_lower (l :: rest) c =
    (Console.Failed (Console.AttributeError "export_data_to_file"),
     Console.shown (snd (Console.__init__ "financial_data.json" c)) [Console.Menu]).
Proof.
  intros Hl. unfold Console.main. rewrite cbind_unfold, init_cases. cbv beta iota.
  cbn [length Console.menu_loop]. rewrite cbind_unfold. cbn [Console.cprint snd].
  rewrite Hl. reflexivity.
Qed.

End MenuProperties.


Lemma menu_choice_5_witness :
  Console.main Samples.float_of_sample Samples.date_of_sample Samples.as_it_is
    Samples.as_it_is ["5"; "6"] (Cases.console_on Samples.read_write) =
    (Console.Failed (Console.AttributeError "export_data_to_file"),
     Console.shown (snd (Console.__init__ "financial_data.json"
                           (Cases.console_on Samples.read_write))) [Console.Menu]).
Proof.
  apply (menu_choice_5 Samples.float_of_sample Samples.date_of_sample Samples.as_it_is
           Samples.as_it_is "5" ["6"] (Cases.console_on Samples.read_write)).
  reflexivity.
Defined.

(** A session: a plan is entered, the balance is asked for, a wrong
    choice is made, and the program is left. *)
Example menu_session :
  Console.main Samples.float_of_sample Samples.date_of_sample Samples.as_it_is
    Samples.as_it_is
    ["1"; "plan"; "01-01-2024"; "Rent"; "500"; "2024-01-05"; "3"; "9"; "6"; "1"]
    (Cases.console_on Samples.read_write)
  = (Console.Done ["1"],
     {| Console.tracker := Samples.tracker_of [Samples.rent] [];
        Console.disk :=
          {| writable := fun _ => true;
             files := {["financial_data.json" :=
                          {| doc_plans := [FinancialRecord.to_dict Samples.rent];
                             doc_trash_bin := [] |}]} |};
        Console.screen :=
          [Console.Menu; Console.Core AddHeader; Console.Core (Added "expense");
           Console.Menu; Console.ReportHeader; Console.TotalAllowances (VInt 0);
           Console.TotalPlans (VFloat 500); Console.NetBalance (VFloat (-500));
           Console.StatusAlert;
           Console.Menu; Console.InvalidChoice;
           Console.Menu; Console.Goodbye] |}).
Proof. vm_compute. reflexivity. Qed.

(** ** The reports *)

Section Reports.

Import FinanceTracker.

Lemma zero_is_zero : Prim2SF 0%float = S754_zero false.
Proof. vm_compute. reflexivity. Qed.

(** The exact comparison of a float with the integer 0 is the comparison
    of floats. *)
Lemma int_lt_float_0 (f : float) : int_lt_float 0 f = PrimFloat.ltb 0 f.
Proof.
  rewrite ltb_spec, zero_is_zero. unfold int_lt_float, SFltb, SFcompare, signed.
  destruct (Prim2SF f) as [s|s| |s m e]; try reflexivity.
  - destruct s; reflexivity.
  - destruct s.
    + destruct (0 <=? e) eqn:E; [|reflexivity].
      apply Z.leb_le in E. apply Z.ltb_ge.
      assert (0 < 2 ^ e) by (apply Z.pow_pos_nonneg; lia). nia.
    + destruct (0 <=? e) eqn:E; [|reflexivity].
      apply Z.leb_le in E. apply Z.ltb_lt.
      assert (0 < 2 ^ e) by (apply Z.pow_pos_nonneg; lia). nia.
Qed.

Lemma float_lt_int_0 (f : float) : float_lt_int f 0 = PrimFloat.ltb f 0.
Proof.
  rewrite ltb_spec, zero_is_zero. unfold float_lt_int, SFltb, SFcompare, signed.
  destruct (Prim2SF f) as [s|s| |s m e]; try reflexivity.
  - destruct s; reflexivity.
  - destruct s.
    + destruct (0 <=? e) eqn:E; [|reflexivity].
      apply Z.leb_le in E. apply Z.ltb_lt.
      assert (0 < 2 ^ e) by (apply Z.pow_pos_nonneg; lia). nia.
    + destruct (0 <=? e) eqn:E; [|reflexivity].
      apply Z.leb_le in E. apply Z.ltb_ge.
      assert (0 < 2 ^ e) by (apply Z.pow_pos_nonneg; lia). nia.
Qed.

Lemma format_2f_float_total (l : list float) : format_2f (float_total l) = Ok tt.
Proof. destruct l; reflexivity. Qed.

Lemma run_calculate_balance (c : Console.t) :
  Console.run calculate_balance c =
    (match fst (calculate_balance (Console.core c)) with
     | Ok b => Console.Done b
     | Raise e => Console.Failed (Console.Exn e)
     end, c).
Proof.
  pose proof (run_fst calculate_balance c) as Hf.
  pose proof (run_snd calculate_balance c) as Hs.
  rewrite calculate_balance_snd in Hs. cbn [Console.core self fs stdout fmap list_fmap] in Hs.
  rewrite app_nil_r, console_eta in Hs.
  destruct (Console.run calculate_balance c) as [o c1]. cbn [fst snd] in *.
  subst. reflexivity.
Qed.

(** X18: the balance report on float amounts.  When the amounts of the
    active income records are the floats [inc] and those of the active
    expense records the floats [exp], [display_balance_report] prints the
    header, the two totals, the net balance, and a status that follows the
    net balance: [Good] when it is above 0, [ALERT] when it is below 0,
    and [Zero Balance] otherwise, which covers a balance of 0 and a
    balance that is not a number.  The tracker and the files are not
    changed. *)
Theorem display_balance_report_floats (c : Console.t) (inc exp : list float) :
  FinancialRecord.amount <$> List.filter is_income (plans (Console.tracker c))
    = VFloat <$> inc ->
  FinancialRecord.amount <$> List.filter is_expense (plans (Console.tracker c))
    = VFloat <$> exp ->
  Console.display_balance_report c =
    (Console.Done tt,
     Console.shown c [Console.ReportHeader;
                      Console.TotalAllowances (float_total inc);
                      Console.TotalPlans (float_total exp);
                      Console.NetBalance (net_total inc exp);
                      status_of (net_total inc exp)]).
Proof.
  intros Hi He. unfold Console.display_balance_report.
  rewrite cbind_unfold, run_calculate_balance, calculate_balance_fst.
  cbn [Console.core self]. rewrite Hi, He, !py_sum_floats. cbn [mbind result_bind].
  rewrite py_sub_totals. cbn [mbind result_bind income expenses net_balance].
  rewrite cbind_unfold. cbn [Console.cprint].
  rewrite clift_bind, format_2f_float_total, cbind_unfold. cbn [Console.cprint].
  rewrite clift_bind, format_2f_float_total, cbind_unfold. cbn [Console.cprint].
  assert (Hnet : format_2f (net_total inc exp) = Ok tt)
    by (destruct inc, exp; reflexivity).
  rewrite clift_bind, Hnet, cbind_unfold. cbn [Console.cprint].
  rewrite clift_bind. rewrite !shown_shown. cbn [app].
  unfold Console.py_gt, status_of.
  destruct (net_total inc exp) as [| |z|f|] eqn:En;
    try (destruct inc, exp; discriminate En).
  - assert (z = 0) as ->.
    { destruct inc, exp; try discriminate En. unfold net_total in En.
      injection En as <-. reflexivity. }
    cbn [py_lt as_num Z.ltb Z.compare]. rewrite clift_bind. cbv beta iota.
    unfold Console.cprint.
    rewrite shown_shown. reflexivity.
  - unfold py_lt. cbn [as_num]. rewrite int_lt_float_0.
    destruct (PrimFloat.ltb 0 f).
    + unfold Console.cprint. rewrite shown_shown. reflexivity.
    + rewrite clift_bind. rewrite float_lt_int_0.
      destruct (PrimFloat.ltb f 0); unfold Console.cprint; rewrite shown_shown; reflexivity.
Qed.

Lemma display_balance_report_floats_witness :
  Console.display_balance_report
    {| Console.tracker := Samples.tracker_of [Samples.rent; Samples.salary] [];
       Console.disk := Samples.read_write;
       Console.screen := [] |} =
    (Console.Done tt,
     Console.shown
       {| Console.tracker := Samples.tracker_of [Samples.rent; Samples.salary] [];
          Console.disk := Samples.read_write;
          Console.screen := [] |}
       [Console.ReportHeader;
        Console.TotalAllowances (float_total [2000%float]);
        Console.TotalPlans (float_total [500%float]);
        Console.NetBalance (net_total [2000%float] [500%float]);
        status_of (net_total [2000%float] [500%float])]).
Proof.
  apply (display_balance_report_floats _ [2000%float] [500%float]); reflexivity.
Defined.

(** A balance that is not a number is reported as a zero balance. *)
Example display_balance_report_nan :
  Console.screen
    (snd (Console.display_balance_report
            {| Console.tracker :=
                 Samples.tracker_of
                   [FinancialRecord.mk Samples.new_year (VStr "Salary") (VFloat nan)
                      VNone (VStr "income")] [];
               Console.disk := Samples.read_write;
               Console.screen := [] |}))
  = [Console.ReportHeader; Console.TotalAllowances (VFloat nan);
     Console.TotalPlans (VInt 0); Console.NetBalance (VFloat nan); Console.StatusZero].
Proof. vm_compute. reflexivity. Qed.

(** X19: [view_trash_bin] prints [Trash bin is empty.] when the trash is
    empty (and not the [No records to display.] of an empty table);
    otherwise, the records of the trash being such as can be shown, it
    prints its header and then the table of the trash: one row for each
    record, in the order in which they were deleted, numbered from 1.  It
    changes neither tracker nor files. *)
Theorem view_trash_bin_rows (c : Console.t) :
  Forall displayable (trash_bin (Console.tracker c)) ->
  Console.view_trash_bin c =
    (Console.Done tt,
     Console.shown c
       match trash_bin (Console.tracker c) with
       | [] => [Console.TrashEmpty]
       | _ => Console.TrashHeader
              :: (Console.Core <$>
                    (TableHeader :: TableRule
                     :: imap (fun i r => TableRow (Z.of_nat i + 1) r)
                          (trash_bin (Console.tracker c))))
       end).
Proof.
  intros Hl. unfold Console.view_trash_bin. rewrite cbind_unfold. cbn [Console.get_tracker].
  destruct (trash_bin (Console.tracker c)) as [|r l] eqn:Et; [reflexivity|].
  rewrite cbind_unfold. cbn [Console.cprint].
  unfold Console.run, view_plans_of.
  remember (r :: l) as tl eqn:Etl.
  assert (Hrows : (_ ← print TableHeader; _ ← print TableRule; view_rows 0 tl)
                    (Console.core (Console.shown c [Console.TrashHeader]))
                  = (Ok tt, printed (Console.core (Console.shown c [Console.TrashHeader]))
                              (TableHeader :: TableRule
                               :: imap (fun i r => TableRow (Z.of_nat i + 1) r) tl))).
  { do 2 (rewrite bind_unfold; cbn [print]).
    match goal with |- context [view_rows 0 tl ?st] =>
      rewrite (view_rows_rows tl 0 st Hl)
    end.
    unfold printed. cbn [self fs stdout Console.core]. cbn [app]. reflexivity. }
  subst tl. cbv beta iota. rewrite Hrows.
  unfold Console.shown, printed, Console.core. cbn [self fs stdout Console.tracker
    Console.disk Console.screen]. cbn [app]. rewrite <- app_assoc. reflexivity.
Qed.

Lemma view_trash_bin_rows_witness :
  Console.view_trash_bin
    {| Console.tracker := Samples.tracker_of [Samples.salary] [Samples.rent];
       Console.disk := Samples.read_write;
       Console.screen := [] |} =
    (Console.Done tt,
     Console.shown
       {| Console.tracker := Samples.tracker_of [Samples.salary] [Samples.rent];
          Console.disk := Samples.read_write;
          Console.screen := [] |}
       (Console.TrashHeader
        :: (Console.Core <$>
              (TableHeader :: TableRule
               :: imap (fun i r => TableRow (Z.of_nat i + 1) r) [Samples.rent])))).
Proof.
  apply (view_trash_bin_rows
           {| Console.tracker := Samples.tracker_of [Samples.salary] [Samples.rent];
              Console.disk := Samples.read_write;
              Console.screen := [] |}).
  repeat constructor.
Defined.

End Reports.

(** ** Sorting keys of two kinds *)

Section MixedKeys.

Context {A : Type} (key : A -> pyval).

Local Abbreviation text_key := (fun a => exists t, key a = VStr t).
Local Abbreviation number_key := (fun a => as_num (key a) <> None).

Lemma py_lt_raises (a b : pyval) (e : exn) : py_lt a b = Raise e -> e = TypeError.
Proof.
  unfold py_lt. destruct a, b; cbn [as_num]; intros H; try discriminate H;
    injection H as <-; reflexivity.
Qed.

Lemma py_lt_same_kind (a b : pyval) (v : bool) :
  py_lt a b = Ok v ->
  ((exists s, a = VStr s) /\ (exists t, b = VStr t))
  \/ (as_num a <> None /\ as_num b <> None).
Proof.
  unfold py_lt. destruct a, b; cbn [as_num]; intros H; try discriminate H;
    try (left; split; eexists; reflexivity);
    right; split; discriminate.
Qed.

Lemma insert_by_key_outcome (x : A) (l : list A) :
  match insert_by_key key x l with
  | Ok r => Permutation r (x :: l)
  | Raise e => e = TypeError
  end.
Proof.
  induction l as [|y l IH]; [cbn; reflexivity|].
  cbn [insert_by_key]. destruct (py_lt (key y) (key x)) as [[]|e] eqn:E;
    cbn [mbind result_bind].
  - destruct (insert_by_key key x l) as [r|e]; cbn [mbind result_bind]; [|exact IH].
    rewrite IH. apply perm_swap.
  - reflexivity.
  - eapply py_lt_raises. exact E.
Qed.

Lemma py_sorted_outcome (l : list A) :
  match py_sorted key l with
  | Ok r => Permutation r l
  | Raise e => e = TypeError
  end.
Proof.
  induction l as [|x l IH]; [cbn; reflexivity|].
  cbn [py_sorted]. destruct (py_sorted key l) as [r|e]; cbn [mbind result_bind];
    [|exact IH].
  pose proof (insert_by_key_outcome x r) as H.
  destruct (insert_by_key key x r) as [r'|e]; [|exact H].
  rewrite H, IH. reflexivity.
Qed.

(** When [sorted] returns, the keys were all strings or all numbers. *)
Lemma py_sorted_one_kind (l r : list A) :
  Forall (fun a => text_key a \/ number_key a) l ->
  py_sorted key l = Ok r ->
  Forall text_key l \/ Forall number_key l.
Proof.
  revert r. induction l as [|x l IH]; intros r Hl H; [left; constructor|].
  apply Forall_cons in Hl. destruct Hl as [Hx Hl].
  cbn [py_sorted] in H.
  pose proof (py_sorted_outcome l) as Hperm.
  destruct (py_sorted key l) as [r'|e] eqn:Er; [|discriminate H].
  cbn [mbind result_bind] in H.
  destruct (IH r' Hl eq_refl) as [Hs|Hn].
  - destruct r' as [|y r''].
    + apply Permutation_nil in Hperm. subst l.
      destruct Hx; [left|right]; constructor; auto.
    + cbn [insert_by_key] in H.
      destruct (py_lt (key y) (key x)) as [v|e] eqn:E; [|discriminate H].
      apply py_lt_same_kind in E.
      assert (Hy : text_key y).
      { apply (proj1 (Forall_forall _ _) Hs). rewrite <- Hperm. left. }
      destruct Hy as [t Hy]. left. constructor; [|exact Hs].
      destruct E as [[_ Ex]|[En _]]; [exact Ex|].
      rewrite Hy in En. cbn in En. congruence.
  - destruct r' as [|y r''].
    + apply Permutation_nil in Hperm. subst l.
      destruct Hx; [left|right]; constructor; auto.
    + cbn [insert_by_key] in H.
      destruct (py_lt (key y) (key x)) as [v|e] eqn:E; [|discriminate H].
      apply py_lt_same_kind in E.
      assert (Hy : number_key y).
      { apply (proj1 (Forall_forall _ _) Hn). rewrite <- Hperm. left. }
      right. constructor; [|exact Hn].
      destruct E as [[[t Ey] _]|[_ En]]; [|exact En].
      cbn in Hy. rewrite Ey in Hy. cbn in Hy. congruence.
Qed.

End MixedKeys.

Section MixedDueDates.

Import FinanceTracker.

(** X20: due dates of two kinds cannot be put in order.  When among the
    active expenses with a due date one has a string for it and another a
    number (as a data file can hold), [view_upcoming_due_dates] prints its
    header and then raises [TypeError] from the sorting; no due date is
    listed. *)
Theorem view_upcoming_due_dates_mixed (s : state) (a b : FinancialRecord.t) (t : string) :
  In a (plans (self s)) -> has_due a = true -> FinancialRecord.due_date a = VStr t ->
  In b (plans (self s)) -> has_due b = true -> as_num (FinancialRecord.due_date b) <> None ->
  view_upcoming_due_dates s = (Raise TypeError, printed s [UpcomingHeader]).
Proof.
  intros Ha Hda Hta Hb Hdb Hnb.
  assert (Hina : In a (List.filter has_due (plans (self s))))
    by (apply List.filter_In; auto).
  assert (Hinb : In b (List.filter has_due (plans (self s))))
    by (apply List.filter_In; auto).
  assert (Hkinds : Forall (fun r => (exists t, FinancialRecord.due_date r = VStr t)
                                    \/ as_num (FinancialRecord.due_date r) <> None)
                     (List.filter has_due (plans (self s)))).
  { apply List.Forall_forall. intros r Hr. apply List.filter_In in Hr.
    destruct Hr as [_ Hr]. unfold has_due in Hr. apply andb_true_iff in Hr.
    destruct Hr as [_ Hr].
    destruct (FinancialRecord.due_date r); cbn in Hr |- *;
      [discriminate Hr|right; discriminate..|left; eauto]. }
  unfold view_upcoming_due_dates. rewrite bind_unfold. cbn [get_self].
  assert (Hne : forall (X : Type) (x y : X),
            match List.filter has_due (plans (self s)) with [] => x | _ :: _ => y end = y)
    by (intros; destruct (List.filter has_due (plans (self s))); [destruct Hina|reflexivity]).
  rewrite Hne. rewrite bind_unfold. cbn [print]. rewrite lift_bind.
  pose proof (py_sorted_outcome FinancialRecord.due_date
                (List.filter has_due (plans (self s)))) as Hout.
  pose proof (py_sorted_one_kind FinancialRecord.due_date
                (List.filter has_due (plans (self s)))) as Hone.
  destruct (py_sorted FinancialRecord.due_date (List.filter has_due (plans (self s))))
    as [ordered|e].
  - exfalso. destruct (Hone ordered Hkinds eq_refl) as [Hs|Hn].
    + destruct (proj1 (List.Forall_forall _ _) Hs b Hinb) as [u Hu].
      rewrite Hu in Hnb. cbn in Hnb. congruence.
    + pose proof (proj1 (List.Forall_forall _ _) Hn a Hina) as Hn'.
      cbn in Hn'. rewrite Hta in Hn'. cbn in Hn'. congruence.
  - subst e. reflexivity.
Qed.

Lemma view_upcoming_due_dates_mixed_witness :
  view_upcoming_due_dates
    (Samples.state_of
       [Samples.rent;
        FinancialRecord.mk Samples.new_year (VStr "Water") (VFloat 100) (VInt 20240110)
          (VStr "expense")] [] Samples.read_write)
  = (Raise TypeError,
     printed (Samples.state_of
                [Samples.rent;
                 FinancialRecord.mk Samples.new_year (VStr "Water") (VFloat 100)
                   (VInt 20240110) (VStr "expense")] [] Samples.read_write)
       [UpcomingHeader]).
Proof.
  apply (view_upcoming_due_dates_mixed _ Samples.rent
           (FinancialRecord.mk Samples.new_year (VStr "Water") (VFloat 100)
              (VInt 20240110) (VStr "expense")) "2024-01-05").
  - left. reflexivity.
  - reflexivity.
  - reflexivity.
  - right. left. reflexivity.
  - reflexivity.
  - discriminate.
Defined.

End MixedDueDates.

(** ** Entering a record *)

Section Entering.

Import FinanceTracker.

Variable float_of_str : string -> option float.
Variable strptime_mdY : string -> option Date.t.
Variable str_strip : string -> string.
Variable str_lower : string -> string.

(** X21: an empty description is not asked for again.  When the kind and
    the date typed are accepted and the description is empty after
    stripping, [add_plan_interactive] prints [Description cannot be
    empty.] and returns: no record is added, nothing is saved, and the
    amount is never asked for, whereas a wrong kind, date or amount is
    asked for again. *)
Theorem add_plan_interactive_empty_description
  (l1 l2 l3 : string) (rest : list string) (date : Date.t) (s : state) :
  String.eqb (str_lower (str_strip l1)) "plan"
  || String.eqb (str_lower (str_strip l1)) "allowance" = true ->
  strptime_mdY (str_strip l2) = Some date ->
  str_strip l3 = "" ->
  add_plan_interactive float_of_str strptime_mdY str_strip str_lower
    (l1 :: l2 :: l3 :: rest) s
  = (Ok rest, printed s [AddHeader; EmptyDescription]).
Proof.
  intros H1 H2 H3. unfold add_plan_interactive.
  rewrite bind_unfold. cbn [print]. rewrite bind_unfold.
  cbn [read_record_type]. rewrite H1. unfold mret at 1, M_ret. cbv beta iota.
  rewrite bind_unfold. cbn [read_date]. rewrite H2. unfold mret at 1, M_ret. cbv beta iota.
  rewrite H3. cbn [String.eqb]. rewrite bind_unfold. cbn [print].
  unfold mret, M_ret, printed. cbn [self fs stdout]. rewrite <- app_assoc. reflexivity.
Qed.

(** X22: success is reported although the save failed.  When the data
    file cannot be written and [add_plan_interactive] adds a record, the
    last two lines it prints are [Error saving data: ...] and [... record
    added successfully!]: the record is in [plans], and the files are as
    they were. *)
Theorem add_plan_interactive_unsaved (ins : list string) (s : state) :
  writable (fs s) (data_file (self s)) = false ->
  plans (self (snd (add_plan_interactive float_of_str strptime_mdY str_strip str_lower
                      ins s))) <> plans (self s) ->
  exists ls kind r,
    stdout (snd (add_plan_interactive float_of_str strptime_mdY str_strip str_lower ins s))
    = (stdout s ++ ls ++ [ErrorSaving OSError; Added kind])%list
    /\ plans (self (snd (add_plan_interactive float_of_str strptime_mdY str_strip
                           str_lower ins s))) = (plans (self s) ++ [r])%list
    /\ fs (snd (add_plan_interactive float_of_str strptime_mdY str_strip str_lower ins s))
       = fs s.
Proof.
  intros Hw Hch.
  destruct (add_plan_interactive_shape float_of_str strptime_mdY str_strip str_lower ins s)
    as [[ls H]|(r & kind & ls & H)]; rewrite H in Hch |- *.
  - exfalso. apply Hch. reflexivity.
  - exists ls, kind, r.
    match goal with |- context [save_data ?s0] =>
      destruct (save_data_effect s0) as (_ & _ & _ & _ & Hun)
    end.
    rewrite (Hun Hw). cbn [printed self fs stdout with_plan plans].
    rewrite <- !app_assoc. cbn [app]. repeat split.
Qed.

End Entering.

Lemma add_plan_interactive_empty_description_witness :
  FinanceTracker.add_plan_interactive Samples.float_of_sample Samples.date_of_sample Samples.as_it_is
    Samples.as_it_is ["plan"; "01-01-2024"; ""; "500"] Samples.empty
  = (Ok ["500"], FinanceTracker.printed Samples.empty [AddHeader; EmptyDescription]).
Proof.
  apply (add_plan_interactive_empty_description Samples.float_of_sample
           Samples.date_of_sample Samples.as_it_is Samples.as_it_is
           "plan" "01-01-2024" "" ["500"] (Date.mk 2024 1 1)); reflexivity.
Defined.

Lemma add_plan_interactive_unsaved_witness :
  exists ls kind r,
    FinanceTracker.stdout
      (snd (FinanceTracker.add_plan_interactive Samples.float_of_sample Samples.date_of_sample
              Samples.as_it_is Samples.as_it_is
              ["allowance"; "01-02-2024"; "Salary"; "2000"]
              (Samples.state_of [] [] Samples.read_only)))
    = (FinanceTracker.stdout (Samples.state_of [] [] Samples.read_only)
       ++ ls ++ [ErrorSaving OSError; Added kind])%list
    /\ FinanceTracker.plans
         (FinanceTracker.self
            (snd (FinanceTracker.add_plan_interactive Samples.float_of_sample Samples.date_of_sample
                    Samples.as_it_is Samples.as_it_is
                    ["allowance"; "01-02-2024"; "Salary"; "2000"]
                    (Samples.state_of [] [] Samples.read_only))))
       = (FinanceTracker.plans (FinanceTracker.self (Samples.state_of [] [] Samples.read_only))
          ++ [r])%list
    /\ FinanceTracker.fs
         (snd (FinanceTracker.add_plan_interactive Samples.float_of_sample Samples.date_of_sample
                 Samples.as_it_is Samples.as_it_is
                 ["allowance"; "01-02-2024"; "Salary"; "2000"]
                 (Samples.state_of [] [] Samples.read_only)))
       = FinanceTracker.fs (Samples.state_of [] [] Samples.read_only).
Proof.
  apply (add_plan_interactive_unsaved Samples.float_of_sample Samples.date_of_sample
           Samples.as_it_is Samples.as_it_is
           ["allowance"; "01-02-2024"; "Salary"; "2000"]
           (Samples.state_of [] [] Samples.read_only)).
  - reflexivity.
  - vm_compute. discriminate.
Defined.
